(** * Crime-pattern analysis engine (AIAnalysisService)

    A shallow embedding of the analysis service of [config/config.js]
    (class [AIAnalysisService]) and of the mode predicates of its [config]
    object, the properties its specification states, and further
    properties read off the code.

    Conventions of the embedding.
    - JavaScript numbers are exact rationals ([Q]); counts and array lengths
      are [nat]; a [Date] is its time value, an integer number of
      milliseconds since the epoch ([Z]).  Strings are ASCII text.
    - An incident is what the service reads of it: [_id], [type],
      [severity], [location] and [dateTime].  Crime types and severities
      range over the labels of the incident schema and of the service's
      severity table.
    - A plain JavaScript object used as a dictionary is the list of its own
      properties in creation order; [Object_entries] enumerates it the way
      the language does (array-index keys ascending, then the other keys in
      creation order), and a read of a missing key sees [Object.prototype].
    - An exception is the [Throw] outcome of the [Res] monad; the
      orchestrator runs in [M], which adds the trace of what it did: the
      lines it logs and the detectors it invokes.
    - [Array.prototype.sort] is stable; with a comparator that is a total
      preorder its result is the unique stable ordering, computed here by
      insertion.  Without a comparator it orders the elements by their
      string forms.
    - The wall clock ([new Date()]), the offset of local time and the
      incident store ([Incident.find]) are parameters of the service.

    The file has the configuration and the service first
    ([Section Service]), then the vocabulary of the properties and sample
    data, then the facts, the properties of the specification, C1 to C10,
    and last further properties of the code, X1 to X28. *)

From Stdlib Require Import List ZArith QArith Qminmax Qround String Ascii Bool.
From Stdlib Require Import Lia Lqa Permutation Sorted.
From Stdlib Require Import DecimalString DecimalN DecimalPos.
Import ListNotations.

Set Implicit Arguments.

(* ================================================================= *)
(** ** Outcomes of a call: a value or an exception *)

Inductive Exn : Type :=
| TypeError (what : string)
| QueryError.

Inductive Res (A : Type) : Type :=
| Ok (a : A)
| Throw (e : Exn).
Arguments Ok {A} a.
Arguments Throw {A} e.

Definition rbind {A B} (r : Res A) (k : A -> Res B) : Res B :=
  match r with
  | Ok a => k a
  | Throw e => Throw e
  end.

Declare Scope res_scope.
Delimit Scope res_scope with res.
Notation "x <- c ;; k" := (rbind c (fun x => k))
  (at level 61, c at next level, right associativity) : res_scope.

(** A [for ... of] loop whose body may throw and pushes zero or more
    elements onto an accumulating array. *)
Fixpoint for_push {A B} (body : A -> Res (list B)) (l : list A)
  : Res (list B) :=
  match l with
  | [] => Ok []
  | x :: rest =>
      (here <- body x ;;
       more <- for_push body rest ;;
       Ok (here ++ more))%res
  end.

(* ================================================================= *)
(** ** Strings and numbers of the host language *)

Module JS.

Local Open Scope string_scope.

(** [Number.prototype.toString] on an integer value. *)
Definition string_of_Z (z : Z) : string :=
  NilZero.string_of_int (Z.to_int z).

Definition string_of_nat (n : nat) : string := string_of_Z (Z.of_nat n).

(** [String.prototype.toLowerCase], on ASCII text. *)
Definition lower_ascii (c : ascii) : ascii :=
  let n := nat_of_ascii c in
  if (65 <=? n)%nat && (n <=? 90)%nat then ascii_of_nat (n + 32) else c.

Fixpoint toLowerCase (s : string) : string :=
  match s with
  | EmptyString => EmptyString
  | String c r => String (lower_ascii c) (toLowerCase r)
  end.

(** White space removed by [String.prototype.trim], on ASCII text:
    TAB, LF, VT, FF, CR and SPACE. *)
Definition is_space (c : ascii) : bool :=
  let n := nat_of_ascii c in
  ((9 <=? n)%nat && (n <=? 13)%nat) || (n =? 32)%nat.

Fixpoint trimStart (s : string) : string :=
  match s with
  | EmptyString => EmptyString
  | String c r => if is_space c then trimStart r else s
  end.

Fixpoint trimEnd (s : string) : string :=
  match s with
  | EmptyString => EmptyString
  | String c r =>
      match trimEnd r with
      | EmptyString => if is_space c then EmptyString else String c EmptyString
      | r' => String c r'
      end
  end.

Definition trim (s : string) : string := trimEnd (trimStart s).

(** Property keys.  A string that is the canonical decimal form of an
    integer in [0, 2^32 - 2] is an array index. *)
Inductive PropKey : Type :=
| Idx (n : N)
| Name (s : string).

Definition array_index (s : string) : option N :=
  match NilZero.uint_of_string s with
  | Some u =>
      let n := N.of_uint u in
      if (NilZero.string_of_uint (N.to_uint n) =? s) && (n <=? 4294967294)%N
      then Some n else None
  | None => None
  end.

Definition key_of_string (s : string) : PropKey :=
  match array_index s with
  | Some n => Idx n
  | None => Name s
  end.

Definition key_string (k : PropKey) : string :=
  match k with
  | Idx n => NilZero.string_of_uint (N.to_uint n)
  | Name s => s
  end.

Definition key_eqb (a b : PropKey) : bool :=
  match a, b with
  | Idx n, Idx m => (n =? m)%N
  | Name s, Name t => (s =? t)
  | _, _ => false
  end.

(** [parseInt] of a key produced by [Object.entries] from a numeric key. *)
Definition parseInt_key (k : PropKey) : option Z :=
  match k with
  | Idx n => Some (Z.of_N n)
  | Name _ => None
  end.

(** Names every object inherits from [Object.prototype]: a read of one of
    them on a dictionary that has no such own property is truthy. *)
Definition prototype_names : list string :=
  [ "constructor"; "__proto__"; "hasOwnProperty"; "isPrototypeOf";
    "propertyIsEnumerable"; "toLocaleString"; "toString"; "valueOf";
    "__defineGetter__"; "__defineSetter__"; "__lookupGetter__";
    "__lookupSetter__" ].

Definition on_prototype (k : PropKey) : bool :=
  match k with
  | Idx _ => false
  | Name s => existsb (String.eqb s) prototype_names
  end.

(** Own properties of a dictionary object, in creation order. *)
Definition Obj (V : Type) : Type := list (PropKey * V).

Fixpoint own_get {V} (k : PropKey) (o : Obj V) : option V :=
  match o with
  | [] => None
  | (k', v) :: rest => if key_eqb k k' then Some v else own_get k rest
  end.

(** [o[k] = v]: an existing property keeps its place. *)
Fixpoint obj_set {V} (k : PropKey) (v : V) (o : Obj V) : Obj V :=
  match o with
  | [] => [(k, v)]
  | (k', v') :: rest =>
      if key_eqb k k' then (k', v) :: rest else (k', v') :: obj_set k v rest
  end.

Definition is_idx {V} (e : PropKey * V) : bool :=
  match fst e with Idx _ => true | Name _ => false end.

Definition idx_of (k : PropKey) : N :=
  match k with Idx n => n | Name _ => 0%N end.

Fixpoint insert_idx {V} (e : PropKey * V) (l : list (PropKey * V)) :=
  match l with
  | [] => [e]
  | e' :: rest =>
      if (idx_of (fst e) <=? idx_of (fst e'))%N then e :: l
      else e' :: insert_idx e rest
  end.

(** [Object.entries]: array-index keys in ascending order, then the
    string keys in creation order. *)
Definition Object_entries {V} (o : Obj V) : list (PropKey * V) :=
  fold_right insert_idx [] (filter is_idx o)
    ++ filter (fun e => negb (is_idx e)) o.

(** Stable sort by a comparator returning a number: [x] stays before [y]
    unless [cmp x y > 0]. *)
Fixpoint insert_by {A} (cmp : A -> A -> Q) (x : A) (l : list A) : list A :=
  match l with
  | [] => [x]
  | y :: rest =>
      if Qle_bool (cmp x y) 0 then x :: l else y :: insert_by cmp x rest
  end.

Definition sort_by {A} (cmp : A -> A -> Q) (l : list A) : list A :=
  fold_right (insert_by cmp) [] l.

(** [Array.prototype.sort()] without a comparator orders the elements by
    their string forms, code unit by code unit. *)
Definition default_cmp (x y : Z) : Q :=
  match String.compare (string_of_Z x) (string_of_Z y) with
  | Lt => (-1)%Q
  | Eq => 0%Q
  | Gt => 1%Q
  end.

Definition sort_default (l : list Z) : list Z := sort_by default_cmp l.

(** [Array.prototype.reduce] without an initial value. *)
Definition reduce1 {A} (f : A -> A -> A) (l : list A) : Res A :=
  match l with
  | [] => Throw (TypeError "Reduce of empty array with no initial value")
  | x :: rest => Ok (fold_left f rest x)
  end.

(** [Number.prototype.toFixed(1)] of a non-negative number: the integer
    [n] with [n / 10] closest to [x], the larger of two equally close. *)
Definition toFixed1 (x : Q) : string :=
  let n := Qfloor (x * 10 + (1 # 2))%Q in
  string_of_Z (n / 10)%Z ++ "." ++ string_of_Z (n mod 10)%Z.

(** [Math.abs] and the 32-bit conversions of the bitwise operators. *)
Definition toInt32 (z : Z) : Z :=
  let m := (z mod 4294967296)%Z in
  if (m <? 2147483648)%Z then m else (m - 4294967296)%Z.

End JS.
Import JS.

(* ================================================================= *)
(** ** Data model *)

Definition ObjectId := nat.

(** The closed enumeration of crime types (the [incidentType] values of the
    incident schema). *)
Inductive CrimeType : Type :=
| theft | burglary | robbery | assault | battery | homicide | vandalism
| fraud | cybercrime | drug_offense | traffic_violation | domestic_violence
| public_disturbance | weapon_offense | arson | kidnapping | sexual_assault
| harassment | trespassing | other.

Definition crimeTypeName (t : CrimeType) : string :=
  match t with
  | theft => "theft" | burglary => "burglary" | robbery => "robbery"
  | assault => "assault" | battery => "battery" | homicide => "homicide"
  | vandalism => "vandalism" | fraud => "fraud" | cybercrime => "cybercrime"
  | drug_offense => "drug_offense"
  | traffic_violation => "traffic_violation"
  | domestic_violence => "domestic_violence"
  | public_disturbance => "public_disturbance"
  | weapon_offense => "weapon_offense" | arson => "arson"
  | kidnapping => "kidnapping" | sexual_assault => "sexual_assault"
  | harassment => "harassment" | trespassing => "trespassing"
  | other => "other"
  end%string.

(** Severity labels: the four the service scores and the three further
    labels the incident schema stores. *)
Inductive Severity : Type :=
| low | medium | high | critical | minor | moderate | serious.

Definition severityName (s : Severity) : string :=
  match s with
  | low => "low" | medium => "medium" | high => "high"
  | critical => "critical" | minor => "minor" | moderate => "moderate"
  | serious => "serious"
  end%string.

(** An incident as the service reads it.  [location] is [None] when the
    field is [null] or [undefined]. *)
Record Incident : Type := mkIncident {
  _id : ObjectId;
  type : CrimeType;
  severity : Severity;
  location : option string;
  dateTime : Z
}.

Inductive PatternType : Type :=
| hotspot | temporal_pattern | crime_series | geographic_cluster
| predictive_hotspot | risk_assessment.

Inductive RiskLevel : Type := RiskHigh | RiskMedium | RiskLow.

Definition riskLevelName (r : RiskLevel) : string :=
  match r with
  | RiskHigh => "high" | RiskMedium => "medium" | RiskLow => "low"
  end%string.

Record Coordinates : Type := mkCoordinates { lat : Q; lng : Q }.

(** [parseInt] results are [None] when they are [NaN]. *)
Inductive TimePattern : Type :=
| HourDistribution (peakHour : option Z) (distribution : Obj nat)
| PeakHourFrequency (peakHour : option Z) (frequency : nat)
| PeakDayFrequency (peakDay : string) (frequency : nat)
| PeakMonthFrequency (peakMonth : string) (frequency : nat)
| NoTimePattern.

Inductive Statistics : Type :=
| HotspotStats (incidentCount : nat) (density averageSeverity : Q)
    (timeSpread : Z) (crimeTypes : Obj nat)
| HourlyStats (peakHour : option Z) (incidentCount : nat)
    (percentage : string)
| DailyStats (peakDay : string) (incidentCount : nat) (percentage : string)
| SeasonalStats (peakMonth : string) (incidentCount : nat)
    (percentage : string)
| SeriesStats (incidentCount : nat) (timeSpan : Z) (geographicSpread : Q)
    (escalationPattern : string)
| ClusterStats (incidentCount : nat) (radius density : Q)
    (crimeTypes : Obj nat)
| PredictiveStats (currentIncidents : nat) (trendDirection : string)
    (growthRate : Q) (predictionWindow : string)
| RiskStats (riskScore : Q) (riskLevel : RiskLevel) (incidentCount : nat)
    (severityDistribution : Obj nat) (recentActivity : Q).

Record Pattern : Type := mkPattern {
  ptype : PatternType;
  subtype : option string;
  description : string;
  confidence : Q;
  plocation : string;
  coordinates : option Coordinates;
  statistics : Statistics;
  timePattern : TimePattern;
  relatedIncidents : list ObjectId;
  recommendations : list string;
  riskLevel : RiskLevel
}.

(** Run-level results. *)
Record BasicStats : Type := mkBasicStats {
  totalIncidents : nat;
  statsTimeRange : option (Z * Z);      (* start, end *)
  statsCrimeTypes : Obj nat;
  statsSeverity : Obj nat
}.

Record Tiers : Type := mkTiers { tierHigh : nat; tierMedium : nat; tierLow : nat }.

Record AdvancedStats : Type := mkAdvancedStats {
  patternsDetected : list (string * nat);
  confidenceDistribution : Tiers;
  riskLevelDistribution : Tiers
}.

Record RunStatistics : Type := mkRunStatistics {
  basic : BasicStats;
  advanced : option AdvancedStats
}.

Record Metadata : Type := mkMetadata {
  analysisDate : Z;
  metaTotalIncidents : nat;
  metaTimeRange : string;
  algorithmsUsed : list string
}.

Record AnalysisResult : Type := mkAnalysisResult {
  success : bool;
  message : option string;
  patterns : list Pattern;
  runStatistics : RunStatistics;
  metadata : option Metadata
}.

(** The caller's options; [None] is an absent ([undefined]) property, which
    takes the default of the destructuring pattern. *)
Record Options : Type := mkOptions {
  optTimeRange : option string;
  optLocation : option string;
  optCrimeTypes : option (list string);
  optMinConfidence : option Q
}.

(** The query document handed to the incident store. *)
Record MongoFilter : Type := mkMongoFilter {
  dateTimeGte : option Z;
  locationRegex : option string;
  typeIn : option (list string)
}.

(** The six analysers the orchestrator awaits, and what it leaves behind. *)
Inductive Detector : Type :=
| DetectCrimeHotspots | AnalyzeTemporalPatterns | DetectCrimeSeries
| PerformGeographicClustering | PredictFutureHotspots | AssessAreaRisk.

Inductive Event : Type :=
| ConsoleLog (line : string)
| Invoked (d : Detector).

Definition M (A : Type) : Type := (list Event * Res A)%type.

Definition mret {A} (a : A) : M A := ([], Ok a).

Definition mbind {A B} (m : M A) (k : A -> M B) : M B :=
  match m with
  | (t, Ok a) => let (t', r) := k a in (t ++ t', r)
  | (t, Throw e) => (t, Throw e)
  end.

Definition console_log (line : string) : M unit := ([ConsoleLog line], Ok tt).

(** [await this.detector(incidents)]: the call is recorded, its exception
    propagates. *)
Definition invoke {A} (d : Detector) (body : Res A) : M A := ([Invoked d], body).

Definition lift {A} (r : Res A) : M A := ([], r).

Declare Scope run_scope.
Delimit Scope run_scope with run.
Notation "x <- c ;; k" := (mbind c (fun x => k))
  (at level 61, c at next level, right associativity) : run_scope.

Definition Qn (n : nat) : Q := inject_Z (Z.of_nat n).

Definition msPerDay : Z := 86400000.

(* ================================================================= *)
(** ** Configuration *)

(** [process.env.X || fallback]: a variable that is unset or empty takes
    the fallback. *)
Definition env_or (value : option string) (fallback : string) : string :=
  match value with
  | Some (String c r) => String c r
  | _ => fallback
  end.

(** The [config] object, as far as its mode predicates read it. *)
Record Config : Type := mkConfig { NODE_ENV : string }.

Definition config (env_NODE_ENV : option string) : Config :=
  mkConfig (env_or env_NODE_ENV "development").

Definition isDevelopment (c : Config) : bool :=
  (NODE_ENV c =? "development")%string.
Definition isProduction (c : Config) : bool :=
  (NODE_ENV c =? "production")%string.
Definition isTesting (c : Config) : bool :=
  (NODE_ENV c =? "test")%string.

(* ================================================================= *)
(** ** The service *)

Section Service.

(** The wall clock read by [new Date()], taken constant over one run. *)
Variable now : Z.

(** Offset of local time from UTC, in milliseconds (a zone without
    daylight-saving changes). *)
Variable tzOffset : Z.

(** [Incident.find(filter).sort({ dateTime: -1 })], awaited: the incident
    store is an external collaborator and its query may fail. *)
Variable Incident_find : MongoFilter -> Res (list Incident).

Local Open Scope Z_scope.

(** *** Local-time accessors of [Date] *)

Definition localDay (t : Z) : Z := (t + tzOffset) / msPerDay.

Definition getHours (t : Z) : Z := ((t + tzOffset) / 3600000) mod 24.

Definition getDay (t : Z) : Z := (localDay t + 4) mod 7.

(** Month (0 = January) of a day number counted from 1970-01-01, in the
    proleptic Gregorian calendar. *)
Definition month_of_day (d : Z) : Z :=
  let z := d + 719468 in
  let era := z / 146097 in
  let doe := z - era * 146097 in
  let yoe := (doe - doe / 1460 + doe / 36524 - doe / 146096) / 365 in
  let doy := doe - (365 * yoe + yoe / 4 - yoe / 100) in
  let mp := (5 * doy + 2) / 153 in
  if mp <? 10 then mp + 2 else mp - 10.

Definition getMonth (t : Z) : Z := month_of_day (localDay t).

Definition hourKey (i : Incident) : PropKey := Idx (Z.to_N (getHours (dateTime i))).
Definition dayKey (i : Incident) : PropKey := Idx (Z.to_N (getDay (dateTime i))).
Definition monthKey (i : Incident) : PropKey := Idx (Z.to_N (getMonth (dateTime i))).
Definition typeKey (i : Incident) : PropKey := Name (crimeTypeName (type i)).
Definition severityKey (i : Incident) : PropKey := Name (severityName (severity i)).

(** *** Filtering and grouping *)

Definition getFilteredIncidents
    (timeRange : option string) (loc : option string)
    (crimeTypes : list string) : Res (list Incident) :=
  let startDate :=
    match timeRange with
    | None => None
    | Some EmptyString => None
    | Some tag =>
        if (tag =? "7days")%string then Some (now - 7 * 24 * 60 * 60 * 1000)
        else if (tag =? "30days")%string then Some (now - 30 * 24 * 60 * 60 * 1000)
        else if (tag =? "90days")%string then Some (now - 90 * 24 * 60 * 60 * 1000)
        else if (tag =? "1year")%string then Some (now - 365 * 24 * 60 * 60 * 1000)
        else Some (now - 30 * 24 * 60 * 60 * 1000)
    end in
  let regex :=
    match loc with
    | None => None
    | Some EmptyString => None
    | Some s => Some s
    end in
  let types :=
    match crimeTypes with
    | [] => None
    | _ => Some crimeTypes
    end in
  Incident_find (mkMongoFilter startDate regex types).

(** [if (!groups[k]) groups[k] = []; groups[k].push(x)].  A key that
    names an inherited property reads as a truthy non-array, whose
    [push] is not callable. *)
Definition group_push (k : PropKey) (x : Incident)
    (groups : Obj (list Incident)) : Res (Obj (list Incident)) :=
  match own_get k groups with
  | Some members => Ok (obj_set k (members ++ [x]) groups)
  | None =>
      if on_prototype k
      then Throw (TypeError "groups[...].push is not a function")
      else Ok (obj_set k [x] groups)
  end.

(** [incident.location.toLowerCase().trim()]. *)
Definition locationKey (i : Incident) : Res PropKey :=
  match location i with
  | None => Throw (TypeError "Cannot read properties of undefined (reading 'toLowerCase')")
  | Some s => Ok (key_of_string (trim (toLowerCase s)))
  end.

Fixpoint group_into (key : Incident -> Res PropKey) (incidents : list Incident)
    (groups : Obj (list Incident)) : Res (Obj (list Incident)) :=
  match incidents with
  | [] => Ok groups
  | i :: rest =>
      (k <- key i ;;
       groups' <- group_push k i groups ;;
       group_into key rest groups')%res
  end.

Definition groupByLocation (incidents : list Incident)
  : Res (Obj (list Incident)) :=
  group_into locationKey incidents [].

Definition groupByCrimeType (incidents : list Incident)
  : Res (Obj (list Incident)) :=
  group_into (fun i => Ok (typeKey i)) incidents [].

(** [dist[k] = (dist[k] || 0) + 1], for keys that are numbers or
    enumeration names. *)
Definition count_of (k : PropKey) (dist : Obj nat) : nat :=
  match own_get k dist with Some n => n | None => 0%nat end.

Definition count_add (dist : Obj nat) (k : PropKey) : Obj nat :=
  obj_set k (count_of k dist + 1)%nat dist.

Definition count_by (key : Incident -> PropKey) (incidents : list Incident)
  : Obj nat :=
  fold_left (fun dist i => count_add dist (key i)) incidents [].

Definition getCrimeTypeDistribution := count_by typeKey.
Definition getSeverityDistribution := count_by severityKey.

(** *** Mathematical analysis *)

Definition calculateTimeSpan (incidents : list Incident) : Z :=
  if (List.length incidents <? 2)%nat then 0
  else
    let times := sort_default (map dateTime incidents) in
    last times 0 - hd 0 times.

Definition calculateTimeSpread (incidents : list Incident) : Z :=
  if (List.length incidents <? 2)%nat then 0
  else
    let times := sort_default (map dateTime incidents) in
    last times 0 - hd 0 times.

Definition calculateCrimeDensity (incidents : list Incident) : Q :=
  let timeSpan := calculateTimeSpan incidents in
  let daysSpan := Qmax 1 (inject_Z timeSpan / inject_Z (1000 * 60 * 60 * 24)) in
  (Qn (List.length incidents) / daysSpan)%Q.

Definition severityMap (s : Severity) : option nat :=
  match s with
  | low => Some 1%nat
  | medium => Some 2%nat
  | high => Some 3%nat
  | critical => Some 4%nat
  | _ => None
  end.

Definition severityWeight (s : Severity) : nat :=
  match severityMap s with Some n => n | None => 1%nat end.

Definition calculateAverageSeverity (incidents : list Incident) : Q :=
  let total :=
    fold_left (fun sum inc => (sum + severityWeight (severity inc))%nat)
              incidents 0%nat in
  (Qn total / Qn (List.length incidents))%Q.

Record HotspotFactors : Type := mkFactors {
  factorCount : nat;
  factorDensity : Q;
  factorSeverity : Q;
  factorTimeSpread : Z
}.

Definition calculateHotspotConfidence (factors : HotspotFactors) : Q :=
  let countScore := Qmin 1 (Qn (factorCount factors) / 10) in
  let densityScore := Qmin 1 (factorDensity factors / 2) in
  let severityScore := (factorSeverity factors / 4)%Q in
  let timeScore :=
    if 0 <? factorTimeSpread factors
    then Qmin 1 (inject_Z (factorTimeSpread factors)
                 / inject_Z (30 * 24 * 60 * 60 * 1000))
    else 0%Q in
  (countScore * (4 # 10) + densityScore * (3 # 10)
   + severityScore * (2 # 10) + timeScore * (1 # 10))%Q.

(** *** Risk assessment *)

Definition categorizeRiskLevel (score : Q) : RiskLevel :=
  if Qle_bool (7 # 10) score then RiskHigh
  else if Qle_bool (5 # 10) score then RiskMedium
  else RiskLow.

Definition assessRiskLevel (confidence severity : Q) (incidentCount : nat)
  : RiskLevel :=
  let riskScore :=
    (confidence * (4 # 10) + severity / 4 * (4 # 10)
     + Qmin 1 (Qn incidentCount / 10) * (2 # 10))%Q in
  categorizeRiskLevel riskScore.

Definition isRecent (days : Z) (inc : Incident) : bool :=
  Qle_bool (inject_Z (now - dateTime inc) / inject_Z (1000 * 60 * 60 * 24))
           (inject_Z days).

Definition getRecentActivityLevel (incidents : list Incident) : Q :=
  let recentIncidents := filter (isRecent 7) incidents in
  Qmin 1 (Qn (List.length recentIncidents) / Qn (List.length incidents) * 2).

Definition calculateRiskScore (incidents : list Incident) : Q :=
  let severityScore := (calculateAverageSeverity incidents / 4)%Q in
  let frequencyScore := Qmin 1 (Qn (List.length incidents) / 10) in
  let recentActivityScore := getRecentActivityLevel incidents in
  (severityScore * (4 # 10) + frequencyScore * (4 # 10)
   + recentActivityScore * (2 # 10))%Q.

Definition assessSeriesRisk (cluster : list Incident) (confidence : Q) :=
  categorizeRiskLevel confidence.

Definition assessClusterRisk {A} (cluster : list A) (confidence : Q) :=
  categorizeRiskLevel confidence.

(** *** Coordinates *)

Definition simpleHash (str : string) : Z :=
  Z.abs
    (fold_left
       (fun hash c =>
          toInt32 (toInt32 (hash * 32) - hash + Z.of_nat (nat_of_ascii c)))
       (list_ascii_of_string str) 0).

Definition estimateCoordinates (loc : string) : Coordinates :=
  let hash := simpleHash loc in
  mkCoordinates
    ((407128 # 10000) + inject_Z (Z.rem hash 1000) / 10000)%Q
    (- (740060 # 10000) + inject_Z (Z.rem hash 1000) / 10000)%Q.

(** *** Shared helpers of the detectors *)

(** The callback [(a, b) => dist[a[0]] > dist[b[0]] ? a : b]. *)
Definition pick_larger {V} (dist : Obj nat) (a b : PropKey * V)
  : PropKey * V :=
  if (count_of (fst b) dist <? count_of (fst a) dist)%nat then a else b.

Definition classifyHotspotType (incidents : list Incident) : Res string :=
  let crimeTypes := getCrimeTypeDistribution incidents in
  (dominantType <- reduce1 (pick_larger crimeTypes) (Object_entries crimeTypes) ;;
   Ok (key_string (fst dominantType)))%res.

Definition analyzeLocationTimePattern (incidents : list Incident)
  : Res TimePattern :=
  let hourCounts := count_by hourKey incidents in
  (peakHour <- reduce1 (pick_larger hourCounts) (Object_entries hourCounts) ;;
   Ok (HourDistribution (parseInt_key (fst peakHour)) hourCounts))%res.

Definition analyzeSeriesTimePattern := analyzeLocationTimePattern.

Definition ids (incidents : list Incident) : list ObjectId :=
  map _id incidents.

Definition isSevere (inc : Incident) : bool :=
  match severity inc with
  | high | critical => true
  | _ => false
  end.

Definition generateHotspotRecommendations (incidents : list Incident)
    (confidence : Q) : list string :=
  ["Increase patrol frequency in this area"%string]
    ++ (if negb (Qle_bool confidence (7 # 10))
        then ["Install additional surveillance equipment"%string;
              "Coordinate with community watch programs"%string]
        else [])
    ++ (if existsb isSevere incidents
        then ["Deploy specialized units for high-risk incidents"%string]
        else []).

Definition generateSeriesRecommendations (crimeType : string) : list string :=
  [ ("Focus investigation resources on " ++ crimeType ++ " cases")%string;
    "Look for common suspects or methods"%string;
    "Increase preventive measures for this crime type"%string;
    "Coordinate with detective units for pattern analysis"%string ].

Definition generateClusterRecommendations : list string :=
  [ "Establish temporary command post in the area";
    "Increase foot patrol presence";
    "Engage with local community leaders";
    "Review and enhance lighting and security infrastructure" ]%string.

Definition generatePredictiveRecommendations (loc : string) : list string :=
  [ ("Proactive deployment to " ++ loc ++ " recommended")%string;
    "Monitor area closely for emerging patterns"%string;
    "Implement preventive measures before escalation"%string;
    "Coordinate with local businesses and residents"%string ].

Definition generateRiskRecommendations (loc : string) (level : RiskLevel)
  : list string :=
  [ ("Implement " ++ riskLevelName level ++ " risk protocols for " ++ loc)%string ]
    ++ match level with
       | RiskHigh =>
           [ "Consider establishing permanent security presence"%string;
             "Implement comprehensive crime prevention strategies"%string ]
       | _ => []
       end.

(** *** Hotspot detector *)

Definition hotspotOf (entry : PropKey * list Incident) : Res (list Pattern) :=
  let loc := key_string (fst entry) in
  let locationIncidents := snd entry in
  if (3 <=? List.length locationIncidents)%nat then
    let density := calculateCrimeDensity locationIncidents in
    let severity := calculateAverageSeverity locationIncidents in
    let timeSpread := calculateTimeSpread locationIncidents in
    let confidence :=
      calculateHotspotConfidence
        (mkFactors (List.length locationIncidents) density severity timeSpread) in
    if Qle_bool (4 # 10) confidence then
      (dominant <- classifyHotspotType locationIncidents ;;
       when <- analyzeLocationTimePattern locationIncidents ;;
       Ok [ mkPattern hotspot (Some dominant)
              ("Crime hotspot detected at " ++ loc)%string
              confidence loc (Some (estimateCoordinates loc))
              (HotspotStats (List.length locationIncidents) density severity
                 timeSpread (getCrimeTypeDistribution locationIncidents))
              when (ids locationIncidents)
              (generateHotspotRecommendations locationIncidents confidence)
              (assessRiskLevel confidence severity
                 (List.length locationIncidents)) ])%res
    else Ok []
  else Ok [].

Definition detectCrimeHotspots (incidents : list Incident)
  : Res (list Pattern) :=
  (locationGroups <- groupByLocation incidents ;;
   for_push hotspotOf (Object_entries locationGroups))%res.

(** *** Temporal pattern detector *)

Definition byCountDesc (a b : PropKey * nat) : Q := (Qn (snd b) - Qn (snd a))%Q.

(** [incidents.filter(inc => accessor(inc.dateTime) === parseInt(key))]. *)
Definition membersOf (accessor : Z -> Z) (key : PropKey)
    (incidents : list Incident) : list Incident :=
  match parseInt_key key with
  | Some n => filter (fun inc => accessor (dateTime inc) =? n) incidents
  | None => []
  end.

(** [confidence > 0.7 ? 'high' : confidence > 0.5 ? 'medium' : 'low']. *)
Definition temporalRisk (confidence : Q) : RiskLevel :=
  if negb (Qle_bool confidence (7 # 10)) then RiskHigh
  else if negb (Qle_bool confidence (5 # 10)) then RiskMedium
  else RiskLow.

Definition percentageOf (count total : nat) : string :=
  toFixed1 (Qn count / Qn total * 100)%Q.

Definition nextHour (key : PropKey) : string :=
  match parseInt_key key with
  | Some h => string_of_Z ((h + 1) mod 24)
  | None => "NaN"%string
  end.

Definition hourlyOf (incidents : list Incident) (entry : PropKey * nat)
  : list Pattern :=
  let hour := fst entry in
  let count := snd entry in
  if (3 <=? count)%nat then
    let confidence := Qmin (9 # 10) (Qn count / Qn (List.length incidents) * 4) in
    [ mkPattern temporal_pattern (Some "hourly"%string)
        ("Peak crime activity at " ++ key_string hour ++ ":00 hour")%string
        confidence "Multiple locations"%string None
        (HourlyStats (parseInt_key hour) count
           (percentageOf count (List.length incidents)))
        (PeakHourFrequency (parseInt_key hour) count)
        (ids (membersOf getHours hour incidents))
        [ ("Increase patrol presence during " ++ key_string hour ++ ":00-"
             ++ nextHour hour ++ ":00")%string ]
        (temporalRisk confidence) ]
  else [].

Definition detectHourlyPatterns (incidents : list Incident) : list Pattern :=
  let hourCounts := count_by hourKey incidents in
  let sortedHours :=
    firstn 3 (sort_by byCountDesc (Object_entries hourCounts)) in
  flat_map (hourlyOf incidents) sortedHours.

Definition dayNames : list string :=
  [ "Sunday"; "Monday"; "Tuesday"; "Wednesday"; "Thursday"; "Friday";
    "Saturday" ]%string.

Definition monthNames : list string :=
  [ "January"; "February"; "March"; "April"; "May"; "June"; "July";
    "August"; "September"; "October"; "November"; "December" ]%string.

(** [names[key]] for a key that came out of [Object.entries]. *)
Definition nameAt (names : list string) (key : PropKey) : string :=
  match key with
  | Idx n => nth (N.to_nat n) names "undefined"%string
  | Name _ => "undefined"%string
  end.

Definition dailyOf (incidents : list Incident) (entry : PropKey * nat)
  : list Pattern :=
  let day := fst entry in
  let count := snd entry in
  if (3 <=? count)%nat then
    let confidence := Qmin (85 # 100) (Qn count / Qn (List.length incidents) * 3) in
    [ mkPattern temporal_pattern (Some "daily"%string)
        ("Increased crime activity on " ++ nameAt dayNames day)%string
        confidence "Multiple locations"%string None
        (DailyStats (nameAt dayNames day) count
           (percentageOf count (List.length incidents)))
        (PeakDayFrequency (nameAt dayNames day) count)
        (ids (membersOf getDay day incidents))
        [ ("Focus resources on " ++ nameAt dayNames day ++ " operations")%string ]
        (temporalRisk confidence) ]
  else [].

Definition detectDailyPatterns (incidents : list Incident) : list Pattern :=
  let dayCounts := count_by dayKey incidents in
  let sortedDays :=
    firstn 2 (sort_by byCountDesc (Object_entries dayCounts)) in
  flat_map (dailyOf incidents) sortedDays.

Definition detectSeasonalPatterns (incidents : list Incident)
  : Res (list Pattern) :=
  let monthCounts := count_by monthKey incidents in
  (maxMonth <- reduce1 (pick_larger monthCounts) (Object_entries monthCounts) ;;
   if (4 <=? snd maxMonth)%nat then
     let confidence :=
       Qmin (8 # 10) (Qn (snd maxMonth) / Qn (List.length incidents) * 2) in
     let month := nameAt monthNames (fst maxMonth) in
     Ok [ mkPattern temporal_pattern (Some "seasonal"%string)
            ("Seasonal crime peak in " ++ month)%string
            confidence "Multiple locations"%string None
            (SeasonalStats month (snd maxMonth)
               (percentageOf (snd maxMonth) (List.length incidents)))
            (PeakMonthFrequency month (snd maxMonth))
            (ids (membersOf getMonth (fst maxMonth) incidents))
            [ ("Prepare enhanced security measures for " ++ month)%string ]
            (if negb (Qle_bool confidence (6 # 10)) then RiskMedium
             else RiskLow) ]
   else Ok [])%res.

Definition analyzeTemporalPatterns (incidents : list Incident)
  : Res (list Pattern) :=
  let hourlyPatterns := detectHourlyPatterns incidents in
  let dailyPatterns := detectDailyPatterns incidents in
  (seasonalPatterns <- detectSeasonalPatterns incidents ;;
   Ok (hourlyPatterns ++ dailyPatterns ++ seasonalPatterns))%res.

(** *** Crime-series detector *)

Definition findCrimeClusters (incidents : list Incident)
  : list (list Incident) := [incidents].

Definition calculateSeriesConfidence (cluster : list Incident) : Q :=
  Qmin (9 # 10) (Qn (List.length cluster) / 5 * (8 # 10)).

Definition calculateGeographicSpread (cluster : list Incident) : Q := 1.
Definition detectEscalationPattern (cluster : list Incident) : string :=
  "stable".

Definition seriesOfCluster (crimeType : string) (cluster : list Incident)
  : Res (list Pattern) :=
  if (3 <=? List.length cluster)%nat then
    let confidence := calculateSeriesConfidence cluster in
    if Qle_bool (5 # 10) confidence then
      (when <- analyzeSeriesTimePattern cluster ;;
       Ok [ mkPattern crime_series (Some crimeType)
              ("Potential " ++ crimeType ++ " crime series detected")%string
              confidence "Multiple locations"%string None
              (SeriesStats (List.length cluster) (calculateTimeSpan cluster)
                 (calculateGeographicSpread cluster)
                 (detectEscalationPattern cluster))
              when (ids cluster)
              (generateSeriesRecommendations crimeType)
              (assessSeriesRisk cluster confidence) ])%res
    else Ok []
  else Ok [].

Definition seriesOf (entry : PropKey * list Incident) : Res (list Pattern) :=
  let crimeType := key_string (fst entry) in
  let typeIncidents := snd entry in
  if (3 <=? List.length typeIncidents)%nat then
    for_push (seriesOfCluster crimeType) (findCrimeClusters typeIncidents)
  else Ok [].

Definition detectCrimeSeries (incidents : list Incident)
  : Res (list Pattern) :=
  (crimeTypeGroups <- groupByCrimeType incidents ;;
   for_push seriesOf (Object_entries crimeTypeGroups))%res.

(** *** Geographic cluster detector *)

Record LocationDatum : Type := mkLocationDatum {
  datumId : ObjectId;
  datumLocation : string;
  datumCoordinates : Coordinates;
  datumType : CrimeType;
  datumSeverity : Severity;
  datumDateTime : Z
}.

(** One element of [incidents.map(inc => ({ ... }))]; hashing a missing
    location reads [length] of [undefined]. *)
Definition locationDatumOf (inc : Incident) : Res LocationDatum :=
  match location inc with
  | None => Throw (TypeError "Cannot read properties of undefined (reading 'length')")
  | Some loc =>
      Ok (mkLocationDatum (_id inc) loc (estimateCoordinates loc) (type inc)
            (severity inc) (dateTime inc))
  end.

Fixpoint map_res {A B} (f : A -> Res B) (l : list A) : Res (list B) :=
  match l with
  | [] => Ok []
  | x :: rest =>
      (y <- f x ;; ys <- map_res f rest ;; Ok (y :: ys))%res
  end.

Definition clusterByDistance (locationData : list LocationDatum)
    (maxDistance : Q) : list (list LocationDatum) := [locationData].

Definition calculateClusterConfidence (cluster : list LocationDatum) : Q :=
  Qmin (8 # 10) (Qn (List.length cluster) / 8).

Definition calculateClusterCenter (cluster : list LocationDatum) : string :=
  "Central Area".
Definition calculateCenterCoordinates (cluster : list LocationDatum)
  : Coordinates := mkCoordinates (407128 # 10000) (- (740060 # 10000)).
Definition calculateClusterRadius (cluster : list LocationDatum) : Q := 500.
Definition calculateClusterDensity (cluster : list LocationDatum) : Q :=
  (Qn (List.length cluster) / 1000)%Q.
Definition getClusterCrimeTypes (cluster : list LocationDatum) : Obj nat := [].
Definition analyzeClusterTimePattern (cluster : list LocationDatum)
  : TimePattern := NoTimePattern.

Definition clusterOf (cluster : list LocationDatum) : list Pattern :=
  if (4 <=? List.length cluster)%nat then
    let confidence := calculateClusterConfidence cluster in
    if Qle_bool (4 # 10) confidence then
      [ mkPattern geographic_cluster None
          "Geographic crime cluster identified"%string
          confidence (calculateClusterCenter cluster)
          (Some (calculateCenterCoordinates cluster))
          (ClusterStats (List.length cluster) (calculateClusterRadius cluster)
             (calculateClusterDensity cluster) (getClusterCrimeTypes cluster))
          (analyzeClusterTimePattern cluster)
          (map datumId cluster)
          generateClusterRecommendations
          (assessClusterRisk cluster confidence) ]
    else []
  else [].

Definition performGeographicClustering (incidents : list Incident)
  : Res (list Pattern) :=
  (locationData <- map_res locationDatumOf incidents ;;
   let geoClusters := clusterByDistance locationData 1000 in
   Ok (flat_map clusterOf geoClusters))%res.

(** *** Predictive hotspot detector *)

Record Trend : Type := mkTrend {
  currentCount : nat;
  isIncreasing : bool;
  trendConfidence : Q;
  growthRate : Q;
  trendTimePattern : TimePattern;
  trendIncidents : list Incident
}.

Fixpoint trends_into (entries : list (PropKey * list Incident))
    (trends : Obj Trend) : Res (Obj Trend) :=
  match entries with
  | [] => Ok trends
  | (loc, locationIncidents) :: rest =>
      if (2 <=? List.length locationIncidents)%nat then
        (when <- analyzeLocationTimePattern locationIncidents ;;
         trends_into rest
           (obj_set loc
              (mkTrend (List.length locationIncidents) true
                 (Qmin (8 # 10) (Qn (List.length locationIncidents) / 5))
                 (1 # 10) when locationIncidents)
              trends))%res
      else trends_into rest trends
  end.

Definition analyzeTrends (incidents : list Incident) : Res (Obj Trend) :=
  (locationGroups <- groupByLocation incidents ;;
   trends_into (Object_entries locationGroups) [])%res.

Definition assessPredictiveRisk (trend : Trend) : RiskLevel :=
  categorizeRiskLevel (trendConfidence trend).

Definition predictionOf (entry : PropKey * Trend) : list Pattern :=
  let loc := key_string (fst entry) in
  let trend := snd entry in
  if isIncreasing trend && Qle_bool (6 # 10) (trendConfidence trend) then
    [ mkPattern predictive_hotspot None
        ("Predicted future hotspot at " ++ loc)%string
        (trendConfidence trend * (8 # 10))%Q
        loc (Some (estimateCoordinates loc))
        (PredictiveStats (currentCount trend) "increasing"%string
           (growthRate trend) "7-14 days"%string)
        (trendTimePattern trend)
        (ids (trendIncidents trend))
        (generatePredictiveRecommendations loc)
        (assessPredictiveRisk trend) ]
  else [].

Definition predictFutureHotspots (incidents : list Incident)
  : Res (list Pattern) :=
  let recentIncidents := filter (isRecent 14) incidents in
  (locationTrends <- analyzeTrends recentIncidents ;;
   Ok (flat_map predictionOf (Object_entries locationTrends)))%res.

(** *** Area risk assessor *)

Definition riskOf (entry : PropKey * list Incident) : Res (list Pattern) :=
  let loc := key_string (fst entry) in
  let locationIncidents := snd entry in
  let riskScore := calculateRiskScore locationIncidents in
  let level := categorizeRiskLevel riskScore in
  if Qle_bool (5 # 10) riskScore then
    (when <- analyzeLocationTimePattern locationIncidents ;;
     Ok [ mkPattern risk_assessment None
            (riskLevelName level ++ " risk area identified at " ++ loc)%string
            (Qmin (9 # 10) (riskScore + (1 # 10)))
            loc (Some (estimateCoordinates loc))
            (RiskStats riskScore level (List.length locationIncidents)
               (getSeverityDistribution locationIncidents)
               (getRecentActivityLevel locationIncidents))
            when (ids locationIncidents)
            (generateRiskRecommendations loc level)
            level ])%res
  else Ok [].

Definition assessAreaRisk (incidents : list Incident) : Res (list Pattern) :=
  (locationGroups <- groupByLocation incidents ;;
   for_push riskOf (Object_entries locationGroups))%res.

(** *** Statistics *)

Definition generateBasicStats (incidents : list Incident) : BasicStats :=
  mkBasicStats
    (List.length incidents)
    (match incidents with
     | [] => None
     | first :: _ => Some (dateTime (last incidents first), dateTime first)
     end)
    (getCrimeTypeDistribution incidents)
    (getSeverityDistribution incidents).

Record AnalysisResults : Type := mkAnalysisResults {
  hotspots : list Pattern;
  temporalPatterns : list Pattern;
  crimeSeries : list Pattern;
  geographicClusters : list Pattern;
  predictiveHotspots : list Pattern;
  riskAssessment : list Pattern
}.

(** [Object.values(analysisResults).flat()]. *)
Definition allDetected (r : AnalysisResults) : list Pattern :=
  hotspots r ++ temporalPatterns r ++ crimeSeries r ++ geographicClusters r
    ++ predictiveHotspots r ++ riskAssessment r.

Definition calculateConfidenceDistribution (r : AnalysisResults) : Tiers :=
  fold_left
    (fun d p =>
       if Qle_bool (7 # 10) (confidence p)
       then mkTiers (tierHigh d + 1) (tierMedium d) (tierLow d)
       else if Qle_bool (5 # 10) (confidence p)
       then mkTiers (tierHigh d) (tierMedium d + 1) (tierLow d)
       else mkTiers (tierHigh d) (tierMedium d) (tierLow d + 1))
    (allDetected r) (mkTiers 0 0 0).

Definition calculateRiskDistribution (r : AnalysisResults) : Tiers :=
  fold_left
    (fun d p =>
       match riskLevel p with
       | RiskHigh => mkTiers (tierHigh d + 1) (tierMedium d) (tierLow d)
       | RiskMedium => mkTiers (tierHigh d) (tierMedium d + 1) (tierLow d)
       | RiskLow => mkTiers (tierHigh d) (tierMedium d) (tierLow d + 1)
       end)
    (allDetected r) (mkTiers 0 0 0).

Definition generateAdvancedStats (incidents : list Incident)
    (r : AnalysisResults) : RunStatistics :=
  mkRunStatistics
    (generateBasicStats incidents)
    (Some (mkAdvancedStats
             [ ("hotspots"%string, List.length (hotspots r));
               ("temporalPatterns"%string, List.length (temporalPatterns r));
               ("crimeSeries"%string, List.length (crimeSeries r));
               ("geographicClusters"%string, List.length (geographicClusters r));
               ("predictiveHotspots"%string, List.length (predictiveHotspots r));
               ("riskAssessments"%string, List.length (riskAssessment r)) ]
             (calculateConfidenceDistribution r)
             (calculateRiskDistribution r))).

(** *** Orchestrator *)

(** The comparator handed to [allPatterns.sort]. *)
Definition byConfidenceThenSize (a b : Pattern) : Q :=
  if negb (Qeq_bool (confidence b) (confidence a))
  then (confidence b - confidence a)%Q
  else (Qn (List.length (relatedIncidents b))
        - Qn (List.length (relatedIncidents a)))%Q.

Definition runComprehensiveAnalysis (options : Options) : M AnalysisResult :=
  let timeRange :=
    match optTimeRange options with Some t => t | None => "30days"%string end in
  let loc := optLocation options in
  let crimeTypes :=
    match optCrimeTypes options with Some l => l | None => [] end in
  let minConfidence :=
    match optMinConfidence options with Some c => c | None => (5 # 10) end in
  (_ <- console_log "Starting comprehensive crime analysis..." ;;
   incidents <- lift (getFilteredIncidents (Some timeRange) loc crimeTypes) ;;
   if (List.length incidents <? 3)%nat then
     mret (mkAnalysisResult false
             (Some "Insufficient data for meaningful analysis"%string)
             []
             (mkRunStatistics (generateBasicStats incidents) None)
             None)
   else
     hs <- invoke DetectCrimeHotspots (detectCrimeHotspots incidents) ;;
     tp <- invoke AnalyzeTemporalPatterns (analyzeTemporalPatterns incidents) ;;
     cs <- invoke DetectCrimeSeries (detectCrimeSeries incidents) ;;
     gc <- invoke PerformGeographicClustering
             (performGeographicClustering incidents) ;;
     ph <- invoke PredictFutureHotspots (predictFutureHotspots incidents) ;;
     ra <- invoke AssessAreaRisk (assessAreaRisk incidents) ;;
     let analysisResults := mkAnalysisResults hs tp cs gc ph ra in
     let allPatterns :=
       sort_by byConfidenceThenSize
         (filter (fun pattern => Qle_bool minConfidence (confidence pattern))
            (hs ++ tp ++ cs ++ gc ++ ph ++ ra)) in
     _ <- console_log
            ("Analysis complete. Found "
               ++ string_of_nat (List.length allPatterns) ++ " patterns.") ;;
     mret (mkAnalysisResult true None allPatterns
             (generateAdvancedStats incidents analysisResults)
             (Some (mkMetadata now (List.length incidents) timeRange
                      [ "hotspots"; "temporalPatterns"; "crimeSeries";
                        "geographicClusters"; "predictiveHotspots";
                        "riskAssessment" ]%string))))%run.

End Service.

(* ================================================================= *)
(** ** Vocabulary of the properties *)

Unset Implicit Arguments.

(** The incidents of [l] that fall under key [k], in the order of [l]. *)
Definition members (key : Incident -> PropKey) (k : PropKey)
    (l : list Incident) : list Incident :=
  filter (fun i => key_eqb (key i) k) l.

(** What a distribution counted over the incidents [l] satisfies. *)
Record counts (key : Incident -> PropKey) (dist : Obj nat)
    (l : list Incident) : Prop := {
  counts_nodup : NoDup (map fst dist);
  counts_value : forall k, count_of k dist = List.length (members key k l);
  counts_pos : forall k c, In (k, c) dist -> (0 < c)%nat;
  counts_sum : list_sum (map snd dist) = List.length l
}.

(** The key of an incident whose key computation returns. *)
Definition key_of (keyR : Incident -> Res PropKey) (i : Incident) : PropKey :=
  match keyR i with
  | Ok k => k
  | Throw _ => Name EmptyString
  end.

Definition some_nonempty (g : list Incident) : option (list Incident) :=
  match g with
  | [] => None
  | _ => Some g
  end.

(** What a grouping of the incidents [l] satisfies: each own property
    holds exactly the incidents under its key, in order. *)
Record grouped (keyR : Incident -> Res PropKey)
    (groups : Obj (list Incident)) (l : list Incident) : Prop := {
  grouped_nodup : NoDup (map fst groups);
  grouped_value :
    forall k, own_get k groups = some_nonempty (members (key_of keyR) k l)
}.

(** An incident whose key computation returns a key that is not the name
    of an inherited property. *)
Definition safe (keyR : Incident -> Res PropKey) (i : Incident) : Prop :=
  (exists k, keyR i = Ok k) /\ on_prototype (key_of keyR i) = false.

(** The order the comparator induces: [a] may stand before [b]. *)
Definition before {A : Type} (cmp : A -> A -> Q) (a b : A) : Prop :=
  (cmp a b <= 0)%Q.

(** A pattern is supported by a set of incidents when its confidence is a
    probability and it lists some of them, and only them. *)
Definition supported (incidents : list Incident) (p : Pattern) : Prop :=
  (0 <= confidence p <= 1)%Q
  /\ relatedIncidents p <> []
  /\ forall id, In id (relatedIncidents p) ->
       exists inc, In inc incidents /\ _id inc = id.

(** The time pattern and the trend the service records for a group. *)
Definition hourPatternOf (tz : Z) (g : list Incident) : TimePattern :=
  match analyzeLocationTimePattern tz g with
  | Ok when => when
  | Throw _ => NoTimePattern
  end.

Definition trendOf (tz : Z) (g : list Incident) : Trend :=
  mkTrend (List.length g) true (Qmin (8 # 10) (Qn (List.length g) / 5))
    (1 # 10) (hourPatternOf tz g) g.

Definition trendFor (tz : Z) (g : list Incident) : option Trend :=
  if (2 <=? List.length g)%nat then Some (trendOf tz g) else None.

(** The caller's options after the defaults of the destructuring pattern. *)
Definition requestedTimeRange (options : Options) : string :=
  match optTimeRange options with Some t => t | None => "30days"%string end.

Definition requestedMinConfidence (options : Options) : Q :=
  match optMinConfidence options with Some c => c | None => (5 # 10) end.

(** The filtered incident set of a run. *)
Definition filteredSet (now : Z) (find : MongoFilter -> Res (list Incident))
    (options : Options) : Res (list Incident) :=
  getFilteredIncidents now find (Some (requestedTimeRange options))
    (optLocation options)
    (match optCrimeTypes options with Some l => l | None => [] end).

(** What the six detectors emit on one incident set, in the order the
    orchestrator concatenates them. *)
Definition emittedBy (now tz : Z) (incidents : list Incident)
    (emitted : list Pattern) : Prop :=
  exists hs tp cs gc ph ra,
    detectCrimeHotspots tz incidents = Ok hs
    /\ analyzeTemporalPatterns tz incidents = Ok tp
    /\ detectCrimeSeries tz incidents = Ok cs
    /\ performGeographicClustering incidents = Ok gc
    /\ predictFutureHotspots now tz incidents = Ok ph
    /\ assessAreaRisk now tz incidents = Ok ra
    /\ emitted = hs ++ tp ++ cs ++ gc ++ ph ++ ra.

Definition keeps (minConfidence : Q) (p : Pattern) : bool :=
  Qle_bool minConfidence (confidence p).

(** [a] ranks before [b]: higher confidence first, then more related
    incidents. *)
Definition ranks_before (a b : Pattern) : Prop :=
  (confidence b < confidence a)%Q
  \/ ((confidence a == confidence b)%Q
      /\ (List.length (relatedIncidents b)
          <= List.length (relatedIncidents a))%nat).

(** [a] is tied with [z] on both ranking keys. *)
Definition tied (z a : Pattern) : bool :=
  Qeq_bool (confidence z) (confidence a)
  && (List.length (relatedIncidents z) =? List.length (relatedIncidents a))%nat.

(** The keys of a sequence in the order in which they are first seen. *)
Definition first_seen (ks : list PropKey) : list PropKey :=
  fold_left (fun acc k => if existsb (key_eqb k) acc then acc else acc ++ [k])
    ks [].

(** The dominant entry as the specification words it: the greatest count,
    and among equal counts the entry encountered first. *)
Definition spec_dominant_type (entries : list (PropKey * nat))
  : option (PropKey * nat) :=
  match entries with
  | [] => None
  | x :: rest =>
      Some (fold_left (fun best e => if (snd best <? snd e)%nat then e else best)
              rest x)
  end.

(** The count, density, severity and time scores as the specification
    words them: the time spread is the distance from the earliest to the
    latest incident of the group. *)
Definition earliest (g : list Incident) : Z :=
  fold_right Z.min (hd 0%Z (map dateTime g)) (map dateTime g).

Definition latest (g : list Incident) : Z :=
  fold_right Z.max (hd 0%Z (map dateTime g)) (map dateTime g).

Definition spec_time_spread (g : list Incident) : Z := (latest g - earliest g)%Z.

Definition spec_density (g : list Incident) : Q :=
  (Qn (List.length g)
   / Qmax 1 (inject_Z (spec_time_spread g) / inject_Z msPerDay))%Q.

Definition spec_hotspot_confidence (g : list Incident) : Q :=
  ((4 # 10) * Qmin 1 (Qn (List.length g) / 10)
   + (3 # 10) * Qmin 1 (spec_density g / 2)
   + (2 # 10) * (calculateAverageSeverity g / 4)
   + (1 # 10) * Qmin 1 (inject_Z (spec_time_spread g) / inject_Z (30 * msPerDay)))%Q.

(** A time value whose decimal form has [w] digits. *)
Definition has_width (w : nat) (t : Z) : Prop :=
  (0 <= t)%Z /\ String.length (string_of_Z t) = w.

(** Decimal digits, most significant first, their value and their order
    as strings. *)
Fixpoint udigits (u : Decimal.uint) : list N :=
  match u with
  | Decimal.Nil => []
  | Decimal.D0 l => 0%N :: udigits l
  | Decimal.D1 l => 1%N :: udigits l
  | Decimal.D2 l => 2%N :: udigits l
  | Decimal.D3 l => 3%N :: udigits l
  | Decimal.D4 l => 4%N :: udigits l
  | Decimal.D5 l => 5%N :: udigits l
  | Decimal.D6 l => 6%N :: udigits l
  | Decimal.D7 l => 7%N :: udigits l
  | Decimal.D8 l => 8%N :: udigits l
  | Decimal.D9 l => 9%N :: udigits l
  end.

Fixpoint digits_value (ds : list N) (acc : N) : N :=
  match ds with
  | [] => acc
  | d :: rest => digits_value rest (10 * acc + d)%N
  end.

Fixpoint digits_compare (xs ys : list N) : comparison :=
  match xs, ys with
  | [], [] => Eq
  | [], _ :: _ => Lt
  | _ :: _, [] => Gt
  | x :: xs', y :: ys' =>
      match N.compare x y with
      | Eq => digits_compare xs' ys'
      | c => c
      end
  end.

(** The incidents whose normalised location,
    [location.toLowerCase().trim()], is [place], and the incidents whose
    crime type is named [name]. *)
Definition located_at (place : string) (i : Incident) : bool :=
  match location i with
  | Some s => String.eqb (trim (toLowerCase s)) place
  | None => false
  end.

Definition of_type (name : string) (i : Incident) : bool :=
  String.eqb (crimeTypeName (type i)) name.

(** An incident with a location whose normalised form is not the name of
    an inherited property. *)
Definition well_located (i : Incident) : Prop :=
  exists s, location i = Some s
    /\ on_prototype (key_of_string (trim (toLowerCase s))) = false.

(** A key that is the key of its own string form, as every key made from
    a string is. *)
Definition canonical (k : PropKey) : Prop := k = key_of_string (key_string k).

(** The incidents whose local hour, day of the week or month is [m], and
    their number. *)
Definition in_bucket (accessor : Z -> Z) (m : Z) (i : Incident) : bool :=
  (accessor (dateTime i) =? m)%Z.

Definition bucket (accessor : Z -> Z) (m : Z) (l : list Incident) : nat :=
  List.length (filter (in_bucket accessor m) l).

(** Time values of thirteen decimal digits: the dates from 9 September 2001
    to 20 November 2286. *)
Definition contemporary (t : Z) : Prop := (10 ^ 12 <= t < 10 ^ 13)%Z.

(** The first line a run logs, the patterns it returns from what the
    detectors emitted, and the size of a tier distribution. *)
Definition startLine : string := "Starting comprehensive crime analysis...".

Definition rankedPatterns (minConfidence : Q) (emitted : list Pattern)
  : list Pattern :=
  sort_by byConfidenceThenSize (filter (keeps minConfidence) emitted).

Definition tierTotal (t : Tiers) : nat :=
  (tierHigh t + tierMedium t + tierLow t)%nat.

(** Risk levels in ascending order. *)
Definition riskRank (r : RiskLevel) : nat :=
  match r with
  | RiskLow => 0
  | RiskMedium => 1
  | RiskHigh => 2
  end.

(* ================================================================= *)
(** ** Sample data *)

(** Midnight UTC of 2 November 2026, and an hour, in milliseconds. *)
Definition sample_now : Z := 1793577600000%Z.
Definition hourMs : Z := 3600000%Z.

Definition at_hour (id : ObjectId) (t : CrimeType) (s : Severity)
    (loc : string) (h : Z) : Incident :=
  mkIncident id t s (Some loc) (sample_now - 24 * hourMs + h * hourMs)%Z.

(** Ten incidents of the previous day, latest first as the store returns
    them; five of them fall in the hour after 02:00, at one address written
    in three ways. *)
Definition sample_incidents : list Incident :=
  [ at_hour 10%nat theft low "Hill Ave" 9%Z;
    at_hour 9%nat theft medium "Hill Ave" 8%Z;
    at_hour 8%nat theft low "Dock Rd" 7%Z;
    at_hour 7%nat fraud low "Dock Rd" 6%Z;
    at_hour 6%nat theft low "42" 5%Z;
    at_hour 5%nat theft low " MAIN ST " 2%Z;
    at_hour 4%nat assault high "Main St" 2%Z;
    at_hour 3%nat assault low "main st" 2%Z;
    at_hour 2%nat theft low "Main St" 2%Z;
    at_hour 1%nat theft low "Main St" 2%Z ]%string.

Definition sample_store (incidents : list Incident)
  : MongoFilter -> Res (list Incident) := fun _ => Ok incidents.

Definition default_options : Options := mkOptions None None None None.

Definition run_of (incidents : list Incident) : M AnalysisResult :=
  runComprehensiveAnalysis sample_now 0%Z (sample_store incidents) default_options.

Definition result_of (incidents : list Incident) : AnalysisResult :=
  match snd (run_of incidents) with
  | Ok r => r
  | Throw _ => mkAnalysisResult false None [] (mkRunStatistics (generateBasicStats []) None) None
  end.

Definition two_incidents : list Incident :=
  [ at_hour 2%nat theft low "Main St" 3%Z; at_hour 1%nat theft low "Main St" 2%Z ]%string.

Definition sample_groups : Obj (list Incident) :=
  match groupByLocation (filter (isRecent sample_now 14) sample_incidents) with
  | Ok groups => groups
  | Throw _ => []
  end.

(** Twenty-four incidents, latest first: one in each of the hours 23 down
    to 3, and three in hour 2. *)
Definition sparse_incidents : list Incident :=
  map (fun n => at_hour (n + 1)%nat theft low "Dock Rd" (Z.of_nat n))
    (rev (seq 3 21))
  ++ [ at_hour 3%nat theft low "Main St" 2%Z;
       at_hour 2%nat theft low "Main St" 2%Z;
       at_hour 1%nat theft low "Main St" 2%Z ].

(** Three incidents, the second without a location. *)
Definition unlocated_incidents : list Incident :=
  [ at_hour 3%nat theft low "Main St" 4%Z;
    mkIncident 2%nat theft low None (sample_now - 21 * hourMs)%Z;
    at_hour 1%nat theft low "Main St" 2%Z ].

(** Four incidents at one address: theft and assault, two each. *)
Definition tie_incidents : list Incident :=
  [ at_hour 1%nat theft high "Main St" 2%Z;
    at_hour 2%nat assault high "Main St" 2%Z;
    at_hour 3%nat theft high "Main St" 2%Z;
    at_hour 4%nat assault high "Main St" 2%Z ].

(** Three incidents at one address, one of them entered with a date in the
    year 2400, as the store returns them (latest first). *)
Definition misdated_incidents : list Incident :=
  [ mkIncident 3%nat theft high (Some "Main St"%string) 13569465600000%Z;
    at_hour 2%nat theft high "Main St" 3%Z;
    at_hour 1%nat theft high "Main St" 2%Z ].


Definition patterns_of (r : Res (list Pattern)) : list Pattern :=
  match r with
  | Ok out => out
  | Throw _ => []
  end.

Definition no_pattern : Pattern :=
  mkPattern hotspot None EmptyString 0 EmptyString None
    (ClusterStats 0%nat 0 0 []) NoTimePattern [] [] RiskLow.

(** A store whose query fails, a request for patterns of confidence 0.7
    at least, and a request with a time-range tag. *)
Definition failing_store : MongoFilter -> Res (list Incident) :=
  fun _ => Throw QueryError.

Definition strict_options : Options := mkOptions None None None (Some (7 # 10)).

Definition ranged_options (tag : string) : Options :=
  mkOptions (Some tag) None None None.

(* ================================================================= *)
(** ** Facts about dictionaries *)

Section ObjFacts.

Context {V : Type}.
Implicit Types (o : Obj V) (k : PropKey) (v : V).

Lemma key_eqb_eq k k' : key_eqb k k' = true <-> k = k'.
Proof.
  destruct k as [n|s], k' as [m|t]; simpl; split; intro H;
    try discriminate; try congruence.
  - apply N.eqb_eq in H. now subst.
  - inversion H. apply N.eqb_refl.
  - apply String.eqb_eq in H. now subst.
  - inversion H. apply String.eqb_refl.
Qed.

Lemma key_eqb_refl k : key_eqb k k = true.
Proof. now apply key_eqb_eq. Qed.

Lemma key_eqb_neq k k' : key_eqb k k' = false <-> k <> k'.
Proof.
  split.
  - intros H E. apply key_eqb_eq in E. congruence.
  - intro H. destruct (key_eqb k k') eqn:E; [|reflexivity].
    apply key_eqb_eq in E. contradiction.
Qed.

Lemma own_get_in k v o : own_get k o = Some v -> In (k, v) o.
Proof.
  induction o as [|[k' v'] o IH]; simpl; [discriminate|].
  destruct (key_eqb k k') eqn:E.
  - apply key_eqb_eq in E. intros [= ->]. subst. now left.
  - intro H. right. auto.
Qed.

Lemma own_get_none k o : own_get k o = None <-> ~ In k (map fst o).
Proof.
  induction o as [|[k' v'] o IH]; simpl.
  - split; [intros _ []|reflexivity].
  - destruct (key_eqb k k') eqn:E.
    + apply key_eqb_eq in E. subst. split; [discriminate|].
      intro H. exfalso. apply H. now left.
    + apply key_eqb_neq in E. rewrite IH. split.
      * intros H [H1|H1]; [congruence|contradiction].
      * intros H H1. apply H. now right.
Qed.

Lemma in_own_get k v o :
  NoDup (map fst o) -> In (k, v) o -> own_get k o = Some v.
Proof.
  induction o as [|[k' v'] o IH]; simpl; intros ND HIn; [contradiction|].
  inversion ND as [|? ? Hnot ND']; subst.
  destruct HIn as [[= -> ->]|HIn].
  - now rewrite key_eqb_refl.
  - destruct (key_eqb k k') eqn:E.
    + apply key_eqb_eq in E. subst. exfalso. apply Hnot.
      change k' with (fst (k', v)). now apply in_map.
    + auto.
Qed.

Lemma own_get_set_same k v o : own_get k (obj_set k v o) = Some v.
Proof.
  induction o as [|[k' v'] o IH]; simpl.
  - now rewrite key_eqb_refl.
  - destruct (key_eqb k k') eqn:E; simpl; rewrite E; auto.
Qed.

Lemma own_get_set_other k k' v o :
  k' <> k -> own_get k' (obj_set k v o) = own_get k' o.
Proof.
  intro Hne. induction o as [|[k0 v0] o IH]; simpl.
  - apply key_eqb_neq in Hne. now rewrite Hne.
  - destruct (key_eqb k k0) eqn:E; simpl.
    + apply key_eqb_eq in E. subst k0.
      apply key_eqb_neq in Hne. now rewrite Hne.
    + destruct (key_eqb k' k0); auto.
Qed.

Lemma keys_set k v o :
  map fst (obj_set k v o)
  = match own_get k o with
    | Some _ => map fst o
    | None => map fst o ++ [k]
    end.
Proof.
  induction o as [|[k' v'] o IH]; simpl; [reflexivity|].
  destruct (key_eqb k k') eqn:E; simpl; [reflexivity|].
  rewrite IH. now destruct (own_get k o).
Qed.

Lemma NoDup_snoc (A : Type) (l : list A) (x : A) :
  NoDup l -> ~ In x l -> NoDup (l ++ [x]).
Proof.
  intros ND Hx. induction ND as [|y l Hy ND IH]; simpl.
  - constructor; [intros []|constructor].
  - constructor.
    + rewrite in_app_iff. intros [H|[H|[]]]; [contradiction|].
      subst. apply Hx. now left.
    + apply IH. intro H. apply Hx. now right.
Qed.

Lemma NoDup_keys_set k v o :
  NoDup (map fst o) -> NoDup (map fst (obj_set k v o)).
Proof.
  intro ND. rewrite keys_set. destruct (own_get k o) eqn:E; [assumption|].
  apply NoDup_snoc; [assumption|]. now apply own_get_none.
Qed.

Lemma in_obj_set k v o e :
  In e (obj_set k v o) -> e = (k, v) \/ In e o.
Proof.
  induction o as [|[k' v'] o IH]; simpl.
  - intros [H|[]]. now left.
  - destruct (key_eqb k k') eqn:E; simpl.
    + apply key_eqb_eq in E. subst k'. intros [H|H]; auto.
    + intros [H|H]; auto. destruct (IH H); auto.
Qed.

(** [Object.entries] enumerates exactly the own properties. *)
Lemma insert_idx_perm (e : PropKey * V) l :
  Permutation (insert_idx e l) (e :: l).
Proof.
  induction l as [|e' l IH]; simpl; [reflexivity|].
  destruct (idx_of (fst e) <=? idx_of (fst e'))%N; [reflexivity|].
  rewrite IH. apply perm_swap.
Qed.

Lemma idx_sort_perm (l : list (PropKey * V)) :
  Permutation (fold_right insert_idx [] l) l.
Proof.
  induction l as [|e l IH]; simpl; [reflexivity|].
  rewrite insert_idx_perm. now constructor.
Qed.

Lemma filter_split_perm (A : Type) (f : A -> bool) (l : list A) :
  Permutation (filter f l ++ filter (fun x => negb (f x)) l) l.
Proof.
  induction l as [|x l IH]; simpl; [reflexivity|].
  destruct (f x); simpl.
  - now constructor.
  - rewrite <- Permutation_middle. now constructor.
Qed.

Lemma Object_entries_perm o : Permutation (Object_entries o) o.
Proof.
  unfold Object_entries. rewrite idx_sort_perm. apply filter_split_perm.
Qed.

Lemma Object_entries_in o e : In e (Object_entries o) <-> In e o.
Proof.
  split; apply Permutation_in;
    [apply Object_entries_perm | symmetry; apply Object_entries_perm].
Qed.

Lemma Object_entries_NoDup o :
  NoDup (map fst o) -> NoDup (map fst (Object_entries o)).
Proof.
  intro ND. eapply Permutation_NoDup; [|exact ND].
  apply Permutation_map. symmetry. apply Object_entries_perm.
Qed.

End ObjFacts.

(* ================================================================= *)
(** ** Counting and grouping *)

Section Buckets.

Variable key : Incident -> PropKey.

Lemma members_snoc k l i :
  members key k (l ++ [i])
  = if key_eqb (key i) k then members key k l ++ [i] else members key k l.
Proof.
  unfold members. rewrite filter_app. simpl.
  destruct (key_eqb (key i) k); [reflexivity|apply app_nil_r].
Qed.

Lemma sum_obj_set k (v : nat) (o : Obj nat) :
  (list_sum (map snd (obj_set k v o)) + count_of k o
   = list_sum (map snd o) + v)%nat.
Proof.
  unfold count_of. induction o as [|[k' v'] o IH]; simpl; [lia|].
  destruct (key_eqb k k') eqn:E; simpl; lia.
Qed.

Lemma counts_step dist l i :
  counts key dist l -> counts key (count_add dist (key i)) (l ++ [i]).
Proof.
  intros [ND Hval Hpos Hsum]. unfold count_add. split.
  - now apply NoDup_keys_set.
  - intro k. rewrite members_snoc. unfold count_of at 1.
    destruct (key_eqb (key i) k) eqn:E.
    + apply key_eqb_eq in E. subst k. rewrite own_get_set_same.
      rewrite Hval, length_app. simpl. reflexivity.
    + apply key_eqb_neq in E. rewrite own_get_set_other by congruence.
      apply Hval.
  - intros k c HIn. apply in_obj_set in HIn. destruct HIn as [[= _ ->]|HIn].
    + lia.
    + eauto.
  - pose proof (sum_obj_set (key i) (count_of (key i) dist + 1) dist) as H.
    rewrite length_app. simpl. lia.
Qed.

Lemma counts_fold l : forall dist l0,
  counts key dist l0 ->
  counts key (fold_left (fun d i => count_add d (key i)) l dist) (l0 ++ l).
Proof.
  induction l as [|i l IH]; intros dist l0 H; simpl.
  - now rewrite app_nil_r.
  - replace (l0 ++ i :: l) with ((l0 ++ [i]) ++ l)
      by (rewrite <- app_assoc; reflexivity).
    apply IH. now apply counts_step.
Qed.

Lemma count_by_counts l : counts key (count_by key l) l.
Proof.
  apply (counts_fold l [] []).
  split; simpl; try constructor; try reflexivity. intros ? ? [].
Qed.

(** Every entry of a distribution carries the size of its bucket. *)
Lemma count_by_entry l k c :
  In (k, c) (Object_entries (count_by key l)) ->
  c = List.length (members key k l) /\ (0 < c)%nat.
Proof.
  intro HIn. rewrite Object_entries_in in HIn.
  destruct (count_by_counts l) as [ND Hval Hpos _]. split.
  - rewrite <- Hval. unfold count_of. now rewrite (in_own_get _ _ _ ND HIn).
  - eauto.
Qed.

Lemma count_by_lookup l e :
  In e (Object_entries (count_by key l)) ->
  count_of (fst e) (count_by key l) = snd e.
Proof.
  destruct e as [k c]. intro HIn. rewrite Object_entries_in in HIn.
  destruct (count_by_counts l) as [ND _ _ _]. unfold count_of. simpl.
  now rewrite (in_own_get _ _ _ ND HIn).
Qed.

Lemma count_by_has l i :
  In i l ->
  In (key i, List.length (members key (key i) l)) (Object_entries (count_by key l)).
Proof.
  intro HIn. apply Object_entries_in.
  destruct (count_by_counts l) as [_ Hval _ _].
  specialize (Hval (key i)). unfold count_of in Hval.
  destruct (own_get (key i) (count_by key l)) as [c|] eqn:E.
  - rewrite <- Hval. now apply own_get_in.
  - exfalso. assert (In i (members key (key i) l)) as Hm.
    { apply filter_In. split; [assumption|apply key_eqb_refl]. }
    destruct (members key (key i) l); [contradiction|discriminate].
Qed.

Lemma count_by_nonempty l : l <> [] -> Object_entries (count_by key l) <> [].
Proof.
  destruct l as [|i l]; [congruence|]. intros _ H.
  pose proof (count_by_has (i :: l) i (or_introl eq_refl)) as HIn.
  rewrite H in HIn. contradiction.
Qed.

End Buckets.

Section Groups.

Variable keyR : Incident -> Res PropKey.

Lemma some_nonempty_snoc g i : some_nonempty (g ++ [i]) = Some (g ++ [i]).
Proof. destruct g; reflexivity. Qed.

Lemma some_nonempty_inv g g' : some_nonempty g = Some g' -> g' = g /\ g <> [].
Proof. destruct g; simpl; [discriminate|]. intros [= <-]. split; congruence. Qed.

Lemma grouped_step groups groups' l i :
  grouped keyR groups l ->
  group_push (key_of keyR i) i groups = Ok groups' ->
  grouped keyR groups' (l ++ [i]).
Proof.
  intros [ND Hval] Hpush. unfold group_push in Hpush.
  pose proof (Hval (key_of keyR i)) as Hk.
  destruct (own_get (key_of keyR i) groups) as [ms|] eqn:E.
  - injection Hpush as <-. symmetry in Hk.
    apply some_nonempty_inv in Hk. destruct Hk as [-> _]. split.
    + now apply NoDup_keys_set.
    + intro k. rewrite members_snoc.
      destruct (key_eqb (key_of keyR i) k) eqn:Ek.
      * apply key_eqb_eq in Ek. subst k.
        now rewrite own_get_set_same, some_nonempty_snoc.
      * apply key_eqb_neq in Ek.
        rewrite own_get_set_other by congruence. apply Hval.
  - destruct (on_prototype (key_of keyR i)); [discriminate|].
    injection Hpush as <-.
    assert (members (key_of keyR) (key_of keyR i) l = []) as Hnil.
    { destruct (members (key_of keyR) (key_of keyR i) l); [reflexivity|discriminate]. }
    split.
    + now apply NoDup_keys_set.
    + intro k. rewrite members_snoc.
      destruct (key_eqb (key_of keyR i) k) eqn:Ek.
      * apply key_eqb_eq in Ek. subst k.
        now rewrite own_get_set_same, Hnil.
      * apply key_eqb_neq in Ek.
        rewrite own_get_set_other by congruence. apply Hval.
Qed.

Lemma group_into_grouped l : forall groups l0 result,
  grouped keyR groups l0 ->
  group_into keyR l groups = Ok result ->
  grouped keyR result (l0 ++ l).
Proof.
  induction l as [|i l IH]; intros groups l0 result HG Hrun; simpl in Hrun.
  - injection Hrun as <-. now rewrite app_nil_r.
  - destruct (keyR i) as [k|e] eqn:Ek; simpl in Hrun; [|discriminate].
    destruct (group_push k i groups) as [groups'|e] eqn:Ep; simpl in Hrun;
      [|discriminate].
    replace (l0 ++ i :: l) with ((l0 ++ [i]) ++ l)
      by (rewrite <- app_assoc; reflexivity).
    apply (IH groups'); [|assumption].
    apply (grouped_step groups); [assumption|].
    unfold key_of. now rewrite Ek.
Qed.

Lemma grouped_nil : grouped keyR [] [].
Proof. split; [constructor|reflexivity]. Qed.

Lemma group_into_returns l : forall groups,
  Forall (safe keyR) l -> exists result, group_into keyR l groups = Ok result.
Proof.
  induction l as [|i l IH]; intros groups Hsafe; simpl.
  - eauto.
  - inversion Hsafe as [|? ? [[k Hk] Hproto] Hrest]; subst.
    unfold key_of in Hproto. rewrite Hk in *. simpl.
    unfold group_push. destruct (own_get k groups); simpl; [apply IH; assumption|].
    rewrite Hproto. simpl. now apply IH.
Qed.

(** An incident whose key computation throws makes grouping throw. *)
Lemma group_into_throws l : forall groups,
  Exists (fun i => exists e, keyR i = Throw e) l ->
  exists e, group_into keyR l groups = Throw e.
Proof.
  induction l as [|i l IH]; intros groups Hex; simpl.
  - inversion Hex.
  - destruct (keyR i) as [k|e] eqn:Ek; simpl; [|eauto].
    inversion Hex as [? ? [e He]|? ? Hrest]; subst; [congruence|].
    destruct (group_push k i groups) as [groups'|e]; simpl; [|eauto].
    now apply IH.
Qed.

(** The entries of a grouping are non-empty sub-sequences of the input. *)
Lemma grouped_entry groups l k g :
  grouped keyR groups l ->
  In (k, g) (Object_entries groups) ->
  g = members (key_of keyR) k l /\ g <> [].
Proof.
  intros [ND Hval] HIn. rewrite Object_entries_in in HIn.
  apply (in_own_get _ _ _ ND) in HIn. rewrite Hval in HIn.
  apply some_nonempty_inv in HIn. destruct HIn as [-> Hne]. now split.
Qed.

End Groups.

Lemma members_incl key k l : incl (members key k l) l.
Proof. intros i H. apply filter_In in H. tauto. Qed.

Lemma typeKey_not_inherited i : on_prototype (typeKey i) = false.
Proof. unfold typeKey. destruct (type i); reflexivity. Qed.

Lemma groupByLocation_grouped l groups :
  groupByLocation l = Ok groups -> grouped locationKey groups l.
Proof.
  intro H. apply (group_into_grouped locationKey l [] [] groups); [|exact H].
  apply grouped_nil.
Qed.

Lemma groupByCrimeType_grouped l groups :
  groupByCrimeType l = Ok groups -> grouped (fun i => Ok (typeKey i)) groups l.
Proof.
  intro H.
  apply (group_into_grouped (fun i => Ok (typeKey i)) l [] [] groups); [|exact H].
  apply grouped_nil.
Qed.

Lemma groupByCrimeType_returns l : exists groups, groupByCrimeType l = Ok groups.
Proof.
  apply group_into_returns. apply Forall_forall. intros i _. split.
  - eauto.
  - apply typeKey_not_inherited.
Qed.

(* ================================================================= *)
(** ** Facts about sorting and reducing *)

Section SortFacts.

Context {A : Type} (cmp : A -> A -> Q).

Lemma insert_by_perm x l : Permutation (insert_by cmp x l) (x :: l).
Proof.
  induction l as [|y l IH]; simpl; [reflexivity|].
  destruct (Qle_bool (cmp x y) 0); [reflexivity|].
  rewrite IH. apply perm_swap.
Qed.

Lemma sort_by_perm l : Permutation (sort_by cmp l) l.
Proof.
  induction l as [|x l IH]; simpl; [reflexivity|].
  rewrite insert_by_perm. now constructor.
Qed.

Lemma sort_by_in l x : In x (sort_by cmp l) <-> In x l.
Proof.
  split; apply Permutation_in;
    [apply sort_by_perm | symmetry; apply sort_by_perm].
Qed.

Section Sorted.

Hypothesis cmp_total : forall a b, ~ before cmp a b -> before cmp b a.
Hypothesis cmp_trans : forall a b c, before cmp a b -> before cmp b c -> before cmp a c.

Lemma insert_by_sorted x l :
  StronglySorted (before cmp) l -> StronglySorted (before cmp) (insert_by cmp x l).
Proof.
  induction 1 as [|y l Hl IH Hy]; simpl.
  - constructor; constructor.
  - destruct (Qle_bool (cmp x y) 0) eqn:E.
    + apply Qle_bool_iff in E. constructor.
      * now constructor.
      * constructor; [exact E|].
        eapply Forall_impl; [|exact Hy]. intros z Hz.
        now apply (cmp_trans x y z).
    + assert (before cmp y x) as Hyx.
      { apply cmp_total. intro H. apply Qle_bool_iff in H. congruence. }
      constructor; [exact IH|].
      apply Forall_forall. intros z Hz.
      apply (Permutation_in _ (insert_by_perm x l)) in Hz.
      destruct Hz as [<-|Hz]; [exact Hyx|].
      rewrite Forall_forall in Hy. now apply Hy.
Qed.

Lemma sort_by_sorted l : StronglySorted (before cmp) (sort_by cmp l).
Proof.
  induction l as [|x l IH]; simpl; [constructor|].
  now apply insert_by_sorted.
Qed.

End Sorted.

Section Stable.

(** [same z] selects the elements tied with [z]; tied elements compare
    as equal. *)
Variable same : A -> A -> bool.
Hypothesis same_tie :
  forall z a b, same z a = true -> same z b = true -> before cmp a b.

Lemma insert_by_stable z x l :
  filter (same z) (insert_by cmp x l) = filter (same z) (x :: l).
Proof.
  induction l as [|y l IH]; [reflexivity|].
  cbn [insert_by]. destruct (Qle_bool (cmp x y) 0) eqn:E; [reflexivity|].
  cbn [filter] in *. rewrite IH.
  destruct (same z x) eqn:Ex, (same z y) eqn:Ey; try reflexivity.
  exfalso. pose proof (same_tie z x y Ex Ey) as H.
  apply Qle_bool_iff in H. congruence.
Qed.

Lemma sort_by_stable z l :
  filter (same z) (sort_by cmp l) = filter (same z) l.
Proof.
  induction l as [|x l IH]; [reflexivity|].
  cbn [sort_by fold_right]. rewrite insert_by_stable.
  cbn [filter]. fold (sort_by cmp l). now rewrite IH.
Qed.

End Stable.

End SortFacts.

Lemma StronglySorted_app_inv {A} (R : A -> A -> Prop) (l1 l2 : list A) :
  StronglySorted R (l1 ++ l2) ->
  forall a b, In a l1 -> In b l2 -> R a b.
Proof.
  induction l1 as [|x l1 IH]; simpl; intros HS a b Ha Hb; [contradiction|].
  inversion HS as [|? ? Hrest Hall]; subst.
  destruct Ha as [<-|Ha].
  - rewrite Forall_forall in Hall. apply Hall. apply in_app_iff. now right.
  - now apply IH.
Qed.

Lemma in_firstn {A} (x : A) n l : In x (firstn n l) -> In x l.
Proof.
  intro H. rewrite <- (firstn_skipn n l). apply in_app_iff. now left.
Qed.

(** A bucket so large that fewer than [n] others can match it is among the
    first [n] of a descending order. *)
Lemma large_bucket_in_firstn (l : list (PropKey * nat)) (e : PropKey * nat) n :
  StronglySorted (fun a b => (snd b <= snd a)%nat) l ->
  In e l ->
  (list_sum (map snd l) < (n + 1) * snd e)%nat ->
  In e (firstn n l).
Proof.
  intros HS HIn Hsum.
  rewrite <- (firstn_skipn n l) in HIn, HS, Hsum.
  apply in_app_iff in HIn. destruct HIn as [HIn|HIn]; [assumption|exfalso].
  assert (List.length (firstn n l) = n) as Hlen.
  { apply firstn_length_le.
    destruct (Nat.le_gt_cases n (List.length l)) as [H|H]; [assumption|].
    rewrite skipn_all2 in HIn by lia. contradiction. }
  assert (forall a, In a (firstn n l) -> (snd e <= snd a)%nat) as Hge.
  { intros a Ha. exact (StronglySorted_app_inv _ _ _ HS a e Ha HIn). }
  rewrite map_app, list_sum_app in Hsum.
  assert (snd e <= list_sum (map snd (skipn n l)))%nat as Hlo.
  { clear - HIn. induction (skipn n l) as [|x r IH]; [contradiction|].
    simpl. destruct HIn as [->|HIn]; [lia|]. specialize (IH HIn). lia. }
  assert (List.length (firstn n l) * snd e
          <= list_sum (map snd (firstn n l)))%nat as Hhi.
  { clear - Hge. induction (firstn n l) as [|x r IH]; simpl; [lia|].
    assert (snd e <= snd x)%nat by (apply Hge; now left).
    assert (List.length r * snd e <= list_sum (map snd r))%nat
      by (apply IH; intros a Ha; apply Hge; now right).
    lia. }
  rewrite Hlen in Hhi. lia.
Qed.

Section ReduceFacts.

Context {V : Type} (dist : Obj nat).

(** Folding [pick_larger] keeps the last of the heaviest entries. *)
Lemma fold_pick_larger (rest : list (PropKey * V)) : forall pre x mid,
  (forall e, In e pre -> (count_of (fst e) dist <= count_of (fst x) dist)%nat) ->
  (forall e, In e mid -> (count_of (fst e) dist < count_of (fst x) dist)%nat) ->
  exists pre' post,
    pre ++ x :: mid ++ rest
    = pre' ++ fold_left (pick_larger dist) rest x :: post
    /\ (forall e, In e pre' ->
          (count_of (fst e) dist <= count_of (fst (fold_left (pick_larger dist) rest x)) dist)%nat)
    /\ (forall e, In e post ->
          (count_of (fst e) dist < count_of (fst (fold_left (pick_larger dist) rest x)) dist)%nat).
Proof.
  induction rest as [|y rest IH]; intros pre x mid Hpre Hmid; simpl.
  - exists pre, mid. now rewrite app_nil_r.
  - unfold pick_larger at 2 4 6.
    destruct (count_of (fst y) dist <? count_of (fst x) dist)%nat eqn:E.
    + apply Nat.ltb_lt in E.
      destruct (IH pre x (mid ++ [y])) as (pre' & post & Heq & H1 & H2).
      * assumption.
      * intros e He. apply in_app_iff in He.
        destruct He as [He|[<-|[]]]; auto.
      * exists pre', post. split; [|now split].
        rewrite <- Heq, <- app_assoc. reflexivity.
    + apply Nat.ltb_ge in E.
      destruct (IH (pre ++ x :: mid) y []) as (pre' & post & Heq & H1 & H2).
      * intros e He. apply in_app_iff in He.
        destruct He as [He|[<-|He]].
        -- specialize (Hpre e He). lia.
        -- assumption.
        -- specialize (Hmid e He). lia.
      * intros e [].
      * exists pre', post. split; [|now split].
        rewrite <- Heq, <- app_assoc. reflexivity.
Qed.

Lemma reduce1_pick_larger (entries : list (PropKey * V)) :
  entries <> [] ->
  exists r pre post,
    reduce1 (pick_larger dist) entries = Ok r
    /\ entries = pre ++ r :: post
    /\ (forall e, In e pre -> (count_of (fst e) dist <= count_of (fst r) dist)%nat)
    /\ (forall e, In e post -> (count_of (fst e) dist < count_of (fst r) dist)%nat).
Proof.
  destruct entries as [|x rest]; [congruence|]. intros _.
  destruct (fold_pick_larger rest [] x []) as (pre & post & Heq & H1 & H2);
    try (intros e []).
  exists (fold_left (pick_larger dist) rest x), pre, post. now repeat split.
Qed.

End ReduceFacts.

(* ================================================================= *)
(** ** Bounds on the scores *)

Lemma Qn_nonneg n : (0 <= Qn n)%Q.
Proof.
  unfold Qn. change 0%Q with (inject_Z 0). rewrite <- Zle_Qle. lia.
Qed.

Lemma Qn_pos n : (0 < n)%nat -> (0 < Qn n)%Q.
Proof.
  intro H. unfold Qn. change 0%Q with (inject_Z 0). rewrite <- Zlt_Qlt. lia.
Qed.

Lemma Qn_le n m : (n <= m)%nat -> (Qn n <= Qn m)%Q.
Proof. intro H. unfold Qn. rewrite <- Zle_Qle. lia. Qed.

Lemma Qdiv_nonneg a b : (0 <= a -> 0 <= b -> 0 <= a / b)%Q.
Proof.
  intros Ha Hb. unfold Qdiv. apply Qmult_le_0_compat; [assumption|].
  now apply Qinv_le_0_compat.
Qed.

Lemma Qmin_unit c x : (0 <= c -> 0 <= x -> 0 <= Qmin c x /\ Qmin c x <= c)%Q.
Proof.
  intros Hc Hx. split; [now apply Q.min_glb | apply Q.le_min_l].
Qed.

Lemma severity_total_le l : forall a,
  (a <= fold_left (fun sum inc => sum + severityWeight (severity inc)) l a
   <= a + 4 * List.length l)%nat.
Proof.
  induction l as [|i l IH]; intro a; simpl; [lia|].
  specialize (IH (a + severityWeight (severity i))%nat).
  assert (severityWeight (severity i) <= 4)%nat
    by (destruct (severity i); cbv; lia).
  lia.
Qed.

Lemma calculateAverageSeverity_bounds l :
  (0 <= calculateAverageSeverity l <= 4)%Q.
Proof.
  unfold calculateAverageSeverity.
  pose proof (severity_total_le l 0) as [_ Hle]. simpl in Hle.
  set (total := fold_left _ l 0%nat) in *. split.
  - apply Qdiv_nonneg; apply Qn_nonneg.
  - destruct l as [|i l].
    + assert (total = 0)%nat as -> by (simpl in Hle; lia). discriminate.
    + apply Qle_shift_div_r; [apply Qn_pos; simpl; lia|].
      unfold Qn. change 4%Q with (inject_Z 4).
      rewrite <- inject_Z_mult, <- Zle_Qle. lia.
Qed.

Lemma calculateCrimeDensity_nonneg l : (0 <= calculateCrimeDensity l)%Q.
Proof.
  unfold calculateCrimeDensity. apply Qdiv_nonneg; [apply Qn_nonneg|].
  apply Qle_trans with 1%Q; [discriminate|apply Q.le_max_l].
Qed.

Lemma calculateHotspotConfidence_bounds n d s t :
  (0 <= d)%Q -> (0 <= s <= 4)%Q ->
  (0 <= calculateHotspotConfidence (mkFactors n d s t) <= 1)%Q.
Proof.
  intros Hd [Hs0 Hs4]. unfold calculateHotspotConfidence. simpl.
  assert (0 <= Qn n / 10)%Q as H1 by (apply Qdiv_nonneg; [apply Qn_nonneg|discriminate]).
  assert (0 <= d / 2)%Q as H2 by (apply Qdiv_nonneg; [assumption|discriminate]).
  destruct (Qmin_unit 1 (Qn n / 10)) as [Hc0 Hc1]; [discriminate|assumption|].
  destruct (Qmin_unit 1 (d / 2)) as [Hd0 Hd1]; [discriminate|assumption|].
  set (ts := if (0 <? t)%Z then _ else _).
  assert (0 <= ts <= 1)%Q as [Ht0 Ht1].
  { subst ts. destruct (0 <? t)%Z eqn:E; [|split; discriminate].
    apply Z.ltb_lt in E. apply Qmin_unit; [discriminate|].
    apply Qdiv_nonneg; [|discriminate].
    change 0%Q with (inject_Z 0). rewrite <- Zle_Qle. lia. }
  set (cs := Qmin 1 (Qn n / 10)) in *. set (ds := Qmin 1 (d / 2)) in *.
  assert (0 <= s / 4 <= 1)%Q as [Hq0 Hq1].
  { split; [apply Qdiv_nonneg; [assumption|discriminate]|].
    apply Qle_shift_div_r; [reflexivity|]. lra. }
  set (ss := (s / 4)%Q) in *. split; lra.
Qed.

Lemma getRecentActivityLevel_bounds now l :
  (0 <= getRecentActivityLevel now l <= 1)%Q.
Proof.
  unfold getRecentActivityLevel. apply Qmin_unit; [discriminate|].
  apply Qmult_le_0_compat; [|discriminate].
  apply Qdiv_nonneg; apply Qn_nonneg.
Qed.

Lemma calculateRiskScore_bounds now l :
  (0 <= calculateRiskScore now l <= 1)%Q.
Proof.
  unfold calculateRiskScore.
  destruct (calculateAverageSeverity_bounds l) as [Hs0 Hs4].
  destruct (getRecentActivityLevel_bounds now l) as [Hr0 Hr1].
  destruct (Qmin_unit 1 (Qn (List.length l) / 10)) as [Hf0 Hf1];
    [discriminate|apply Qdiv_nonneg; [apply Qn_nonneg|discriminate]|].
  assert (0 <= calculateAverageSeverity l / 4 <= 1)%Q as [Hq0 Hq1].
  { split; [apply Qdiv_nonneg; [assumption|discriminate]|].
    apply Qle_shift_div_r; [reflexivity|]. lra. }
  set (ss := (calculateAverageSeverity l / 4)%Q) in *.
  set (fs := Qmin 1 (Qn (List.length l) / 10)) in *.
  set (rs := getRecentActivityLevel now l) in *. split; lra.
Qed.

(* ================================================================= *)
(** ** What each detector emits *)

Section DetectorFacts.

Variables (now tz : Z).

Lemma getHours_range t : (0 <= getHours tz t < 24)%Z.
Proof. unfold getHours. apply Z.mod_pos_bound. lia. Qed.

Lemma getDay_range t : (0 <= getDay tz t < 7)%Z.
Proof. unfold getDay. apply Z.mod_pos_bound. lia. Qed.

Lemma month_of_day_range d : (0 <= month_of_day d <= 11)%Z.
Proof.
  unfold month_of_day.
  set (z := (d + 719468)%Z). set (era := (z / 146097)%Z).
  set (doe := (z - era * 146097)%Z).
  assert (0 <= doe < 146097)%Z.
  { subst doe era. pose proof (Z.mod_pos_bound z 146097).
    rewrite Z.mod_eq in *; lia. }
  clearbody doe. clear z era d.
  set (yoe := ((doe - doe / 1460 + doe / 36524 - doe / 146096) / 365)%Z).
  set (doy := (doe - (365 * yoe + yoe / 4 - yoe / 100))%Z).
  assert (0 <= doy <= 365)%Z.
  { subst doy yoe. Z.div_mod_to_equations; lia. }
  clearbody doy.
  destruct (_ <? 10)%Z eqn:E;
    [apply Z.ltb_lt in E|apply Z.ltb_ge in E]; Z.div_mod_to_equations; lia.
Qed.

Lemma getMonth_range t : (0 <= getMonth tz t <= 11)%Z.
Proof. apply month_of_day_range. Qed.

(** The incidents a temporal pattern lists are the members of its bucket. *)
Lemma membersOf_members (accessor : Z -> Z) n l :
  (forall t, 0 <= accessor t)%Z ->
  membersOf accessor (Idx n) l
  = members (fun i => Idx (Z.to_N (accessor (dateTime i)))) (Idx n) l.
Proof.
  intro Hpos. unfold membersOf, members. simpl. apply filter_ext. intro i.
  specialize (Hpos (dateTime i)).
  destruct (accessor (dateTime i) =? Z.of_N n)%Z eqn:E.
  - apply Z.eqb_eq in E. symmetry. apply N.eqb_eq. lia.
  - apply Z.eqb_neq in E. symmetry. apply N.eqb_neq. lia.
Qed.

Lemma for_push_in {A B} (body : A -> Res (list B)) l : forall out y,
  for_push body l = Ok out -> In y out ->
  exists x here, In x l /\ body x = Ok here /\ In y here.
Proof.
  induction l as [|x l IH]; intros out y Hrun HIn; simpl in Hrun.
  - injection Hrun as <-. contradiction.
  - destruct (body x) as [here|e] eqn:Ex; simpl in Hrun; [|discriminate].
    destruct (for_push body l) as [more|e] eqn:El; simpl in Hrun;
      [|discriminate].
    injection Hrun as <-. apply in_app_iff in HIn. destruct HIn as [HIn|HIn].
    + exists x, here. repeat split; auto. now left.
    + destruct (IH more y eq_refl HIn) as (x' & here' & H1 & H2 & H3).
      exists x', here'. repeat split; auto. now right.
Qed.

Lemma analyzeLocationTimePattern_returns g :
  g <> [] -> exists when, analyzeLocationTimePattern tz g = Ok when.
Proof.
  intro Hne. unfold analyzeLocationTimePattern.
  destruct (reduce1_pick_larger (V := nat) (count_by (hourKey tz) g)
              (Object_entries (count_by (hourKey tz) g)))
    as (r & _ & _ & -> & _); [now apply count_by_nonempty|].
  simpl. eauto.
Qed.

Lemma classifyHotspotType_returns g :
  g <> [] -> exists dominant, classifyHotspotType g = Ok dominant.
Proof.
  intro Hne. unfold classifyHotspotType, getCrimeTypeDistribution.
  destruct (reduce1_pick_larger (V := nat) (count_by typeKey g)
              (Object_entries (count_by typeKey g)))
    as (r & _ & _ & -> & _); [now apply count_by_nonempty|].
  simpl. eauto.
Qed.

Lemma ids_of_members incidents g :
  g <> [] -> incl g incidents ->
  ids g <> []
  /\ forall id, In id (ids g) -> exists inc, In inc incidents /\ _id inc = id.
Proof.
  intros Hne Hincl. split.
  - destruct g; [congruence|discriminate].
  - intros id HIn. apply in_map_iff in HIn. destruct HIn as (inc & <- & HIn).
    exists inc. split; [now apply Hincl|reflexivity].
Qed.

(** Hotspot detector, one location group. *)
Lemma hotspotOf_inv k g out p :
  hotspotOf tz (k, g) = Ok out -> In p out ->
  (3 <= List.length g)%nat
  /\ confidence p
     = calculateHotspotConfidence
         (mkFactors (List.length g) (calculateCrimeDensity g)
            (calculateAverageSeverity g) (calculateTimeSpread g))
  /\ ((4 # 10) <= confidence p)%Q
  /\ ptype p = hotspot
  /\ plocation p = key_string k
  /\ (exists dominant,
        classifyHotspotType g = Ok dominant /\ subtype p = Some dominant)
  /\ statistics p
     = HotspotStats (List.length g) (calculateCrimeDensity g)
         (calculateAverageSeverity g) (calculateTimeSpread g)
         (getCrimeTypeDistribution g)
  /\ relatedIncidents p = ids g
  /\ riskLevel p
     = assessRiskLevel (confidence p) (calculateAverageSeverity g)
         (List.length g).
Proof.
  unfold hotspotOf. cbn [fst snd].
  destruct (3 <=? List.length g)%nat eqn:E3; [|intros [= <-] []].
  apply Nat.leb_le in E3.
  destruct (Qle_bool (4 # 10) _) eqn:Ec; [|intros [= <-] []].
  apply Qle_bool_iff in Ec.
  destruct (classifyHotspotType g) as [d|e]; simpl; [|discriminate].
  destruct (analyzeLocationTimePattern tz g) as [w|e]; simpl; [|discriminate].
  intros [= <-] [<-|[]]. simpl. repeat split; auto. now exists d.
Qed.

Lemma hotspotOf_supported incidents k g out p :
  g <> [] -> incl g incidents ->
  hotspotOf tz (k, g) = Ok out -> In p out -> supported incidents p.
Proof.
  intros Hne Hincl Hrun HIn.
  destruct (hotspotOf_inv k g out p Hrun HIn)
    as (_ & Hc & _ & _ & _ & _ & _ & Hrel & _).
  unfold supported. rewrite Hc, Hrel. split.
  - apply calculateHotspotConfidence_bounds.
    + apply calculateCrimeDensity_nonneg.
    + apply calculateAverageSeverity_bounds.
  - now apply ids_of_members.
Qed.

(** Temporal detector: one bucket of the hourly and daily analyses. *)
Lemma hourlyOf_inv incidents k c p :
  In p (hourlyOf tz incidents (k, c)) ->
  (3 <= c)%nat
  /\ confidence p = Qmin (9 # 10) (Qn c / Qn (List.length incidents) * 4)
  /\ ptype p = temporal_pattern
  /\ subtype p = Some "hourly"%string
  /\ statistics p
     = HourlyStats (parseInt_key k) c (percentageOf c (List.length incidents))
  /\ relatedIncidents p = ids (membersOf (getHours tz) k incidents)
  /\ riskLevel p = temporalRisk (confidence p).
Proof.
  unfold hourlyOf. cbn [fst snd].
  destruct (3 <=? c)%nat eqn:E3; [|intros []]. apply Nat.leb_le in E3.
  intros [<-|[]]. simpl. repeat split; auto.
Qed.

Lemma dailyOf_inv incidents k c p :
  In p (dailyOf tz incidents (k, c)) ->
  (3 <= c)%nat
  /\ confidence p = Qmin (85 # 100) (Qn c / Qn (List.length incidents) * 3)
  /\ ptype p = temporal_pattern
  /\ subtype p = Some "daily"%string
  /\ relatedIncidents p = ids (membersOf (getDay tz) k incidents)
  /\ riskLevel p = temporalRisk (confidence p).
Proof.
  unfold dailyOf. cbn [fst snd].
  destruct (3 <=? c)%nat eqn:E3; [|intros []]. apply Nat.leb_le in E3.
  intros [<-|[]]. simpl. repeat split; auto.
Qed.

Lemma detectSeasonalPatterns_inv incidents out p :
  detectSeasonalPatterns tz incidents = Ok out -> In p out ->
  exists k c,
    In (k, c) (Object_entries (count_by (monthKey tz) incidents))
    /\ (4 <= c)%nat
    /\ confidence p = Qmin (8 # 10) (Qn c / Qn (List.length incidents) * 2)
    /\ ptype p = temporal_pattern
    /\ subtype p = Some "seasonal"%string
    /\ relatedIncidents p = ids (membersOf (getMonth tz) k incidents)
    /\ riskLevel p
       = (if negb (Qle_bool (confidence p) (6 # 10)) then RiskMedium
          else RiskLow).
Proof.
  unfold detectSeasonalPatterns.
  destruct (Object_entries (count_by (monthKey tz) incidents)) as [|x rest] eqn:E;
    [simpl; discriminate|].
  destruct (reduce1_pick_larger (V := nat) (count_by (monthKey tz) incidents)
              (x :: rest)) as (r & pre & post & Hr & Hsplit & _);
    [discriminate|].
  rewrite Hr. cbn [rbind]. destruct r as [k c]. cbn [fst snd].
  destruct (4 <=? c)%nat eqn:E4; [|intros [= <-] []]. apply Nat.leb_le in E4.
  intros [= <-] [<-|[]]. exists k, c. cbn [confidence ptype subtype relatedIncidents riskLevel].
  repeat split; auto.
  rewrite Hsplit. apply in_app_iff. right. now left.
Qed.

Lemma bucket_supported (accessor : Z -> Z) incidents k c p :
  (forall t, 0 <= accessor t)%Z ->
  In (k, c) (Object_entries
               (count_by (fun i => Idx (Z.to_N (accessor (dateTime i)))) incidents)) ->
  (0 <= confidence p <= 1)%Q ->
  relatedIncidents p = ids (membersOf accessor k incidents) ->
  supported incidents p.
Proof.
  intros Hpos HIn Hconf Hrel. split; [assumption|]. rewrite Hrel.
  pose proof (count_by_counts (fun i => Idx (Z.to_N (accessor (dateTime i)))) incidents)
    as [ND _ _ _].
  assert (exists n, k = Idx n) as [n ->].
  { rewrite Object_entries_in in HIn.
    clear - HIn. revert HIn. unfold count_by.
    assert (forall e, In e (@nil (PropKey * nat)) -> exists n, fst e = Idx n)
      as Hinit by (intros ? []).
    revert Hinit. generalize (@nil (PropKey * nat)).
    induction incidents as [|i l IH]; intros acc Hacc HIn; simpl in HIn.
    - destruct (Hacc _ HIn) as [n Hn]. now exists n.
    - apply (IH _) in HIn; [assumption|].
      intros e He. unfold count_add in He. apply in_obj_set in He.
      destruct He as [->|He]; [simpl; eauto|auto]. }
  apply count_by_entry in HIn. destruct HIn as [Hc Hcpos].
  rewrite membersOf_members by assumption.
  apply ids_of_members; [|apply members_incl].
  intro Hnil. rewrite Hnil in Hc. simpl in Hc. lia.
Qed.

Lemma temporal_confidence_bounds cap c total scale :
  (0 <= cap <= 1)%Q -> (0 <= scale)%Q ->
  (0 <= Qmin cap (Qn c / Qn total * scale) <= 1)%Q.
Proof.
  intros [Hc0 Hc1] Hs.
  destruct (Qmin_unit cap (Qn c / Qn total * scale)) as [H0 H1];
    [assumption| |split; [assumption|lra]].
  apply Qmult_le_0_compat; [|assumption].
  apply Qdiv_nonneg; apply Qn_nonneg.
Qed.

Lemma analyzeTemporalPatterns_supported incidents out p :
  analyzeTemporalPatterns tz incidents = Ok out -> In p out ->
  supported incidents p.
Proof.
  unfold analyzeTemporalPatterns.
  destruct (detectSeasonalPatterns tz incidents) as [seasonal|e] eqn:Es;
    simpl; [|discriminate].
  intros [= <-] HIn. rewrite !in_app_iff in HIn.
  destruct HIn as [HIn|[HIn|HIn]].
  - unfold detectHourlyPatterns in HIn. apply in_flat_map in HIn.
    destruct HIn as ([k c] & Hentry & HIn).
    apply in_firstn, sort_by_in in Hentry.
    destruct (hourlyOf_inv _ _ _ _ HIn) as (_ & Hc & _ & _ & _ & Hrel & _).
    apply (bucket_supported (getHours tz) incidents k c);
      [apply getHours_range|assumption| |assumption].
    rewrite Hc. apply temporal_confidence_bounds; [split|]; discriminate.
  - unfold detectDailyPatterns in HIn. apply in_flat_map in HIn.
    destruct HIn as ([k c] & Hentry & HIn).
    apply in_firstn, sort_by_in in Hentry.
    destruct (dailyOf_inv _ _ _ _ HIn) as (_ & Hc & _ & _ & Hrel & _).
    apply (bucket_supported (getDay tz) incidents k c);
      [apply getDay_range|assumption| |assumption].
    rewrite Hc. apply temporal_confidence_bounds; [split|]; discriminate.
  - destruct (detectSeasonalPatterns_inv _ _ _ Es HIn)
      as (k & c & Hentry & _ & Hc & _ & _ & Hrel & _).
    apply (bucket_supported (getMonth tz) incidents k c);
      [apply getMonth_range|assumption| |assumption].
    rewrite Hc. apply temporal_confidence_bounds; [split|]; discriminate.
Qed.

(** Crime-series detector, one crime-type group. *)
Lemma seriesOf_inv k g out p :
  seriesOf tz (k, g) = Ok out -> In p out ->
  (3 <= List.length g)%nat
  /\ confidence p = calculateSeriesConfidence g
  /\ ((5 # 10) <= confidence p)%Q
  /\ ptype p = crime_series
  /\ subtype p = Some (key_string k)
  /\ relatedIncidents p = ids g
  /\ riskLevel p = categorizeRiskLevel (confidence p).
Proof.
  unfold seriesOf, findCrimeClusters, seriesOfCluster. cbn [fst snd for_push].
  destruct (3 <=? List.length g)%nat eqn:E3; [|intros [= <-] []].
  apply Nat.leb_le in E3.
  destruct (Qle_bool (5 # 10) _) eqn:Ec; [|intros [= <-] []].
  apply Qle_bool_iff in Ec.
  destruct (analyzeSeriesTimePattern tz g) as [w|e]; simpl; [|discriminate].
  intros [= <-] [<-|[]]. simpl. repeat split; auto.
Qed.

Lemma calculateSeriesConfidence_bounds g :
  (0 <= calculateSeriesConfidence g <= 1)%Q.
Proof.
  unfold calculateSeriesConfidence.
  destruct (Qmin_unit (9 # 10) (Qn (List.length g) / 5 * (8 # 10)))
    as [H0 H1]; [discriminate| |split; [assumption|lra]].
  apply Qmult_le_0_compat; [|discriminate].
  apply Qdiv_nonneg; [apply Qn_nonneg|discriminate].
Qed.

Lemma detectCrimeSeries_supported incidents out p :
  detectCrimeSeries tz incidents = Ok out -> In p out ->
  supported incidents p.
Proof.
  unfold detectCrimeSeries.
  destruct (groupByCrimeType incidents) as [groups|e] eqn:Eg; simpl;
    [|discriminate].
  intros Hrun HIn.
  destruct (for_push_in _ _ _ _ Hrun HIn) as ([k g] & here & Hentry & Hbody & Hp).
  destruct (seriesOf_inv _ _ _ _ Hbody Hp) as (_ & Hc & _ & _ & _ & Hrel & _).
  apply groupByCrimeType_grouped in Eg.
  destruct (grouped_entry _ _ _ _ _ Eg Hentry) as [-> Hne].
  unfold supported. rewrite Hc, Hrel. split.
  - apply calculateSeriesConfidence_bounds.
  - apply ids_of_members; [assumption|apply members_incl].
Qed.

(** Geographic cluster detector. *)
Lemma map_res_locationData incidents data :
  map_res locationDatumOf incidents = Ok data ->
  map datumId data = ids incidents.
Proof.
  revert data. induction incidents as [|i l IH]; intros data H; simpl in H.
  - now injection H as <-.
  - unfold locationDatumOf at 1 in H.
    destruct (location i); simpl in H; [|discriminate].
    destruct (map_res locationDatumOf l) as [ys|e]; simpl in H; [|discriminate].
    injection H as <-. simpl. f_equal. now apply IH.
Qed.

Lemma map_res_locationData_returns incidents :
  Forall (fun i => location i <> None) incidents ->
  exists data, map_res locationDatumOf incidents = Ok data.
Proof.
  induction 1 as [|i l Hi _ IH]; simpl; [eauto|].
  unfold locationDatumOf at 1. destruct (location i); [|congruence]. simpl.
  destruct IH as [ys ->]. simpl. eauto.
Qed.

Lemma clusterOf_inv cluster p :
  In p (clusterOf cluster) ->
  (4 <= List.length cluster)%nat
  /\ confidence p = calculateClusterConfidence cluster
  /\ ptype p = geographic_cluster
  /\ relatedIncidents p = map datumId cluster
  /\ riskLevel p = categorizeRiskLevel (confidence p).
Proof.
  unfold clusterOf.
  destruct (4 <=? List.length cluster)%nat eqn:E4; [|intros []].
  apply Nat.leb_le in E4.
  destruct (Qle_bool (4 # 10) _); [|intros []].
  intros [<-|[]]. simpl. repeat split; auto.
Qed.

Lemma performGeographicClustering_inv incidents out p :
  performGeographicClustering incidents = Ok out -> In p out ->
  (4 <= List.length incidents)%nat
  /\ confidence p = Qmin (8 # 10) (Qn (List.length incidents) / 8)
  /\ ptype p = geographic_cluster
  /\ relatedIncidents p = ids incidents
  /\ riskLevel p = categorizeRiskLevel (confidence p).
Proof.
  unfold performGeographicClustering, clusterByDistance.
  destruct (map_res locationDatumOf incidents) as [data|e] eqn:Ed; simpl;
    [|discriminate].
  intros [= <-] HIn. rewrite app_nil_r in HIn.
  destruct (clusterOf_inv _ _ HIn) as (H4 & Hc & Ht & Hrel & Hrisk).
  pose proof (map_res_locationData _ _ Ed) as Hids.
  assert (List.length data = List.length incidents) as Hlen.
  { unfold ids in Hids. rewrite <- (length_map datumId data), Hids.
    apply length_map. }
  unfold calculateClusterConfidence in Hc. rewrite Hlen in *.
  rewrite Hids in Hrel. auto.
Qed.

Lemma performGeographicClustering_supported incidents out p :
  performGeographicClustering incidents = Ok out -> In p out ->
  supported incidents p.
Proof.
  intros Hrun HIn.
  destruct (performGeographicClustering_inv _ _ _ Hrun HIn)
    as (H4 & Hc & _ & Hrel & _).
  unfold supported. rewrite Hc, Hrel. split.
  - destruct (Qmin_unit (8 # 10) (Qn (List.length incidents) / 8))
      as [H0 H1]; [discriminate| |split; [assumption|lra]].
    apply Qdiv_nonneg; [apply Qn_nonneg|discriminate].
  - apply ids_of_members; [|apply incl_refl].
    destruct incidents; [simpl in H4; lia|discriminate].
Qed.

(** Area risk assessor, one location group. *)
Lemma riskOf_inv k g out p :
  riskOf now tz (k, g) = Ok out -> In p out ->
  ((5 # 10) <= calculateRiskScore now g)%Q
  /\ confidence p = Qmin (9 # 10) (calculateRiskScore now g + (1 # 10))
  /\ ptype p = risk_assessment
  /\ plocation p = key_string k
  /\ (exists n sd ra,
        statistics p
        = RiskStats (calculateRiskScore now g)
            (categorizeRiskLevel (calculateRiskScore now g)) n sd ra)
  /\ relatedIncidents p = ids g
  /\ riskLevel p = categorizeRiskLevel (calculateRiskScore now g).
Proof.
  unfold riskOf. cbn [fst snd].
  destruct (Qle_bool (5 # 10) _) eqn:Ec; [|intros [= <-] []].
  apply Qle_bool_iff in Ec.
  destruct (analyzeLocationTimePattern tz g) as [w|e]; simpl; [|discriminate].
  intros [= <-] [<-|[]]. simpl. repeat split; eauto.
Qed.

Lemma riskOf_supported incidents k g out p :
  g <> [] -> incl g incidents ->
  riskOf now tz (k, g) = Ok out -> In p out -> supported incidents p.
Proof.
  intros Hne Hincl Hrun HIn.
  destruct (riskOf_inv _ _ _ _ Hrun HIn) as (Hs & Hc & _ & _ & _ & Hrel & _).
  unfold supported. rewrite Hc, Hrel. split.
  - destruct (calculateRiskScore_bounds now g) as [H0 H1].
    destruct (Qmin_unit (9 # 10) (calculateRiskScore now g + (1 # 10)))
      as [Ha Hb]; [discriminate|lra|split; [assumption|lra]].
  - now apply ids_of_members.
Qed.

Lemma location_groups_supported
    (body : PropKey * list Incident -> Res (list Pattern)) incidents out p :
  (forall k g here q, g <> [] -> incl g incidents ->
     body (k, g) = Ok here -> In q here -> supported incidents q) ->
  (groups <- groupByLocation incidents ;;
   for_push body (Object_entries groups))%res = Ok out ->
  In p out -> supported incidents p.
Proof.
  intros Hbody.
  destruct (groupByLocation incidents) as [groups|e] eqn:Eg; simpl;
    [|discriminate].
  intros Hrun HIn.
  destruct (for_push_in _ _ _ _ Hrun HIn) as ([k g] & here & Hentry & Hb & Hp).
  apply groupByLocation_grouped in Eg.
  destruct (grouped_entry _ _ _ _ _ Eg Hentry) as [-> Hne].
  apply (Hbody k (members (key_of locationKey) k incidents) here p); auto.
  apply members_incl.
Qed.

Lemma detectCrimeHotspots_supported incidents out p :
  detectCrimeHotspots tz incidents = Ok out -> In p out ->
  supported incidents p.
Proof.
  apply location_groups_supported. intros k g here q.
  apply hotspotOf_supported.
Qed.

Lemma assessAreaRisk_supported incidents out p :
  assessAreaRisk now tz incidents = Ok out -> In p out ->
  supported incidents p.
Proof.
  apply location_groups_supported. intros k g here q.
  apply riskOf_supported.
Qed.

Lemma trends_into_spec entries : forall trends0,
  NoDup (map fst entries) -> NoDup (map fst trends0) ->
  exists trends,
    trends_into tz entries trends0 = Ok trends
    /\ NoDup (map fst trends)
    /\ forall k,
         own_get k trends
         = match own_get k entries with
           | Some g =>
               match trendFor tz g with
               | Some t => Some t
               | None => own_get k trends0
               end
           | None => own_get k trends0
           end.
Proof.
  induction entries as [|[k0 g0] rest IH]; intros trends0 ND ND0.
  - exists trends0. simpl. auto.
  - inversion ND as [|? ? Hfresh NDrest]; subst.
    apply own_get_none in Hfresh.
    cbn [trends_into]. unfold trendFor.
    destruct (2 <=? List.length g0)%nat eqn:E2.
    + apply Nat.leb_le in E2.
      assert (g0 <> []) as Hne
        by (destruct g0; [simpl in E2; lia|discriminate]).
      destruct (analyzeLocationTimePattern_returns g0 Hne) as [w Hw].
      rewrite Hw. cbn [rbind].
      destruct (IH (obj_set k0
                      (mkTrend (List.length g0) true
                         (Qmin (8 # 10) (Qn (List.length g0) / 5))
                         (1 # 10) w g0) trends0))
        as (trends & Hrun & NDt & Hget);
        [assumption|now apply NoDup_keys_set|].
      exists trends. split; [exact Hrun|]. split; [exact NDt|].
      intro k. rewrite Hget. cbn [own_get].
      destruct (key_eqb k k0) eqn:Ek.
      * apply key_eqb_eq in Ek. subst k. rewrite Hfresh, own_get_set_same.
        unfold trendFor, trendOf, hourPatternOf. rewrite Hw.
        apply Nat.leb_le in E2. now rewrite E2.
      * apply key_eqb_neq in Ek.
        rewrite own_get_set_other by assumption. reflexivity.
    + destruct (IH trends0) as (trends & Hrun & NDt & Hget); try assumption.
      exists trends. split; [exact Hrun|]. split; [exact NDt|].
      intro k. rewrite Hget. cbn [own_get].
      destruct (key_eqb k k0) eqn:Ek; [|reflexivity].
      apply key_eqb_eq in Ek. subst k. rewrite Hfresh.
      unfold trendFor. now rewrite E2.
Qed.

Lemma own_get_entries {V} (o : Obj V) k :
  NoDup (map fst o) -> own_get k (Object_entries o) = own_get k o.
Proof.
  intro ND. destruct (own_get k o) as [v|] eqn:E.
  - apply in_own_get; [now apply Object_entries_NoDup|].
    apply Object_entries_in. now apply own_get_in.
  - apply own_get_none. apply own_get_none in E. intro H. apply E.
    apply in_map_iff in H. destruct H as (e & <- & He).
    rewrite Object_entries_in in He. now apply in_map.
Qed.

(** The trends recorded are those of the location groups with at least
    two incidents. *)
Lemma analyzeTrends_spec recent groups :
  groupByLocation recent = Ok groups ->
  exists trends,
    analyzeTrends tz recent = Ok trends
    /\ NoDup (map fst trends)
    /\ forall k,
         own_get k trends
         = match own_get k groups with
           | Some g => trendFor tz g
           | None => None
           end.
Proof.
  intro Hg. unfold analyzeTrends. rewrite Hg. cbn [rbind].
  pose proof (groupByLocation_grouped _ _ Hg) as [ND _].
  destruct (trends_into_spec (Object_entries groups) [])
    as (trends & Hrun & NDt & Hget);
    [now apply Object_entries_NoDup|constructor|].
  exists trends. split; [exact Hrun|]. split; [exact NDt|].
  intro k. rewrite Hget, own_get_entries by assumption.
  destruct (own_get k groups) as [g|]; [|reflexivity].
  now destruct (trendFor tz g).
Qed.

Lemma predictionOf_inv k t p :
  In p (predictionOf (k, t)) ->
  isIncreasing t = true
  /\ ((6 # 10) <= trendConfidence t)%Q
  /\ confidence p = (trendConfidence t * (8 # 10))%Q
  /\ ptype p = predictive_hotspot
  /\ plocation p = key_string k
  /\ relatedIncidents p = ids (trendIncidents t)
  /\ riskLevel p = categorizeRiskLevel (trendConfidence t).
Proof.
  unfold predictionOf. cbn [fst snd].
  destruct (isIncreasing t); [|intros []]. cbn [andb].
  destruct (Qle_bool (6 # 10) (trendConfidence t)) eqn:Ec; [|intros []].
  apply Qle_bool_iff in Ec. intros [<-|[]]. simpl. repeat split; auto.
Qed.

Lemma predictFutureHotspots_inv incidents out p :
  predictFutureHotspots now tz incidents = Ok out -> In p out ->
  exists k g,
    g = members (key_of locationKey) k (filter (isRecent now 14) incidents)
    /\ (2 <= List.length g)%nat
    /\ ((6 # 10) <= Qmin (8 # 10) (Qn (List.length g) / 5))%Q
    /\ confidence p = (Qmin (8 # 10) (Qn (List.length g) / 5) * (8 # 10))%Q
    /\ ptype p = predictive_hotspot
    /\ plocation p = key_string k
    /\ relatedIncidents p = ids g
    /\ riskLevel p
       = categorizeRiskLevel (Qmin (8 # 10) (Qn (List.length g) / 5)).
Proof.
  unfold predictFutureHotspots. set (recent := filter _ incidents).
  destruct (analyzeTrends tz recent) as [trends|e] eqn:Et; cbn [rbind];
    [|discriminate].
  intros [= <-] HIn. apply in_flat_map in HIn.
  destruct HIn as ([k t] & Hentry & HIn).
  destruct (predictionOf_inv _ _ _ HIn) as (_ & Hc6 & Hc & Hty & Hloc & Hrel & Hrisk).
  unfold analyzeTrends in Et.
  destruct (groupByLocation recent) as [groups|e] eqn:Eg; cbn [rbind] in Et;
    [|discriminate].
  destruct (analyzeTrends_spec _ _ Eg) as (trends' & Hrun & NDt & Hget).
  unfold analyzeTrends in Hrun. rewrite Eg in Hrun. cbn [rbind] in Hrun.
  assert (trends' = trends) as -> by congruence.
  rewrite Object_entries_in in Hentry. apply (in_own_get _ _ _ NDt) in Hentry.
  rewrite Hget in Hentry.
  destruct (own_get k groups) as [g|] eqn:Ek; [|discriminate].
  unfold trendFor in Hentry.
  destruct (2 <=? List.length g)%nat eqn:E2; [|discriminate].
  apply Nat.leb_le in E2. injection Hentry as <-.
  apply groupByLocation_grouped in Eg. destruct Eg as [_ Hval].
  rewrite Hval in Ek. apply some_nonempty_inv in Ek. destruct Ek as [-> _].
  exists k, (members (key_of locationKey) k recent). simpl in *.
  repeat split; auto.
Qed.

Lemma predictFutureHotspots_supported incidents out p :
  predictFutureHotspots now tz incidents = Ok out -> In p out ->
  supported incidents p.
Proof.
  intros Hrun HIn.
  destruct (predictFutureHotspots_inv _ _ _ Hrun HIn)
    as (k & g & Hg & H2 & _ & Hc & _ & _ & Hrel & _).
  unfold supported. rewrite Hc, Hrel. split.
  - destruct (Qmin_unit (8 # 10) (Qn (List.length g) / 5)) as [H0 H1];
      [discriminate|apply Qdiv_nonneg; [apply Qn_nonneg|discriminate]|].
    split; lra.
  - apply ids_of_members.
    + destruct g; [simpl in H2; lia|discriminate].
    + subst g. intros i Hi. apply members_incl in Hi.
      apply filter_In in Hi. tauto.
Qed.

End DetectorFacts.

(* ================================================================= *)
(** ** The orchestrator *)

Section RunFacts.

Variables (now tz : Z) (find : MongoFilter -> Res (list Incident)).

(** A run that returns either stopped for lack of data or ran all six
    detectors and ranked what they emitted. *)
Lemma run_returns_inv options trace result :
  runComprehensiveAnalysis now tz find options = (trace, Ok result) ->
  exists incidents,
    filteredSet now find options = Ok incidents
    /\ ((List.length incidents < 3)%nat
        /\ trace = [ConsoleLog "Starting comprehensive crime analysis..."]
        /\ result
           = mkAnalysisResult false
               (Some "Insufficient data for meaningful analysis"%string) []
               (mkRunStatistics (generateBasicStats incidents) None) None
        \/
        (3 <= List.length incidents)%nat
        /\ success result = true
        /\ exists emitted,
             emittedBy now tz incidents emitted
             /\ patterns result
                = sort_by byConfidenceThenSize
                    (filter (keeps (requestedMinConfidence options)) emitted)).
Proof.
  unfold runComprehensiveAnalysis, filteredSet, requestedTimeRange,
    requestedMinConfidence, keeps.
  set (timeRange := match optTimeRange options with Some t => t | None => _ end).
  set (types := match optCrimeTypes options with Some l => l | None => _ end).
  set (minC := match optMinConfidence options with Some c => c | None => _ end).
  unfold mbind at 1. unfold console_log. unfold mbind at 1. unfold lift.
  destruct (getFilteredIncidents now find (Some timeRange) (optLocation options) types)
    as [incidents|e]; [|discriminate].
  destruct (List.length incidents <? 3)%nat eqn:E3.
  - apply Nat.ltb_lt in E3. unfold mret. cbn [app].
    intros [= <- <-]. exists incidents. split; [reflexivity|]. left. auto.
  - apply Nat.ltb_ge in E3. unfold mbind, invoke.
    destruct (detectCrimeHotspots tz incidents) as [hs|e] eqn:E1; [|discriminate].
    destruct (analyzeTemporalPatterns tz incidents) as [tp|e] eqn:E2; [|discriminate].
    destruct (detectCrimeSeries tz incidents) as [cs|e] eqn:E4; [|discriminate].
    destruct (performGeographicClustering incidents) as [gc|e] eqn:E5; [|discriminate].
    destruct (predictFutureHotspots now tz incidents) as [ph|e] eqn:E6; [|discriminate].
    destruct (assessAreaRisk now tz incidents) as [ra|e] eqn:E7; [|discriminate].
    unfold console_log, mret. intros [= <- <-].
    exists incidents. split; [reflexivity|]. right.
    split; [assumption|]. split; [reflexivity|].
    exists (hs ++ tp ++ cs ++ gc ++ ph ++ ra). split; [|reflexivity].
    exists hs, tp, cs, gc, ph, ra. repeat split; assumption.
Qed.

Lemma emitted_supported incidents emitted p :
  emittedBy now tz incidents emitted -> In p emitted -> supported incidents p.
Proof.
  intros (hs & tp & cs & gc & ph & ra & H1 & H2 & H3 & H4 & H5 & H6 & ->) HIn.
  rewrite !in_app_iff in HIn.
  destruct HIn as [HIn|[HIn|[HIn|[HIn|[HIn|HIn]]]]].
  - exact (detectCrimeHotspots_supported tz _ _ _ H1 HIn).
  - exact (analyzeTemporalPatterns_supported tz _ _ _ H2 HIn).
  - exact (detectCrimeSeries_supported tz _ _ _ H3 HIn).
  - exact (performGeographicClustering_supported _ _ _ H4 HIn).
  - exact (predictFutureHotspots_supported now tz _ _ _ H5 HIn).
  - exact (assessAreaRisk_supported now tz _ _ _ H6 HIn).
Qed.

End RunFacts.

(* ================================================================= *)
(** ** Ranking *)

Lemma Qn_sub_le n m : (Qn n - Qn m <= 0)%Q <-> (n <= m)%nat.
Proof.
  unfold Qn. split; intro H.
  - assert (inject_Z (Z.of_nat n) <= inject_Z (Z.of_nat m))%Q as H' by lra.
    rewrite <- Zle_Qle in H'. lia.
  - assert (inject_Z (Z.of_nat n) <= inject_Z (Z.of_nat m))%Q as H'
      by (rewrite <- Zle_Qle; lia).
    lra.
Qed.

Lemma before_ranks a b :
  before byConfidenceThenSize a b <-> ranks_before a b.
Proof.
  unfold before, byConfidenceThenSize, ranks_before.
  destruct (Qeq_bool (confidence b) (confidence a)) eqn:E; cbn [negb].
  - apply Qeq_bool_iff in E. rewrite Qn_sub_le. split.
    + intro H. right. split; [now symmetry|assumption].
    + intros [H|[_ H]]; [lra|assumption].
  - apply Qeq_bool_neq in E. split.
    + intro H. left. lra.
    + intros [H|[H _]]; [lra|]. exfalso. apply E. now symmetry.
Qed.

Lemma ranks_total a b : ~ ranks_before a b -> ranks_before b a.
Proof.
  unfold ranks_before. intro H.
  destruct (Qlt_le_dec (confidence b) (confidence a)) as [Hlt|Hle];
    [exfalso; apply H; now left|].
  destruct (Qlt_le_dec (confidence a) (confidence b)) as [Hlt|Hge];
    [now left|].
  assert (confidence a == confidence b) as Heq by lra.
  right. split; [now symmetry|].
  destruct (Nat.le_gt_cases (List.length (relatedIncidents b))
              (List.length (relatedIncidents a))) as [Hl|Hl]; [|lia].
  exfalso. apply H. right. now split.
Qed.

Lemma ranks_trans a b c : ranks_before a b -> ranks_before b c -> ranks_before a c.
Proof.
  unfold ranks_before. intros [H1|[H1 L1]] [H2|[H2 L2]].
  - left. lra.
  - left. lra.
  - left. lra.
  - right. split; [lra|lia].
Qed.

Lemma tied_before z a b : tied z a = true -> tied z b = true ->
  before byConfidenceThenSize a b.
Proof.
  unfold tied. intros Ha Hb.
  apply andb_true_iff in Ha. destruct Ha as [Ha La].
  apply andb_true_iff in Hb. destruct Hb as [Hb Lb].
  apply Qeq_bool_iff in Ha. apply Qeq_bool_iff in Hb.
  apply Nat.eqb_eq in La. apply Nat.eqb_eq in Lb.
  apply before_ranks. right. split; [lra|lia].
Qed.

Lemma StronglySorted_impl {A} (R S : A -> A -> Prop) l :
  (forall a b, R a b -> S a b) -> StronglySorted R l -> StronglySorted S l.
Proof.
  intros HRS. induction 1 as [|x l Hl IH Hx]; constructor; [assumption|].
  eapply Forall_impl; [|exact Hx]. intros y. apply HRS.
Qed.

Lemma ranking_sorted l :
  StronglySorted ranks_before (sort_by byConfidenceThenSize l).
Proof.
  apply (StronglySorted_impl (before byConfidenceThenSize)).
  - intros a b. apply before_ranks.
  - apply sort_by_sorted.
    + intros a b H. apply before_ranks, ranks_total. intro H'.
      apply H. now apply before_ranks.
    + intros a b c H1 H2. apply before_ranks.
      apply (ranks_trans a b c); now apply before_ranks.
Qed.

Lemma ranking_stable z l :
  filter (tied z) (sort_by byConfidenceThenSize l) = filter (tied z) l.
Proof. apply sort_by_stable. apply tied_before. Qed.

(* ================================================================= *)
(** ** The properties of the specification *)

(** C1.  In every successful run, each returned pattern has a confidence
    in [0,1] that is at least the requested minimum confidence, and a
    non-empty list of related incidents, all of them identifiers of
    incidents of the run's filtered set. *)
Theorem C1_patterns_bounded_and_supported
    now tz find options trace result incidents :
  runComprehensiveAnalysis now tz find options = (trace, Ok result) ->
  success result = true ->
  filteredSet now find options = Ok incidents ->
  forall p, In p (patterns result) ->
    (0 <= confidence p <= 1)%Q
    /\ (requestedMinConfidence options <= confidence p)%Q
    /\ relatedIncidents p <> []
    /\ forall id, In id (relatedIncidents p) ->
         exists inc, In inc incidents /\ _id inc = id.
Proof.
  intros Hrun Hsucc Hset p HIn.
  destruct (run_returns_inv _ _ _ _ _ _ Hrun) as (incidents' & Hset' & Hcase).
  assert (incidents' = incidents) as -> by congruence.
  destruct Hcase as [(_ & _ & ->)|(_ & _ & emitted & Hem & Hpat)];
    [discriminate|].
  rewrite Hpat in HIn. apply sort_by_in, filter_In in HIn.
  destruct HIn as [HIn Hkeep]. apply Qle_bool_iff in Hkeep.
  destruct (emitted_supported _ _ _ _ _ Hem HIn) as (Hc & Hne & Hids).
  auto.
Qed.

Lemma C1_witness :
  let p := hd (mkPattern hotspot None EmptyString 0 EmptyString None
                 (ClusterStats 0%nat 0 0 []) NoTimePattern [] [] RiskLow)
              (patterns (result_of sample_incidents)) in
  (0 <= confidence p <= 1)%Q
  /\ (requestedMinConfidence default_options <= confidence p)%Q
  /\ relatedIncidents p <> []
  /\ forall id, In id (relatedIncidents p) ->
       exists inc, In inc sample_incidents /\ _id inc = id.
Proof.
  apply (C1_patterns_bounded_and_supported sample_now 0%Z
           (sample_store sample_incidents) default_options
           (fst (run_of sample_incidents)) (result_of sample_incidents)
           sample_incidents).
  - vm_compute. reflexivity.
  - vm_compute. reflexivity.
  - reflexivity.
  - vm_compute. left. reflexivity.
Defined.

(** C2.  A successful run concatenates what the six detectors emit on the
    filtered set, drops exactly the patterns whose confidence is strictly
    below the requested minimum, and returns the rest ordered by
    confidence descending, then by number of related incidents descending;
    patterns tied on both keys keep their emission order. *)
Theorem C2_ranked_by_confidence_then_size
    now tz find options trace result incidents :
  runComprehensiveAnalysis now tz find options = (trace, Ok result) ->
  success result = true ->
  filteredSet now find options = Ok incidents ->
  exists emitted,
    emittedBy now tz incidents emitted
    /\ (forall p, In p (patterns result) <->
          In p emitted /\ ~ (confidence p < requestedMinConfidence options)%Q)
    /\ Permutation (patterns result)
         (filter (keeps (requestedMinConfidence options)) emitted)
    /\ StronglySorted ranks_before (patterns result)
    /\ forall z,
         filter (tied z) (patterns result)
         = filter (tied z)
             (filter (keeps (requestedMinConfidence options)) emitted).
Proof.
  intros Hrun Hsucc Hset.
  destruct (run_returns_inv _ _ _ _ _ _ Hrun) as (incidents' & Hset' & Hcase).
  assert (incidents' = incidents) as -> by congruence.
  destruct Hcase as [(_ & _ & ->)|(_ & _ & emitted & Hem & Hpat)];
    [discriminate|].
  exists emitted. rewrite Hpat. split; [exact Hem|]. split; [|split; [|split]].
  - intro p. rewrite sort_by_in, filter_In. unfold keeps.
    rewrite Qle_bool_iff. split; intros [H1 H2]; split; auto.
    + now apply Qle_not_lt.
    + now apply Qnot_lt_le.
  - apply sort_by_perm.
  - apply ranking_sorted.
  - intro z. apply ranking_stable.
Qed.

Lemma C2_witness :
  exists emitted,
    emittedBy sample_now 0%Z sample_incidents emitted
    /\ (forall p, In p (patterns (result_of sample_incidents)) <->
          In p emitted
          /\ ~ (confidence p < requestedMinConfidence default_options)%Q)
    /\ Permutation (patterns (result_of sample_incidents))
         (filter (keeps (requestedMinConfidence default_options)) emitted)
    /\ StronglySorted ranks_before (patterns (result_of sample_incidents))
    /\ forall z,
         filter (tied z) (patterns (result_of sample_incidents))
         = filter (tied z)
             (filter (keeps (requestedMinConfidence default_options)) emitted).
Proof.
  apply (C2_ranked_by_confidence_then_size sample_now 0%Z
           (sample_store sample_incidents) default_options
           (fst (run_of sample_incidents)) (result_of sample_incidents)
           sample_incidents).
  - vm_compute. reflexivity.
  - vm_compute. reflexivity.
  - reflexivity.
Defined.

(** C3.  When the filtered set has fewer than three incidents the run
    returns at once: no detector is invoked, the result carries
    [success = false], no pattern, and the basic statistics alone, whose
    [totalIncidents] is the size of the filtered set. *)
Theorem C3_insufficient_data now tz find options incidents :
  filteredSet now find options = Ok incidents ->
  (List.length incidents < 3)%nat ->
  exists trace result,
    runComprehensiveAnalysis now tz find options = (trace, Ok result)
    /\ (forall d, ~ In (Invoked d) trace)
    /\ success result = false
    /\ patterns result = []
    /\ runStatistics result = mkRunStatistics (generateBasicStats incidents) None
    /\ totalIncidents (basic (runStatistics result)) = List.length incidents.
Proof.
  intros Hset Hlen. unfold filteredSet, requestedTimeRange in Hset.
  unfold runComprehensiveAnalysis.
  unfold mbind at 1. unfold console_log. unfold mbind at 1. unfold lift.
  rewrite Hset. apply Nat.ltb_lt in Hlen. rewrite Hlen. unfold mret.
  eexists. eexists. split; [reflexivity|]. cbn. repeat split.
  intros d [H|[]]. discriminate.
Qed.

Lemma C3_witness :
  exists trace result,
    runComprehensiveAnalysis sample_now 0%Z (sample_store two_incidents)
      default_options = (trace, Ok result)
    /\ (forall d, ~ In (Invoked d) trace)
    /\ success result = false
    /\ patterns result = []
    /\ runStatistics result
       = mkRunStatistics (generateBasicStats two_incidents) None
    /\ totalIncidents (basic (runStatistics result)) = 2%nat.
Proof.
  apply (C3_insufficient_data sample_now 0%Z (sample_store two_incidents)
           default_options two_incidents).
  - reflexivity.
  - simpl. lia.
Defined.

(** *** The hotspot confidence *)

(** *** The order of [sort()] on time values *)

Lemma udigits_small u : Forall (fun d => (d < 10)%N) (udigits u).
Proof. induction u; simpl; constructor; try assumption; lia. Qed.

Lemma of_uint_acc_value u : forall p,
  Npos (Pos.of_uint_acc u p) = digits_value (udigits u) (Npos p).
Proof.
  induction u; intro p; cbn [Pos.of_uint_acc udigits digits_value];
    try reflexivity; rewrite IHu; f_equal; lia.
Qed.

Lemma of_uint_value u : N.of_uint u = digits_value (udigits u) 0.
Proof.
  unfold N.of_uint.
  induction u; cbn [Pos.of_uint udigits digits_value];
    try reflexivity; try assumption; rewrite of_uint_acc_value; reflexivity.
Qed.

Lemma string_compare_digits u v :
  String.compare (NilEmpty.string_of_uint u) (NilEmpty.string_of_uint v)
  = digits_compare (udigits u) (udigits v).
Proof.
  revert v. induction u; destruct v; simpl; try reflexivity; apply IHu.
Qed.

Lemma string_length_digits u :
  String.length (NilEmpty.string_of_uint u) = List.length (udigits u).
Proof. induction u; simpl; congruence. Qed.

Lemma digits_value_compare xs : forall ys a b,
  List.length xs = List.length ys ->
  Forall (fun d => (d < 10)%N) xs -> Forall (fun d => (d < 10)%N) ys ->
  N.compare (digits_value xs a) (digits_value ys b)
  = match N.compare a b with
    | Eq => digits_compare xs ys
    | c => c
    end.
Proof.
  induction xs as [|x xs IH]; intros [|y ys] a b Hlen Hx Hy;
    try discriminate; cbn [digits_value digits_compare].
  - now destruct (N.compare a b).
  - inversion Hx; inversion Hy; subst. injection Hlen as Hlen.
    rewrite (IH ys) by assumption.
    destruct (N.compare_spec a b) as [->|Hab|Hab].
    + destruct (N.compare_spec x y) as [->|Hxy|Hxy].
      * now rewrite N.compare_refl.
      * assert (10 * b + x < 10 * b + y)%N as H by lia.
        apply N.compare_lt_iff in H. now rewrite H.
      * assert (10 * b + y < 10 * b + x)%N as H by lia.
        apply N.compare_gt_iff in H. now rewrite H.
    + assert (10 * a + x < 10 * b + y)%N as H by lia.
      apply N.compare_lt_iff in H. now rewrite H.
    + assert (10 * b + y < 10 * a + x)%N as H by lia.
      apply N.compare_gt_iff in H. now rewrite H.
Qed.

Lemma string_of_Z_digits x :
  (0 <= x)%Z ->
  string_of_Z x = NilEmpty.string_of_uint (N.to_uint (Z.to_N x))
  /\ N.of_uint (N.to_uint (Z.to_N x)) = Z.to_N x.
Proof.
  intro Hx. split; [|apply DecimalN.Unsigned.of_to].
  unfold string_of_Z. destruct x as [|p|p]; [reflexivity| |lia].
  simpl. unfold NilZero.string_of_uint.
  pose proof (DecimalPos.Unsigned.to_uint_nonnil p) as H.
  now destruct (Pos.to_uint p).
Qed.

Lemma default_order_of_equal_widths x y :
  (0 <= x)%Z -> (0 <= y)%Z ->
  String.length (string_of_Z x) = String.length (string_of_Z y) ->
  String.compare (string_of_Z x) (string_of_Z y) = Z.compare x y.
Proof.
  intros Hx Hy Hlen.
  destruct (string_of_Z_digits x Hx) as [Sx Vx].
  destruct (string_of_Z_digits y Hy) as [Sy Vy].
  rewrite Sx, Sy in *. rewrite !string_length_digits in Hlen.
  rewrite string_compare_digits.
  pose proof (digits_value_compare _ _ 0%N 0%N Hlen
                (udigits_small _) (udigits_small _)) as H.
  simpl in H. rewrite <- H, <- !of_uint_value, Vx, Vy.
  rewrite <- Z2N.inj_compare by assumption. reflexivity.
Qed.

Lemma before_default_cmp x y :
  (0 <= x)%Z -> (0 <= y)%Z ->
  String.length (string_of_Z x) = String.length (string_of_Z y) ->
  before default_cmp x y <-> (x <= y)%Z.
Proof.
  intros Hx Hy Hlen. unfold before, default_cmp.
  rewrite (default_order_of_equal_widths x y Hx Hy Hlen).
  destruct (Z.compare_spec x y) as [->|H|H]; split; intro H';
    try lia; try discriminate; try (exfalso; apply H'; reflexivity).
Qed.

Section SortedOn.

Context {A : Type} (cmp : A -> A -> Q) (P : A -> Prop) (R : A -> A -> Prop).
Hypothesis agree : forall a b, P a -> P b -> (before cmp a b <-> R a b).
Hypothesis R_total : forall a b, R a b \/ R b a.
Hypothesis R_trans : forall a b c, R a b -> R b c -> R a c.

Lemma insert_by_sorted_on x l :
  P x -> Forall P l -> StronglySorted R l ->
  StronglySorted R (insert_by cmp x l).
Proof.
  intros Px HP HS. induction HS as [|y l Hl IH Hy]; simpl.
  - constructor; constructor.
  - inversion HP as [|? ? Py HPl]; subst.
    destruct (Qle_bool (cmp x y) 0) eqn:E.
    + apply Qle_bool_iff in E. apply (agree x y Px Py) in E.
      constructor; [now constructor|].
      constructor; [exact E|].
      eapply Forall_impl; [|exact Hy]. intros z Hz. now apply (R_trans x y z).
    + assert (R y x) as Hyx.
      { destruct (R_total x y) as [H|H]; [|exact H].
        apply (agree x y Px Py), Qle_bool_iff in H. congruence. }
      constructor; [now apply IH|].
      apply Forall_forall. intros z Hz.
      apply (Permutation_in _ (insert_by_perm cmp x l)) in Hz.
      destruct Hz as [<-|Hz]; [exact Hyx|].
      rewrite Forall_forall in Hy. now apply Hy.
Qed.

Lemma sort_by_sorted_on l :
  Forall P l -> StronglySorted R (sort_by cmp l).
Proof.
  induction 1 as [|x l Px HP IH]; simpl; [constructor|].
  apply insert_by_sorted_on; [assumption| |exact IH].
  apply Forall_forall. intros z Hz. apply sort_by_in in Hz.
  rewrite Forall_forall in HP. now apply HP.
Qed.

End SortedOn.

Lemma sorted_ends (l : list Z) :
  StronglySorted Z.le l -> l <> [] ->
  In (hd 0%Z l) l /\ In (last l 0%Z) l
  /\ forall x, In x l -> (hd 0 l <= x <= last l 0)%Z.
Proof.
  induction 1 as [|y l Hl IH Hy]; intro Hne; [congruence|].
  destruct l as [|z l].
  - simpl. repeat split; auto; destruct H as [<-|[]]; lia.
  - destruct IH as (Hh & Hlast & Hb); [discriminate|].
    change (last (y :: z :: l) 0%Z) with (last (z :: l) 0%Z).
    change (hd 0%Z (y :: z :: l)) with y.
    split; [now left|]. split; [now right|].
    intros x [<-|Hx].
    + split; [lia|]. rewrite Forall_forall in Hy. now apply Hy.
    + rewrite Forall_forall in Hy. specialize (Hy x Hx).
      specialize (Hb x Hx). lia.
Qed.

Lemma fold_min_spec (l : list Z) d :
  In d l ->
  In (fold_right Z.min d l) l /\ forall x, In x l -> (fold_right Z.min d l <= x)%Z.
Proof.
  intro Hd.
  assert (In (fold_right Z.min d l) (d :: l)
          /\ forall x, In x l -> (fold_right Z.min d l <= x)%Z) as [H1 H2].
  { clear Hd. induction l as [|y l [IH1 IH2]]; simpl.
    - split; [now left|intros x []].
    - split.
      + destruct (Z.min_spec y (fold_right Z.min d l)) as [[_ ->]|[_ ->]].
        * right. now left.
        * destruct IH1 as [<-|H]; [now left|right; now right].
      + intros x [<-|Hx]; [lia|]. specialize (IH2 x Hx). lia. }
  split; [|exact H2]. destruct H1 as [<-|H]; assumption.
Qed.

Lemma fold_max_spec (l : list Z) d :
  In d l ->
  In (fold_right Z.max d l) l /\ forall x, In x l -> (x <= fold_right Z.max d l)%Z.
Proof.
  intro Hd.
  assert (In (fold_right Z.max d l) (d :: l)
          /\ forall x, In x l -> (x <= fold_right Z.max d l)%Z) as [H1 H2].
  { clear Hd. induction l as [|y l [IH1 IH2]]; simpl.
    - split; [now left|intros x []].
    - split.
      + destruct (Z.max_spec y (fold_right Z.max d l)) as [[_ ->]|[_ ->]].
        * destruct IH1 as [<-|H]; [now left|right; now right].
        * right. now left.
      + intros x [<-|Hx]; [lia|]. specialize (IH2 x Hx). lia. }
  split; [|exact H2]. destruct H1 as [<-|H]; assumption.
Qed.

Lemma sort_default_numeric w (l : list Z) :
  Forall (has_width w) l -> StronglySorted Z.le (sort_default l).
Proof.
  apply (sort_by_sorted_on default_cmp (has_width w) Z.le).
  - intros a b [Ha Wa] [Hb Wb]. apply before_default_cmp; congruence.
  - intros a b. lia.
  - intros a b c. lia.
Qed.

Lemma calculateTimeSpread_as_specified w g :
  Forall (fun i => has_width w (dateTime i)) g ->
  calculateTimeSpread g = spec_time_spread g.
Proof.
  intro Hw. unfold calculateTimeSpread, spec_time_spread, earliest, latest.
  destruct g as [|i [|j g]]; [reflexivity|simpl; lia|].
  cbn [List.length Nat.ltb Nat.leb].
  set (ts := map dateTime (i :: j :: g)) in *.
  assert (Forall (has_width w) ts) as Hts
    by (unfold ts; rewrite Forall_map; exact Hw).
  pose proof (sort_default_numeric w ts Hts) as HS.
  assert (ts <> []) as Hne by discriminate.
  assert (sort_default ts <> []) as Hne'.
  { intro H. apply Hne. apply Permutation_nil. rewrite <- H.
    apply sort_by_perm. }
  destruct (sorted_ends _ HS Hne') as (Hh & Hl & Hb).
  assert (In (hd 0%Z ts) ts) as Hd by (now left).
  destruct (fold_min_spec ts (hd 0%Z ts) Hd) as [Hmin1 Hmin2].
  destruct (fold_max_spec ts (hd 0%Z ts) Hd) as [Hmax1 Hmax2].
  unfold sort_default in *.
  pose proof (fun x => proj1 (sort_by_in default_cmp ts x)) as Hin.
  pose proof (fun x => proj2 (sort_by_in default_cmp ts x)) as Hin'.
  specialize (Hmin2 _ (Hin _ Hh)). specialize (Hmax2 _ (Hin _ Hl)).
  pose proof (Hb _ (Hin' _ Hmin1)). pose proof (Hb _ (Hin' _ Hmax1)).
  lia.
Qed.

Lemma spec_time_spread_nonneg g : (0 <= spec_time_spread g)%Z.
Proof.
  unfold spec_time_spread, earliest, latest. destruct g as [|i g]; [simpl; lia|].
  set (ts := map dateTime (i :: g)).
  assert (In (hd 0%Z ts) ts) as Hd by (now left).
  destruct (fold_min_spec ts (hd 0%Z ts) Hd) as [_ Hmin].
  destruct (fold_max_spec ts (hd 0%Z ts) Hd) as [_ Hmax].
  specialize (Hmin _ Hd). specialize (Hmax _ Hd). lia.
Qed.

(** Where every time value of the group has a decimal form of the same
    length (as all dates from 9 September 2001 to 20 November 2286 have),
    the detector's confidence is the specified one. *)
Lemma hotspot_confidence_as_specified w g :
  Forall (fun i => has_width w (dateTime i)) g ->
  calculateTimeSpread g = spec_time_spread g
  /\ calculateCrimeDensity g = spec_density g
  /\ calculateHotspotConfidence
       (mkFactors (List.length g) (calculateCrimeDensity g)
          (calculateAverageSeverity g) (calculateTimeSpread g))
     == spec_hotspot_confidence g.
Proof.
  intro Hw. pose proof (calculateTimeSpread_as_specified w g Hw) as Hspread.
  assert (calculateCrimeDensity g = spec_density g) as Hdensity.
  { unfold calculateCrimeDensity, spec_density.
    change (calculateTimeSpan g) with (calculateTimeSpread g).
    now rewrite Hspread. }
  split; [exact Hspread|]. split; [exact Hdensity|].
  unfold calculateHotspotConfidence, spec_hotspot_confidence.
  cbn [factorCount factorDensity factorSeverity factorTimeSpread].
  rewrite Hdensity, Hspread.
  change (30 * 24 * 60 * 60 * 1000)%Z with (30 * msPerDay)%Z.
  pose proof (spec_time_spread_nonneg g) as Hpos.
  destruct (0 <? spec_time_spread g)%Z eqn:E.
  - ring.
  - apply Z.ltb_ge in E. assert (spec_time_spread g = 0%Z) as -> by lia.
    assert (Qmin 1 (inject_Z 0 / inject_Z (30 * msPerDay)) == 0) as ->
      by reflexivity.
    ring.
Qed.

(** The hotspot detector emits for a location group exactly when the group
    has three incidents or more and the confidence computed from its
    count, density, average severity and time spread is at least 0.4; the
    pattern carries that confidence. *)
Lemma hotspot_emitted_iff tz k g :
  g <> [] ->
  ((3 <= List.length g)%nat
   /\ ((4 # 10)
       <= calculateHotspotConfidence
            (mkFactors (List.length g) (calculateCrimeDensity g)
               (calculateAverageSeverity g) (calculateTimeSpread g)))%Q ->
   exists p,
     hotspotOf tz (k, g) = Ok [p]
     /\ ptype p = hotspot
     /\ confidence p
        = calculateHotspotConfidence
            (mkFactors (List.length g) (calculateCrimeDensity g)
               (calculateAverageSeverity g) (calculateTimeSpread g)))
  /\ (~ ((3 <= List.length g)%nat
         /\ ((4 # 10)
             <= calculateHotspotConfidence
                  (mkFactors (List.length g) (calculateCrimeDensity g)
                     (calculateAverageSeverity g) (calculateTimeSpread g)))%Q) ->
      hotspotOf tz (k, g) = Ok []).
Proof.
  intro Hne. unfold hotspotOf. cbn [fst snd]. split.
  - intros [H3 Hc]. apply Nat.leb_le in H3. apply Qle_bool_iff in Hc.
    rewrite H3, Hc.
    destruct (classifyHotspotType_returns g Hne) as [d ->].
    destruct (analyzeLocationTimePattern_returns tz g Hne) as [w ->].
    cbn [rbind]. eexists. split; [reflexivity|]. cbn. auto.
  - intro Hno. destruct (3 <=? List.length g)%nat eqn:E3; [|reflexivity].
    destruct (Qle_bool (4 # 10) _) eqn:Ec; [|reflexivity].
    exfalso. apply Hno. split; [now apply Nat.leb_le|now apply Qle_bool_iff].
Qed.

(** On such groups the detector emits a hotspot exactly when the specified
    confidence is at least 0.4, and the hotspot carries it. *)
Lemma hotspot_as_specified_on_equal_widths tz w k g :
  g <> [] ->
  Forall (fun i => has_width w (dateTime i)) g ->
  ((3 <= List.length g)%nat /\ ((4 # 10) <= spec_hotspot_confidence g)%Q ->
   exists p,
     hotspotOf tz (k, g) = Ok [p]
     /\ ptype p = hotspot
     /\ confidence p == spec_hotspot_confidence g)
  /\ (~ ((3 <= List.length g)%nat /\ ((4 # 10) <= spec_hotspot_confidence g)%Q) ->
      hotspotOf tz (k, g) = Ok []).
Proof.
  intros Hne Hw.
  destruct (hotspot_confidence_as_specified w g Hw) as (_ & _ & Hc).
  destruct (hotspot_emitted_iff tz k g Hne) as [Hyes Hno]. split.
  - intros [H3 H4].
    destruct Hyes as (p & Hrun & Hty & Hconf); [split; [exact H3|now rewrite Hc]|].
    exists p. split; [exact Hrun|]. split; [exact Hty|]. now rewrite Hconf.
  - intro H. apply Hno. intros [H3 H4]. apply H. split; [exact H3|].
    now rewrite <- Hc.
Qed.

(** C4, where the code departs from it.  The time span of a group is read
    off an array ordered by [sort()] with no comparator, which compares
    the decimal forms of the time values as strings.  With the misdated
    incident the first and last elements are not the earliest and the
    latest time: the span is negative, the density is the bare count and
    the time score 0, so the detector emits a hotspot of confidence 0.57
    where the formula over the earliest and latest incident gives less
    than 0.4 and no hotspot. *)
Theorem C4_time_span_read_off_string_order :
  sort_default (map dateTime misdated_incidents)
  = [ 13569465600000; 1793498400000; 1793502000000 ]%Z
  /\ calculateTimeSpread misdated_incidents = (- 11775963600000)%Z
  /\ spec_time_spread misdated_incidents = 11775967200000%Z
  /\ calculateCrimeDensity misdated_incidents == 3
  /\ (exists p,
        detectCrimeHotspots 0%Z misdated_incidents = Ok [p]
        /\ confidence p == (57 # 100)
        /\ In p (patterns (result_of misdated_incidents)))
  /\ (spec_hotspot_confidence misdated_incidents < (4 # 10))%Q.
Proof.
  split; [vm_compute; reflexivity|]. split; [vm_compute; reflexivity|].
  split; [vm_compute; reflexivity|]. split; [vm_compute; reflexivity|].
  split.
  - eexists. split; [vm_compute; reflexivity|].
    split; [vm_compute; reflexivity|].
    vm_compute. auto 10.
  - vm_compute. reflexivity.
Qed.

(** Each hotspot and each risk rating comes from one location group. *)
Lemma detectCrimeHotspots_inv tz incidents out p :
  detectCrimeHotspots tz incidents = Ok out -> In p out ->
  exists k g here,
    g = members (key_of locationKey) k incidents /\ g <> []
    /\ hotspotOf tz (k, g) = Ok here /\ In p here.
Proof.
  unfold detectCrimeHotspots.
  destruct (groupByLocation incidents) as [groups|e] eqn:Eg; cbn [rbind];
    [|discriminate].
  intros Hrun HIn.
  destruct (for_push_in _ _ _ _ Hrun HIn) as ([k g] & here & Hentry & Hb & Hp).
  apply groupByLocation_grouped in Eg.
  destruct (grouped_entry _ _ _ _ _ Eg Hentry) as [Hg Hne].
  exists k, g, here. subst g. auto.
Qed.

Lemma assessAreaRisk_inv now tz incidents out p :
  assessAreaRisk now tz incidents = Ok out -> In p out ->
  exists k g here,
    g = members (key_of locationKey) k incidents /\ g <> []
    /\ riskOf now tz (k, g) = Ok here /\ In p here.
Proof.
  unfold assessAreaRisk.
  destruct (groupByLocation incidents) as [groups|e] eqn:Eg; cbn [rbind];
    [|discriminate].
  intros Hrun HIn.
  destruct (for_push_in _ _ _ _ Hrun HIn) as ([k g] & here & Hentry & Hb & Hp).
  apply groupByLocation_grouped in Eg.
  destruct (grouped_entry _ _ _ _ _ Eg Hentry) as [Hg Hne].
  exists k, g, here. subst g. auto.
Qed.

Lemma detectCrimeSeries_inv tz incidents out p :
  detectCrimeSeries tz incidents = Ok out -> In p out ->
  exists k g here, seriesOf tz (k, g) = Ok here /\ In p here.
Proof.
  unfold detectCrimeSeries.
  destruct (groupByCrimeType incidents) as [groups|e]; cbn [rbind];
    [|discriminate].
  intros Hrun HIn.
  destruct (for_push_in _ _ _ _ Hrun HIn) as ([k g] & here & _ & Hb & Hp).
  now exists k, g, here.
Qed.

Lemma categorizeRiskLevel_spec score :
  (categorizeRiskLevel score = RiskHigh <-> (7 # 10) <= score)%Q
  /\ (categorizeRiskLevel score = RiskMedium <->
      (5 # 10) <= score /\ score < (7 # 10))%Q
  /\ (categorizeRiskLevel score = RiskLow <-> score < (5 # 10))%Q.
Proof.
  unfold categorizeRiskLevel.
  destruct (Qle_bool (7 # 10) score) eqn:E7;
    [apply Qle_bool_iff in E7|
     assert (score < (7 # 10))%Q as H7
       by (apply Qnot_le_lt; intro H; apply Qle_bool_iff in H; congruence)];
  (destruct (Qle_bool (5 # 10) score) eqn:E5;
    [apply Qle_bool_iff in E5|
     assert (score < (5 # 10))%Q as H5
       by (apply Qnot_le_lt; intro H; apply Qle_bool_iff in H; congruence)]);
  repeat split; intros; try discriminate; try assumption; try lra;
    try (exfalso; lra).
Qed.

Lemma temporalRisk_spec c :
  (temporalRisk c = RiskHigh <-> (7 # 10) < c)%Q
  /\ (temporalRisk c = RiskMedium <-> (5 # 10) < c /\ c <= (7 # 10))%Q
  /\ (temporalRisk c = RiskLow <-> c <= (5 # 10))%Q.
Proof.
  unfold temporalRisk.
  destruct (Qle_bool c (7 # 10)) eqn:E7;
    [apply Qle_bool_iff in E7|
     assert ((7 # 10) < c)%Q as H7
       by (apply Qnot_le_lt; intro H; apply Qle_bool_iff in H; congruence)];
  (destruct (Qle_bool c (5 # 10)) eqn:E5;
    [apply Qle_bool_iff in E5|
     assert ((5 # 10) < c)%Q as H5
       by (apply Qnot_le_lt; intro H; apply Qle_bool_iff in H; congruence)]);
  cbn [negb]; repeat split; intros; try discriminate; try assumption; try lra;
    try (exfalso; lra).
Qed.

(** C5, as the specification states it, fails: the seasonal analysis rates a
    pattern of confidence 0.8 as medium where the shared thresholds give
    high, and the hourly analysis rates a pattern of confidence 0.5 as low
    where they give medium. *)
Lemma C5_temporal_thresholds_differ :
  (exists out p,
     detectSeasonalPatterns 0%Z sample_incidents = Ok out /\ In p out
     /\ confidence p == (8 # 10)
     /\ riskLevel p = RiskMedium
     /\ categorizeRiskLevel (confidence p) = RiskHigh)
  /\ (exists p,
        In p (detectHourlyPatterns 0%Z sparse_incidents)
        /\ confidence p == (5 # 10)
        /\ riskLevel p = RiskLow
        /\ categorizeRiskLevel (confidence p) = RiskMedium).
Proof.
  split.
  - eexists. eexists. split; [vm_compute; reflexivity|].
    split; [left; reflexivity|]. vm_compute. auto.
  - eexists. split; [vm_compute; left; reflexivity|]. vm_compute. auto.
Qed.

(** C5, amended.  Hotspot, series, cluster, predictive and risk-assessment
    patterns take their risk level from [categorizeRiskLevel] (high from
    0.7, medium from 0.5, low below), applied to the detector's risk score;
    hourly and daily patterns are high above 0.7, medium above 0.5 and low
    otherwise (strict comparisons on the confidence); a seasonal pattern is
    medium above 0.6 and low otherwise. *)
Theorem C5_risk_levels_by_detector now tz incidents :
  (forall score,
     (categorizeRiskLevel score = RiskHigh <-> (7 # 10) <= score)%Q
     /\ (categorizeRiskLevel score = RiskMedium <->
         (5 # 10) <= score /\ score < (7 # 10))%Q
     /\ (categorizeRiskLevel score = RiskLow <-> score < (5 # 10))%Q)
  /\ (forall out p,
        detectCrimeHotspots tz incidents = Ok out -> In p out ->
        exists n density severity spread types,
          statistics p = HotspotStats n density severity spread types
          /\ riskLevel p
             = categorizeRiskLevel
                 (confidence p * (4 # 10) + severity / 4 * (4 # 10)
                  + Qmin 1 (Qn n / 10) * (2 # 10)))
  /\ (forall out p,
        detectCrimeSeries tz incidents = Ok out -> In p out ->
        riskLevel p = categorizeRiskLevel (confidence p))
  /\ (forall out p,
        performGeographicClustering incidents = Ok out -> In p out ->
        riskLevel p = categorizeRiskLevel (confidence p))
  /\ (forall out p,
        predictFutureHotspots now tz incidents = Ok out -> In p out ->
        exists trendConfidence,
          confidence p = (trendConfidence * (8 # 10))%Q
          /\ riskLevel p = categorizeRiskLevel trendConfidence)
  /\ (forall out p,
        assessAreaRisk now tz incidents = Ok out -> In p out ->
        exists score level n severities recent,
          statistics p = RiskStats score level n severities recent
          /\ riskLevel p = categorizeRiskLevel score)
  /\ (forall p,
        In p (detectHourlyPatterns tz incidents)
        \/ In p (detectDailyPatterns tz incidents) ->
        (riskLevel p = RiskHigh <-> (7 # 10) < confidence p)%Q
        /\ (riskLevel p = RiskMedium <->
            (5 # 10) < confidence p /\ confidence p <= (7 # 10))%Q
        /\ (riskLevel p = RiskLow <-> confidence p <= (5 # 10))%Q)
  /\ (forall out p,
        detectSeasonalPatterns tz incidents = Ok out -> In p out ->
        riskLevel p
        = if negb (Qle_bool (confidence p) (6 # 10)) then RiskMedium
          else RiskLow).
Proof.
  split; [apply categorizeRiskLevel_spec|].
  split; [|split; [|split; [|split; [|split; [|split]]]]].
  - intros out p Hrun HIn.
    destruct (detectCrimeHotspots_inv _ _ _ _ Hrun HIn)
      as (k & g & here & _ & _ & Hb & Hp).
    destruct (hotspotOf_inv _ _ _ _ _ Hb Hp)
      as (_ & _ & _ & _ & _ & _ & Hstat & _ & Hrisk).
    do 5 eexists. split; [exact Hstat|]. exact Hrisk.
  - intros out p Hrun HIn.
    destruct (detectCrimeSeries_inv _ _ _ _ Hrun HIn) as (k & g & here & Hb & Hp).
    now destruct (seriesOf_inv _ _ _ _ _ Hb Hp) as (_ & _ & _ & _ & _ & _ & Hrisk).
  - intros out p Hrun HIn.
    now destruct (performGeographicClustering_inv _ _ _ Hrun HIn)
      as (_ & _ & _ & _ & Hrisk).
  - intros out p Hrun HIn.
    destruct (predictFutureHotspots_inv _ _ _ _ _ Hrun HIn)
      as (k & g & _ & _ & _ & Hc & _ & _ & _ & Hrisk).
    eexists. split; [exact Hc|exact Hrisk].
  - intros out p Hrun HIn.
    destruct (assessAreaRisk_inv _ _ _ _ _ Hrun HIn)
      as (k & g & here & _ & _ & Hb & Hp).
    destruct (riskOf_inv _ _ _ _ _ _ Hb Hp)
      as (_ & _ & _ & _ & (n & sd & ra & Hstat) & _ & Hrisk).
    do 5 eexists. split; [exact Hstat|exact Hrisk].
  - intros p [HIn|HIn].
    + unfold detectHourlyPatterns in HIn. apply in_flat_map in HIn.
      destruct HIn as ([k c] & _ & HIn).
      destruct (hourlyOf_inv _ _ _ _ _ HIn) as (_ & _ & _ & _ & _ & _ & ->).
      apply temporalRisk_spec.
    + unfold detectDailyPatterns in HIn. apply in_flat_map in HIn.
      destruct HIn as ([k c] & _ & HIn).
      destruct (dailyOf_inv _ _ _ _ _ HIn) as (_ & _ & _ & _ & _ & ->).
      apply temporalRisk_spec.
  - intros out p Hrun HIn.
    now destruct (detectSeasonalPatterns_inv _ _ _ _ Hrun HIn)
      as (k & c & _ & _ & _ & _ & _ & _ & Hrisk).
Qed.

Lemma C5_witness :
  exists out p,
    detectSeasonalPatterns 0%Z sample_incidents = Ok out /\ In p out
    /\ riskLevel p
       = if negb (Qle_bool (confidence p) (6 # 10)) then RiskMedium
         else RiskLow.
Proof.
  assert (exists out, detectSeasonalPatterns 0%Z sample_incidents = Ok out
                      /\ exists p, In p out) as (out & Hrun & p & HIn).
  { eexists. split; [vm_compute; reflexivity|]. eexists. left. reflexivity. }
  exists out, p. split; [exact Hrun|]. split; [exact HIn|].
  exact (proj2 (proj2 (proj2 (proj2 (proj2 (proj2 (proj2
           (C5_risk_levels_by_detector sample_now 0%Z sample_incidents)))))))
           out p Hrun HIn).
Defined.

(** C6, as the specification states it, fails: an incident without a
    location is not left out of the grouping; the grouping throws, and the
    run aborts with that exception in its first detector. *)
Lemma C6_missing_location_throws :
  exists what,
    groupByLocation unlocated_incidents = Throw (TypeError what)
    /\ run_of unlocated_incidents
       = ([ ConsoleLog "Starting comprehensive crime analysis...";
            Invoked DetectCrimeHotspots ], Throw (TypeError what)).
Proof. eexists. split; vm_compute; reflexivity. Qed.

Lemma locationKey_throws i :
  location i = None -> exists e, locationKey i = Throw e.
Proof. intro H. unfold locationKey. rewrite H. eauto. Qed.

Lemma groupByLocation_throws_TypeError l : forall groups e,
  group_into locationKey l groups = Throw e -> exists what, e = TypeError what.
Proof.
  induction l as [|i l IH]; intros groups e H; simpl in H; [discriminate|].
  unfold locationKey at 1 in H.
  destruct (location i); cbn [rbind] in H; [|injection H as <-; eauto].
  unfold group_push at 1 in H.
  destruct (own_get _ groups); cbn [rbind] in H; [now apply IH in H|].
  destruct (on_prototype _); cbn [rbind] in H;
    [injection H as <-; eauto|now apply IH in H].
Qed.

(** C6, amended.  The grouping step leaves no incident out: when it
    returns, every incident of the input is in the group of its normalised
    location; when an incident has no location it throws, and a run over
    three or more filtered incidents aborts with that exception as soon as
    the first detector groups them. *)
Theorem C6_grouping_excludes_nothing now tz find options incidents :
  filteredSet now find options = Ok incidents ->
  (forall groups, groupByLocation incidents = Ok groups ->
     forall i, In i incidents ->
       location i <> None
       /\ exists g, own_get (key_of locationKey i) groups = Some g /\ In i g)
  /\ (Exists (fun i => location i = None) incidents ->
      exists what,
        groupByLocation incidents = Throw (TypeError what)
        /\ ((3 <= List.length incidents)%nat ->
            runComprehensiveAnalysis now tz find options
            = ([ ConsoleLog "Starting comprehensive crime analysis...";
                 Invoked DetectCrimeHotspots ], Throw (TypeError what)))).
Proof.
  intro Hset. split.
  - intros groups Hg i Hi. split.
    + intro Hnone.
      destruct (group_into_throws locationKey incidents []) as [e He].
      * apply Exists_exists. exists i. split; [assumption|].
        now apply locationKey_throws.
      * unfold groupByLocation in Hg. congruence.
    + apply groupByLocation_grouped in Hg. destruct Hg as [_ Hval].
      exists (members (key_of locationKey) (key_of locationKey i) incidents).
      rewrite Hval.
      assert (In i (members (key_of locationKey) (key_of locationKey i) incidents))
        as Hm by (apply filter_In; split; [assumption|apply key_eqb_refl]).
      split; [|exact Hm].
      destruct (members _ _ incidents); [contradiction|reflexivity].
  - intro Hex.
    destruct (group_into_throws locationKey incidents []) as [e He].
    { eapply Exists_impl; [|exact Hex]. intros i. apply locationKey_throws. }
    destruct (groupByLocation_throws_TypeError _ _ _ He) as [what ->].
    exists what. split; [exact He|]. intro H3.
    unfold filteredSet, requestedTimeRange in Hset.
    unfold runComprehensiveAnalysis.
    unfold mbind at 1. unfold console_log. unfold mbind at 1. unfold lift.
    rewrite Hset. apply Nat.ltb_ge in H3. rewrite H3.
    unfold mbind at 1. unfold invoke at 1. unfold detectCrimeHotspots.
    unfold groupByLocation in He |- *. rewrite He. reflexivity.
Qed.

Lemma C6_witness :
  exists what,
    groupByLocation unlocated_incidents = Throw (TypeError what)
    /\ ((3 <= List.length unlocated_incidents)%nat ->
        runComprehensiveAnalysis sample_now 0%Z
          (sample_store unlocated_incidents) default_options
        = ([ ConsoleLog "Starting comprehensive crime analysis...";
             Invoked DetectCrimeHotspots ], Throw (TypeError what))).
Proof.
  apply (C6_grouping_excludes_nothing sample_now 0%Z
           (sample_store unlocated_incidents) default_options
           unlocated_incidents).
  - reflexivity.
  - right. left. reflexivity.
Defined.

Lemma isRecent_spec now days inc :
  isRecent now days inc = true <-> (now - dateTime inc <= days * msPerDay)%Z.
Proof.
  unfold isRecent. rewrite Qle_bool_iff.
  change (1000 * 60 * 60 * 24)%Z with msPerDay.
  assert (0 < inject_Z msPerDay)%Q as Hpos by reflexivity.
  split; intro H.
  - assert (inject_Z (now - dateTime inc) <= inject_Z days * inject_Z msPerDay)%Q
      as H'.
    { apply Qmult_le_r with (z := (/ inject_Z msPerDay)%Q);
        [now apply Qinv_lt_0_compat|].
      rewrite <- Qmult_assoc, Qmult_inv_r, Qmult_1_r by discriminate.
      exact H. }
    rewrite <- inject_Z_mult, <- Zle_Qle in H'. exact H'.
  - apply Qle_shift_div_r; [exact Hpos|].
    rewrite <- inject_Z_mult, <- Zle_Qle. exact H.
Qed.

(** C7.  The predictive detector groups by location the incidents of the
    filtered set that are at most 14 days old, records a trend for every
    group of at least two incidents, emits one pattern for a trend exactly
    when the trend is increasing and its confidence is at least 0.6, and
    gives that pattern the trend's confidence times 0.8. *)
Theorem C7_predictions_follow_recent_trends now tz incidents groups :
  let recent := filter (isRecent now 14) incidents in
  groupByLocation recent = Ok groups ->
  exists trends,
    analyzeTrends tz recent = Ok trends
    /\ predictFutureHotspots now tz incidents
       = Ok (flat_map predictionOf (Object_entries trends))
    /\ (forall inc, In inc recent <->
          In inc incidents /\ (now - dateTime inc <= 14 * msPerDay)%Z)
    /\ (forall k,
          own_get k groups
          = some_nonempty (members (key_of locationKey) k recent))
    /\ (forall k,
          own_get k trends
          = match own_get k groups with
            | Some g =>
                if (2 <=? List.length g)%nat
                then Some (mkTrend (List.length g) true
                             (Qmin (8 # 10) (Qn (List.length g) / 5))
                             (1 # 10) (hourPatternOf tz g) g)
                else None
            | None => None
            end)
    /\ (forall k t, In (k, t) (Object_entries trends) ->
          (isIncreasing t = true /\ ((6 # 10) <= trendConfidence t)%Q ->
           exists p,
             predictionOf (k, t) = [p]
             /\ ptype p = predictive_hotspot
             /\ plocation p = key_string k
             /\ confidence p = (trendConfidence t * (8 # 10))%Q
             /\ relatedIncidents p = ids (trendIncidents t))
          /\ (~ (isIncreasing t = true /\ ((6 # 10) <= trendConfidence t)%Q) ->
              predictionOf (k, t) = [])).
Proof.
  intros recent Hg.
  destruct (analyzeTrends_spec tz recent groups Hg) as (trends & Hrun & _ & Hget).
  exists trends. split; [exact Hrun|]. split; [|split; [|split; [|split]]].
  - unfold predictFutureHotspots. fold recent. now rewrite Hrun.
  - intro inc. unfold recent. rewrite filter_In, isRecent_spec. reflexivity.
  - apply groupByLocation_grouped in Hg. now destruct Hg.
  - exact Hget.
  - intros k t _. unfold predictionOf. cbn [fst snd]. split.
    + intros [Hinc Hc]. apply Qle_bool_iff in Hc. rewrite Hinc, Hc. cbn [andb].
      eexists. split; [reflexivity|]. cbn. auto.
    + intro Hno. destruct (isIncreasing t); [|reflexivity]. cbn [andb].
      destruct (Qle_bool (6 # 10) (trendConfidence t)) eqn:Ec; [|reflexivity].
      exfalso. apply Hno. split; [reflexivity|now apply Qle_bool_iff].
Qed.

Lemma C7_witness :
  groupByLocation (filter (isRecent sample_now 14) sample_incidents)
  = Ok sample_groups
  /\ exists trends,
       analyzeTrends 0%Z (filter (isRecent sample_now 14) sample_incidents)
       = Ok trends
       /\ predictFutureHotspots sample_now 0%Z sample_incidents
          = Ok (flat_map predictionOf (Object_entries trends)).
Proof.
  assert (groupByLocation (filter (isRecent sample_now 14) sample_incidents)
          = Ok sample_groups) as H by (vm_compute; reflexivity).
  split; [exact H|].
  destruct (C7_predictions_follow_recent_trends sample_now 0%Z
              sample_incidents sample_groups H) as (trends & H1 & H2 & _).
  exists trends. split; assumption.
Defined.

Lemma before_byCountDesc a b :
  before byCountDesc a b <-> (snd b <= snd a)%nat.
Proof. unfold before, byCountDesc. apply Qn_sub_le. Qed.

Lemma byCountDesc_sorted l :
  StronglySorted (fun a b => (snd b <= snd a)%nat) (sort_by byCountDesc l).
Proof.
  apply (StronglySorted_impl (before byCountDesc)).
  - intros a b. apply before_byCountDesc.
  - apply sort_by_sorted.
    + intros a b H. apply before_byCountDesc.
      rewrite before_byCountDesc in H. lia.
    + intros a b c. rewrite !before_byCountDesc. lia.
Qed.

Lemma hour_bucket tz incidents h :
  (0 <= h)%Z ->
  members (hourKey tz) (Idx (Z.to_N h)) incidents
  = filter (fun i => (getHours tz (dateTime i) =? h)%Z) incidents.
Proof.
  intro Hh. rewrite <- (membersOf_members (getHours tz)).
  - unfold membersOf. simpl. now rewrite Z2N.id.
  - intro t. apply getHours_range.
Qed.

(** C8.  The hourly analysis counts the incidents of the whole filtered set
    per hour of day, looks at the first three buckets of the descending
    order by count only, and emits for each of them with at least three
    incidents one pattern with confidence [min(0.9, count/total * 4)]
    whose related incidents are the bucket's members; with 10 incidents of
    which 5 fall in hour 2 it emits a pattern with [peakHour = 2] and
    [percentage = "50.0"]. *)
Theorem C8_hourly_peaks tz incidents :
  let total := List.length incidents in
  let buckets := Object_entries (count_by (hourKey tz) incidents) in
  let ranked := sort_by byCountDesc buckets in
  (forall k c, In (k, c) buckets <->
     exists h, (0 <= h < 24)%Z /\ k = Idx (Z.to_N h) /\ (0 < c)%nat
       /\ c = List.length
                (filter (fun i => (getHours tz (dateTime i) =? h)%Z) incidents))
  /\ Permutation ranked buckets
  /\ StronglySorted (fun a b => (snd b <= snd a)%nat) ranked
  /\ detectHourlyPatterns tz incidents
     = flat_map (hourlyOf tz incidents) (firstn 3 ranked)
  /\ (forall k c, In (k, c) (firstn 3 ranked) ->
        ((3 <= c)%nat ->
         exists p,
           hourlyOf tz incidents (k, c) = [p]
           /\ confidence p = Qmin (9 # 10) (Qn c / Qn total * 4)
           /\ statistics p
              = HourlyStats (parseInt_key k) c (percentageOf c total)
           /\ relatedIncidents p = ids (members (hourKey tz) k incidents))
        /\ ((c < 3)%nat -> hourlyOf tz incidents (k, c) = []))
  /\ (total = 10%nat ->
      List.length
        (filter (fun i => (getHours tz (dateTime i) =? 2)%Z) incidents) = 5%nat ->
      exists p,
        In p (detectHourlyPatterns tz incidents)
        /\ statistics p = HourlyStats (Some 2%Z) 5 "50.0").
Proof.
  intros total buckets ranked.
  assert (forall k c, In (k, c) buckets ->
            exists h, (0 <= h < 24)%Z /\ k = Idx (Z.to_N h) /\ (0 < c)%nat
              /\ c = List.length
                       (filter (fun i => (getHours tz (dateTime i) =? h)%Z)
                          incidents)) as Hbucket.
  { intros k c HIn. destruct (count_by_entry _ _ _ _ HIn) as [Hc Hpos].
    destruct (members (hourKey tz) k incidents) as [|i rest] eqn:Em;
      [subst c; simpl in Hpos; lia|].
    assert (In i (members (hourKey tz) k incidents)) as Hi
      by (rewrite Em; now left).
    apply filter_In in Hi. destruct Hi as [_ Hk]. apply key_eqb_eq in Hk.
    exists (getHours tz (dateTime i)). pose proof (getHours_range tz (dateTime i)).
    split; [assumption|]. split; [now symmetry|]. split; [assumption|].
    rewrite <- hour_bucket by lia. unfold hourKey in Hk. rewrite Hk, Em.
    exact Hc. }
  assert (forall h, (0 <= h)%Z ->
            (0 < List.length (filter (fun i => (getHours tz (dateTime i) =? h)%Z)
                                incidents))%nat ->
            In (Idx (Z.to_N h),
                List.length (filter (fun i => (getHours tz (dateTime i) =? h)%Z)
                               incidents)) buckets) as Hhas.
  { intros h Hh Hpos. rewrite <- hour_bucket in * by assumption.
    destruct (members (hourKey tz) (Idx (Z.to_N h)) incidents) as [|i rest] eqn:Em;
      [simpl in Hpos; lia|].
    assert (In i (members (hourKey tz) (Idx (Z.to_N h)) incidents)) as Hi
      by (rewrite Em; now left).
    apply filter_In in Hi. destruct Hi as [Hi Hk]. apply key_eqb_eq in Hk.
    rewrite <- Em, <- Hk. now apply count_by_has. }
  split; [|split; [|split; [|split; [|split]]]].
  - intros k c. split; [apply Hbucket|].
    intros (h & [Hh _] & -> & Hpos & ->). now apply Hhas.
  - apply sort_by_perm.
  - apply byCountDesc_sorted.
  - reflexivity.
  - intros k c HIn. unfold hourlyOf. cbn [fst snd]. split.
    + intro H3. apply Nat.leb_le in H3. rewrite H3.
      eexists. split; [reflexivity|]. cbn.
      apply in_firstn, sort_by_in, Hbucket in HIn.
      destruct HIn as (h & [Hh _] & -> & _ & _).
      rewrite (membersOf_members (getHours tz))
        by (intro t; apply getHours_range).
      auto.
    + intro H3. apply Nat.leb_gt in H3. now rewrite H3.
  - intros Htotal Hfive.
    assert (In (Idx 2, 5%nat) buckets) as HIn.
    { specialize (Hhas 2%Z). rewrite Hfive in Hhas. apply Hhas; lia. }
    assert (In (Idx 2, 5%nat) (firstn 3 ranked)) as Htop.
    { apply large_bucket_in_firstn.
      - apply byCountDesc_sorted.
      - now apply sort_by_in.
      - assert (list_sum (map snd ranked) = total) as ->; [|simpl; lia].
        unfold ranked, buckets.
        rewrite (Permutation_list_sum
                   (Permutation_map snd
                      (Permutation_trans (sort_by_perm byCountDesc _)
                         (Object_entries_perm _)))).
        apply (counts_sum _ _ _ (count_by_counts (hourKey tz) incidents)). }
    exists (hd (mkPattern hotspot None EmptyString 0 EmptyString None
                  (ClusterStats 0%nat 0 0 []) NoTimePattern [] [] RiskLow)
               (hourlyOf tz incidents (Idx 2, 5%nat))).
    split.
    + unfold detectHourlyPatterns. apply in_flat_map.
      exists (Idx 2, 5%nat). split; [exact Htop|]. left. reflexivity.
    + cbn. unfold total in Htotal. rewrite Htotal. reflexivity.
Qed.

Lemma C8_witness :
  exists p,
    In p (detectHourlyPatterns 0%Z sample_incidents)
    /\ statistics p = HourlyStats (Some 2%Z) 5 "50.0".
Proof.
  apply (C8_hourly_peaks 0%Z sample_incidents); reflexivity.
Defined.

Lemma existsb_keys {V} k (o : Obj V) :
  existsb (key_eqb k) (map fst o)
  = match own_get k o with Some _ => true | None => false end.
Proof.
  induction o as [|[k' v] o IH]; simpl; [reflexivity|].
  destruct (key_eqb k k'); simpl; [reflexivity|exact IH].
Qed.

Lemma count_by_keys_from (key : Incident -> PropKey) l : forall dist : Obj nat,
  map fst (fold_left (fun d i => count_add d (key i)) l dist)
  = fold_left (fun acc k => if existsb (key_eqb k) acc then acc else acc ++ [k])
      (map key l) (map fst dist).
Proof.
  induction l as [|i l IH]; intro dist; simpl; [reflexivity|].
  rewrite IH. f_equal. unfold count_add. rewrite keys_set, existsb_keys.
  now destruct (own_get (key i) dist).
Qed.

Lemma count_by_keys key l :
  map fst (count_by key l) = first_seen (map key l).
Proof. apply (count_by_keys_from key l []). Qed.

Lemma Object_entries_names {V} (o : Obj V) :
  (forall e, In e o -> is_idx e = false) -> Object_entries o = o.
Proof.
  intro H. unfold Object_entries.
  assert (filter is_idx o = []) as ->.
  { induction o as [|e o IH]; simpl; [reflexivity|].
    rewrite (H e (or_introl eq_refl)). apply IH. intros; apply H; now right. }
  simpl. induction o as [|e o IH]; simpl; [reflexivity|].
  rewrite (H e (or_introl eq_refl)). simpl. f_equal.
  apply IH. intros; apply H; now right.
Qed.

Lemma crime_type_entries g :
  Object_entries (getCrimeTypeDistribution g) = getCrimeTypeDistribution g.
Proof.
  apply Object_entries_names. intros [k c] HIn.
  rewrite <- Object_entries_in in HIn.
  destruct (count_by_entry typeKey g k c HIn) as [Hc Hpos].
  destruct (members typeKey k g) as [|i rest] eqn:Em;
    [subst c; simpl in Hpos; lia|].
  assert (In i (members typeKey k g)) as Hi by (rewrite Em; now left).
  apply filter_In in Hi. destruct Hi as [_ Hk]. apply key_eqb_eq in Hk.
  now subst k.
Qed.

(** C9, as the specification states it, fails: with theft and assault tied
    at two incidents each and theft encountered first, the hotspot's
    subtype is assault. *)
Lemma C9_tie_goes_to_last :
  exists p,
    detectCrimeHotspots 0%Z tie_incidents = Ok [p]
    /\ Object_entries (getCrimeTypeDistribution tie_incidents)
       = [ (Name "theft", 2%nat); (Name "assault", 2%nat) ]
    /\ option_map (fun e => key_string (fst e))
         (spec_dominant_type
            (Object_entries (getCrimeTypeDistribution tie_incidents)))
       = Some "theft"%string
    /\ subtype p = Some "assault"%string.
Proof. eexists. split; [vm_compute; reflexivity|]. vm_compute. auto. Qed.

(** C9, amended.  The subtype of an emitted hotspot is the crime type with
    the greatest count within the location group; when several crime types
    are tied for the greatest count it is the one encountered last in the
    iteration order of the group's distribution, which lists the crime
    types in the order in which the group first shows them. *)
Theorem C9_dominant_type_last_of_ties tz incidents out p :
  detectCrimeHotspots tz incidents = Ok out -> In p out ->
  exists g k c pre post,
    relatedIncidents p = ids g
    /\ incl g incidents
    /\ Object_entries (getCrimeTypeDistribution g) = pre ++ (k, c) :: post
    /\ map fst (Object_entries (getCrimeTypeDistribution g))
       = first_seen (map typeKey g)
    /\ (forall k' c', In (k', c') (Object_entries (getCrimeTypeDistribution g)) ->
          c' = List.length (members typeKey k' g))
    /\ subtype p = Some (key_string k)
    /\ (forall e, In e pre -> (snd e <= c)%nat)
    /\ (forall e, In e post -> (snd e < c)%nat).
Proof.
  intros Hrun HIn.
  destruct (detectCrimeHotspots_inv _ _ _ _ Hrun HIn)
    as (kl & g & here & Hg & Hne & Hb & Hp).
  destruct (hotspotOf_inv _ _ _ _ _ Hb Hp)
    as (_ & _ & _ & _ & _ & (d & Hd & Hsub) & _ & Hrel & _).
  unfold classifyHotspotType in Hd.
  destruct (reduce1_pick_larger (V := nat) (getCrimeTypeDistribution g)
              (Object_entries (getCrimeTypeDistribution g)))
    as ([k c] & pre & post & Hr & Hsplit & Hpre & Hpost).
  { now apply count_by_nonempty. }
  rewrite Hr in Hd. cbn [rbind fst] in Hd. injection Hd as <-.
  assert (forall e, In e (Object_entries (getCrimeTypeDistribution g)) ->
            count_of (fst e) (getCrimeTypeDistribution g) = snd e) as Hlookup
    by (intros e He; now apply count_by_lookup).
  assert (count_of k (getCrimeTypeDistribution g) = c) as Hc.
  { apply (Hlookup (k, c)). rewrite Hsplit. apply in_app_iff. right. now left. }
  exists g, k, c, pre, post. split; [exact Hrel|]. split.
  { subst g. apply members_incl. }
  split; [exact Hsplit|]. split.
  { rewrite crime_type_entries. apply count_by_keys. }
  split.
  { intros k' c' He. now destruct (count_by_entry typeKey g k' c' He). }
  split; [exact Hsub|]. cbn [fst] in Hpre, Hpost. rewrite Hc in Hpre, Hpost.
  split.
  - intros e He. rewrite <- (Hlookup e).
    + now apply Hpre.
    + rewrite Hsplit. apply in_app_iff. now left.
  - intros e He. rewrite <- (Hlookup e).
    + now apply Hpost.
    + rewrite Hsplit. apply in_app_iff. right. now right.
Qed.

Lemma C9_witness :
  exists g k c pre post,
    relatedIncidents
      (hd (mkPattern hotspot None EmptyString 0 EmptyString None
             (ClusterStats 0%nat 0 0 []) NoTimePattern [] [] RiskLow)
          (match detectCrimeHotspots 0%Z tie_incidents with
           | Ok out => out
           | Throw _ => []
           end)) = ids g
    /\ incl g tie_incidents
    /\ Object_entries (getCrimeTypeDistribution g) = pre ++ (k, c) :: post
    /\ map fst (Object_entries (getCrimeTypeDistribution g))
       = first_seen (map typeKey g)
    /\ (forall k' c', In (k', c') (Object_entries (getCrimeTypeDistribution g)) ->
          c' = List.length (members typeKey k' g))
    /\ subtype
         (hd (mkPattern hotspot None EmptyString 0 EmptyString None
                (ClusterStats 0%nat 0 0 []) NoTimePattern [] [] RiskLow)
             (match detectCrimeHotspots 0%Z tie_incidents with
              | Ok out => out
              | Throw _ => []
              end)) = Some (key_string k)
    /\ (forall e, In e pre -> (snd e <= c)%nat)
    /\ (forall e, In e post -> (snd e < c)%nat).
Proof.
  apply (C9_dominant_type_last_of_ties 0%Z tie_incidents
           (match detectCrimeHotspots 0%Z tie_incidents with
            | Ok out => out
            | Throw _ => []
            end)).
  - vm_compute. reflexivity.
  - vm_compute. left. reflexivity.
Defined.

Lemma map_res_locationData_located incidents data :
  map_res locationDatumOf incidents = Ok data ->
  Forall (fun i => location i <> None) incidents.
Proof.
  revert data. induction incidents as [|i l IH]; intros data H; [constructor|].
  simpl in H. unfold locationDatumOf at 1 in H.
  destruct (location i) eqn:E; simpl in H; [|discriminate].
  destruct (map_res locationDatumOf l) as [ys|e] eqn:El; simpl in H;
    [|discriminate].
  constructor; [congruence|]. now apply (IH ys).
Qed.

(** C10.  The clustering step returns the whole input as one cluster,
    whatever the distance threshold and the coordinates; so, whenever the
    geographic cluster detector returns on a filtered set of [n] incidents
    (it does when every incident has a location), it emits exactly one
    pattern if [n >= 4], with confidence [min(0.8, n/8)] and all the
    incidents as related incidents, and nothing if [n < 4]. *)
Theorem C10_one_cluster_of_everything incidents :
  (forall data maxDistance, clusterByDistance data maxDistance = [data])
  /\ (Forall (fun i => location i <> None) incidents ->
      exists out, performGeographicClustering incidents = Ok out)
  /\ (forall out,
        performGeographicClustering incidents = Ok out ->
        ((4 <= List.length incidents)%nat ->
         exists p,
           out = [p]
           /\ ptype p = geographic_cluster
           /\ confidence p = Qmin (8 # 10) (Qn (List.length incidents) / 8)
           /\ relatedIncidents p = ids incidents)
        /\ ((List.length incidents < 4)%nat -> out = [])).
Proof.
  split; [reflexivity|]. split.
  - intro Hloc.
    destruct (map_res_locationData_returns incidents Hloc) as [data Hdata].
    unfold performGeographicClustering. rewrite Hdata. cbn [rbind]. eauto.
  - intro out. unfold performGeographicClustering.
    destruct (map_res locationDatumOf incidents) as [data|e] eqn:Hdata;
      cbn [rbind]; [|discriminate].
    pose proof (map_res_locationData _ _ Hdata) as Hids.
    assert (List.length data = List.length incidents) as Hlen.
    { unfold ids in Hids. rewrite <- (length_map datumId data), Hids.
      apply length_map. }
    unfold clusterByDistance. cbn [flat_map]. rewrite app_nil_r.
    unfold clusterOf, calculateClusterConfidence. rewrite Hlen, Hids.
    destruct (4 <=? List.length incidents)%nat eqn:E4.
    + apply Nat.leb_le in E4.
      assert (Qle_bool (4 # 10) (Qmin (8 # 10) (Qn (List.length incidents) / 8))
              = true) as ->.
      { apply Qle_bool_iff. apply Q.min_glb; [discriminate|].
        apply Qle_shift_div_l; [reflexivity|].
        pose proof (Qn_le 4 _ E4) as H. change (Qn 4) with 4%Q in H. lra. }
      intros [= <-]. split; [|lia].
      intros _. eexists. split; [reflexivity|]. cbn. auto.
    + apply Nat.leb_gt in E4. intros [= <-]. split; [lia|reflexivity].
Qed.

Lemma C10_witness :
  exists p,
    performGeographicClustering sample_incidents = Ok [p]
    /\ ptype p = geographic_cluster
    /\ confidence p = Qmin (8 # 10) (Qn (List.length sample_incidents) / 8)
    /\ relatedIncidents p = ids sample_incidents.
Proof.
  destruct (C10_one_cluster_of_everything sample_incidents) as (_ & Hret & Hout).
  destruct Hret as [out Hrun]; [repeat constructor; discriminate|].
  destruct (Hout out Hrun) as [H4 _].
  destruct H4 as (p & -> & H); [simpl; lia|].
  exists p. split; [exact Hrun|exact H].
Defined.

(* ================================================================= *)
(** ** Further properties of the code *)

(** The properties below are read off the code of [config/config.js]:
    what the grouping, the detectors, the statistics and the orchestrator
    do on every input, beyond what the specification states. *)

(** *** Property keys and groups *)

Lemma key_string_of_string s : key_string (key_of_string s) = s.
Proof.
  unfold key_of_string, array_index.
  destruct (NilZero.uint_of_string s) as [u|]; [|reflexivity].
  cbv zeta.
  destruct (String.eqb _ s) eqn:E; cbn [andb]; [|reflexivity].
  destruct (N.leb _ _); cbn [key_string]; [|reflexivity].
  now apply String.eqb_eq in E.
Qed.

Lemma key_of_string_eqb s t :
  key_eqb (key_of_string s) (key_of_string t) = String.eqb s t.
Proof.
  destruct (String.eqb s t) eqn:E.
  - apply String.eqb_eq in E. subst. apply key_eqb_refl.
  - apply key_eqb_neq. intro H. apply String.eqb_neq in E. apply E.
    rewrite <- (key_string_of_string s), <- (key_string_of_string t).
    now rewrite H.
Qed.

Section GroupFacts.

Variable keyR : Incident -> Res PropKey.

(** A grouping that returns has met only safe incidents. *)
Lemma group_into_safe l : forall groups result,
  (forall k, In k (map fst groups) -> on_prototype k = false) ->
  group_into keyR l groups = Ok result ->
  Forall (safe keyR) l.
Proof.
  induction l as [|i l IH]; intros groups result Hkeys Hrun; simpl in Hrun.
  - constructor.
  - destruct (keyR i) as [k|e] eqn:Ek; simpl in Hrun; [|discriminate].
    destruct (group_push k i groups) as [groups'|e] eqn:Ep; simpl in Hrun;
      [|discriminate].
    unfold group_push in Ep.
    assert (on_prototype k = false
            /\ forall k', In k' (map fst groups') -> on_prototype k' = false)
      as [Hk Hkeys'].
    { destruct (own_get k groups) as [ms|] eqn:E.
      - injection Ep as <-. split.
        + apply Hkeys. apply own_get_in in E.
          apply (in_map fst) in E. exact E.
        + intros k'. rewrite keys_set, E. apply Hkeys.
      - destruct (on_prototype k) eqn:Hp; [discriminate|].
        injection Ep as <-. split; [reflexivity|].
        intros k'. rewrite keys_set, E. rewrite in_app_iff.
        intros [H|[<-|[]]]; auto. }
    constructor.
    + split; [eauto|]. unfold key_of. now rewrite Ek.
    + now apply (IH groups' result).
Qed.

Lemma concat_set_some k (g : list Incident) x (o : Obj (list Incident)) :
  own_get k o = Some g ->
  Permutation (List.concat (map snd (obj_set k (g ++ [x]) o)))
    (List.concat (map snd o) ++ [x]).
Proof.
  induction o as [|[k' v'] o IH]; simpl; [discriminate|].
  destruct (key_eqb k k') eqn:E.
  - intros [= ->]. simpl. rewrite <- !app_assoc.
    apply Permutation_app_head. apply Permutation_app_comm.
  - intro H. simpl. rewrite <- app_assoc.
    apply Permutation_app_head. now apply IH.
Qed.

Lemma concat_set_none k x (o : Obj (list Incident)) :
  own_get k o = None ->
  List.concat (map snd (obj_set k [x] o)) = List.concat (map snd o) ++ [x].
Proof.
  induction o as [|[k' v'] o IH]; simpl; [reflexivity|].
  destruct (key_eqb k k') eqn:E; [discriminate|].
  intro H. simpl. rewrite <- app_assoc. f_equal. now apply IH.
Qed.

(** Grouping moves every incident into one group. *)
Lemma group_into_perm l : forall groups result,
  group_into keyR l groups = Ok result ->
  Permutation (List.concat (map snd result)) (List.concat (map snd groups) ++ l).
Proof.
  induction l as [|i l IH]; intros groups result Hrun; simpl in Hrun.
  - injection Hrun as <-. now rewrite app_nil_r.
  - destruct (keyR i) as [k|e] eqn:Ek; simpl in Hrun; [|discriminate].
    destruct (group_push k i groups) as [groups'|e] eqn:Ep; simpl in Hrun;
      [|discriminate].
    rewrite (IH _ _ Hrun).
    replace (List.concat (map snd groups) ++ i :: l)
      with ((List.concat (map snd groups) ++ [i]) ++ l)
      by (rewrite <- app_assoc; reflexivity).
    apply Permutation_app_tail.
    unfold group_push in Ep. destruct (own_get k groups) as [ms|] eqn:E.
    + injection Ep as <-. now apply concat_set_some.
    + destruct (on_prototype k); [discriminate|]. injection Ep as <-.
      now rewrite concat_set_none.
Qed.

End GroupFacts.

Lemma groupByLocation_safe l groups :
  groupByLocation l = Ok groups -> Forall (safe locationKey) l.
Proof.
  intro H. apply (group_into_safe locationKey l [] groups); [|exact H].
  intros k [].
Qed.

(** Under a grouping that returned, membership in the group of a key is
    a comparison of normalised location strings. *)
Lemma members_located l k :
  Forall (safe locationKey) l ->
  members (key_of locationKey) (key_of_string k) l = filter (located_at k) l.
Proof.
  intro Hsafe. unfold members. apply filter_ext_in. intros i HIn.
  rewrite Forall_forall in Hsafe. destruct (Hsafe i HIn) as [[k' Hk] _].
  unfold key_of, located_at. unfold locationKey in *.
  destruct (location i) as [s|]; [|discriminate].
  apply key_of_string_eqb.
Qed.

Lemma location_key_is_string l i k :
  Forall (safe locationKey) l ->
  In i (members (key_of locationKey) k l) ->
  k = key_of_string (key_string k).
Proof.
  intros Hsafe HIn. apply filter_In in HIn. destruct HIn as [HIn Hk].
  apply key_eqb_eq in Hk. subst k.
  rewrite Forall_forall in Hsafe. destruct (Hsafe i HIn) as [[k' Hk] _].
  unfold key_of. unfold locationKey in *.
  destruct (location i) as [s|]; [|discriminate].
  now rewrite key_string_of_string.
Qed.

Lemma group_located l groups k g :
  groupByLocation l = Ok groups ->
  In (k, g) groups ->
  g <> [] /\ g = filter (located_at (key_string k)) l.
Proof.
  intros Hrun HIn.
  pose proof (groupByLocation_safe _ _ Hrun) as Hsafe.
  pose proof (groupByLocation_grouped _ _ Hrun) as HG.
  rewrite <- Object_entries_in in HIn.
  destruct (grouped_entry _ _ _ _ _ HG HIn) as [Hg Hne].
  split; [exact Hne|].
  destruct g as [|i g']; [congruence|].
  assert (In i (members (key_of locationKey) k l)) as Hi
    by (rewrite <- Hg; now left).
  rewrite (location_key_is_string _ _ _ Hsafe Hi) in Hg.
  now rewrite members_located in Hg.
Qed.

(** X1.  [groupByLocation] returns exactly when every incident has a
    location whose normalised form is not the name of a property that
    objects inherit. *)
Theorem groupByLocation_returns_iff incidents :
  (exists groups, groupByLocation incidents = Ok groups)
  <-> Forall (fun i =>
                exists s, location i = Some s
                  /\ on_prototype (key_of_string (trim (toLowerCase s))) = false)
        incidents.
Proof.
  split.
  - intros [groups H]. apply groupByLocation_safe in H.
    eapply Forall_impl; [|exact H].
    intros i [[k Hk] Hp]. unfold key_of in Hp. unfold locationKey in *.
    destruct (location i) as [s|]; [|discriminate]. eauto.
  - intro H. apply group_into_returns.
    eapply Forall_impl; [|exact H].
    intros i (s & Hs & Hp). unfold safe, key_of, locationKey. rewrite Hs.
    split; eauto.
Qed.

(** X2.  The groups of [groupByLocation] partition the incidents: the
    keys are distinct, the groups together hold every incident once, and
    each group is non-empty and holds, in their order, the incidents
    whose normalised location is its key. *)
Theorem groupByLocation_partitions incidents groups :
  groupByLocation incidents = Ok groups ->
  NoDup (map fst groups)
  /\ Permutation (List.concat (map snd groups)) incidents
  /\ forall k g, In (k, g) groups ->
       g <> [] /\ g = filter (located_at (key_string k)) incidents.
Proof.
  intro Hrun. split; [|split].
  - apply (groupByLocation_grouped _ _ Hrun).
  - apply (group_into_perm locationKey incidents [] groups Hrun).
  - intros k g. now apply group_located.
Qed.

Lemma groupByLocation_partitions_witness :
  NoDup (map fst sample_groups)
  /\ Permutation (List.concat (map snd sample_groups)) sample_incidents
  /\ forall k g, In (k, g) sample_groups ->
       g <> [] /\ g = filter (located_at (key_string k)) sample_incidents.
Proof.
  apply (groupByLocation_partitions sample_incidents sample_groups).
  vm_compute. reflexivity.
Defined.

(** X3.  A hotspot relates exactly the incidents whose normalised location
    is the location it reports, and there are at least three of them. *)
Theorem hotspot_relates_its_location tz incidents out p :
  detectCrimeHotspots tz incidents = Ok out -> In p out ->
  ptype p = hotspot
  /\ relatedIncidents p = ids (filter (located_at (plocation p)) incidents)
  /\ (3 <= List.length (relatedIncidents p))%nat.
Proof.
  intros Hrun HIn. unfold detectCrimeHotspots in Hrun.
  destruct (groupByLocation incidents) as [groups|e] eqn:EG; simpl in Hrun;
    [|discriminate].
  destruct (for_push_in _ _ _ _ Hrun HIn) as ([k g] & here & He & Hbody & Hp).
  rewrite Object_entries_in in He.
  destruct (group_located _ _ _ _ EG He) as [Hne Hg].
  destruct (hotspotOf_inv _ _ _ _ _ Hbody Hp)
    as (Hlen & _ & _ & Hty & Hloc & _ & _ & Hrel & _).
  rewrite Hloc, Hrel. split; [exact Hty|]. split.
  - now rewrite <- Hg.
  - unfold ids. now rewrite length_map.
Qed.

Lemma hotspot_relates_its_location_witness :
  let p := hd no_pattern (patterns_of (detectCrimeHotspots 0%Z sample_incidents)) in
  ptype p = hotspot
  /\ relatedIncidents p = ids (filter (located_at (plocation p)) sample_incidents)
  /\ (3 <= List.length (relatedIncidents p))%nat.
Proof.
  apply (hotspot_relates_its_location 0%Z sample_incidents
           (patterns_of (detectCrimeHotspots 0%Z sample_incidents))).
  - vm_compute. reflexivity.
  - vm_compute. left. reflexivity.
Defined.

(** X4.  [groupByCrimeType] never throws, and its groups partition the
    incidents by crime type. *)
Theorem groupByCrimeType_partitions incidents :
  exists groups,
    groupByCrimeType incidents = Ok groups
    /\ NoDup (map fst groups)
    /\ Permutation (List.concat (map snd groups)) incidents
    /\ forall k g, In (k, g) groups ->
         g <> [] /\ g = filter (of_type (key_string k)) incidents.
Proof.
  destruct (groupByCrimeType_returns incidents) as [groups Hrun].
  exists groups. split; [exact Hrun|].
  pose proof (groupByCrimeType_grouped _ _ Hrun) as HG.
  split; [apply HG|]. split.
  - apply (group_into_perm (fun i => Ok (typeKey i)) incidents [] groups Hrun).
  - intros k g HIn. rewrite <- Object_entries_in in HIn.
    destruct (grouped_entry _ _ _ _ _ HG HIn) as [Hg Hne].
    split; [exact Hne|].
    destruct g as [|i g']; [congruence|].
    assert (In i (members (key_of (fun i => Ok (typeKey i))) k incidents)) as Hi
      by (rewrite <- Hg; now left).
    apply filter_In in Hi. destruct Hi as [_ Hk]. apply key_eqb_eq in Hk.
    rewrite Hg. subst k. unfold members. apply filter_ext. intro j.
    reflexivity.
Qed.

(** *** Loops that push *)

Lemma for_push_returns {A B} (body : A -> Res (list B)) l :
  (forall x, In x l -> exists here, body x = Ok here) ->
  exists out, for_push body l = Ok out.
Proof.
  induction l as [|x l IH]; intro H; simpl; [eauto|].
  destruct (H x (or_introl eq_refl)) as [here ->]. simpl.
  destruct IH as [more ->]; [intros; apply H; now right|]. simpl. eauto.
Qed.

Lemma for_push_complete {A B} (body : A -> Res (list B)) l : forall out x here,
  for_push body l = Ok out -> In x l -> body x = Ok here -> incl here out.
Proof.
  induction l as [|x0 l IH]; intros out x here Hrun HIn Hbody; [destruct HIn|].
  simpl in Hrun.
  destruct (body x0) as [here0|] eqn:E0; simpl in Hrun; [|discriminate].
  destruct (for_push body l) as [more|] eqn:El; simpl in Hrun; [|discriminate].
  injection Hrun as <-. intros y Hy. apply in_or_app.
  destruct HIn as [->|HIn].
  - left. congruence.
  - right. now apply (IH more x here).
Qed.

(** A loop that pushes at most one element per entry, labelled by the
    entry, pushes no label twice. *)
Lemma for_push_NoDup {A B C} (body : A -> Res (list B)) (f : B -> C)
    (h : A -> C) l : forall out,
  for_push body l = Ok out ->
  (forall x here, In x l -> body x = Ok here ->
     here = [] \/ exists y, here = [y] /\ f y = h x) ->
  NoDup (map h l) ->
  NoDup (map f out).
Proof.
  induction l as [|x l IH]; intros out Hrun Hone ND; simpl in Hrun.
  - injection Hrun as <-. constructor.
  - destruct (body x) as [here|] eqn:E0; simpl in Hrun; [|discriminate].
    destruct (for_push body l) as [more|] eqn:El; simpl in Hrun; [|discriminate].
    injection Hrun as <-. inversion ND as [|? ? Hnot ND']; subst.
    assert (NoDup (map f more)) as Hmore.
    { apply IH; [reflexivity| |assumption].
      intros x' here' Hx'. apply Hone. now right. }
    destruct (Hone x here (or_introl eq_refl) E0) as [->|(y & -> & Hy)];
      [exact Hmore|].
    simpl. constructor; [|exact Hmore].
    intro HIn. apply in_map_iff in HIn. destruct HIn as (y' & Hy' & HIn').
    destruct (for_push_in _ _ _ _ El HIn') as (x' & here' & Hx' & Hb' & Hin').
    destruct (Hone x' here' (or_intror Hx') Hb') as [->|(y'' & -> & Hy'')];
      [destruct Hin'|].
    destruct Hin' as [->|[]]. apply Hnot. apply in_map_iff.
    exists x'. split; [|assumption]. now rewrite <- Hy'', Hy'.
Qed.

(** *** Keys that come from strings *)

Lemma canonical_inj k k' :
  canonical k -> canonical k' -> key_string k = key_string k' -> k = k'.
Proof. unfold canonical. intros Hk Hk' H. rewrite Hk, Hk', H. reflexivity. Qed.

Lemma NoDup_key_strings {V C} (w : string -> C) (entries : list (PropKey * V)) :
  (forall a b, w a = w b -> a = b) ->
  NoDup (map fst entries) ->
  (forall e, In e entries -> canonical (fst e)) ->
  NoDup (map (fun e => w (key_string (fst e))) entries).
Proof.
  intro Hw.
  induction entries as [|e entries IH]; simpl; intros ND Hc; [constructor|].
  inversion ND as [|? ? Hnot ND']; subst. constructor.
  - intro HIn. apply in_map_iff in HIn. destruct HIn as (e' & He' & HIn').
    apply Hnot. apply in_map_iff. exists e'. split; [|assumption].
    apply canonical_inj; auto.
  - apply IH; auto.
Qed.

Lemma typeKey_canonical i : canonical (typeKey i).
Proof. unfold canonical, typeKey. destruct (type i); reflexivity. Qed.

Lemma type_group incidents groups k g :
  groupByCrimeType incidents = Ok groups ->
  In (k, g) groups ->
  g <> [] /\ canonical k /\ g = filter (of_type (key_string k)) incidents.
Proof.
  intros Hrun HIn.
  pose proof (groupByCrimeType_grouped _ _ Hrun) as HG.
  rewrite <- Object_entries_in in HIn.
  destruct (grouped_entry _ _ _ _ _ HG HIn) as [Hg Hne].
  split; [exact Hne|].
  destruct g as [|i g']; [congruence|].
  assert (In i (members (key_of (fun i => Ok (typeKey i))) k incidents)) as Hi
    by (rewrite <- Hg; now left).
  apply filter_In in Hi. destruct Hi as [_ Hk]. apply key_eqb_eq in Hk.
  cbn [key_of] in Hk. subst k. split; [apply typeKey_canonical|].
  rewrite Hg. unfold members. apply filter_ext. intro j. reflexivity.
Qed.

Lemma Qdiv_numeral x (n : positive) : (x / (Z.pos n # 1))%Q = (x * (1 # n))%Q.
Proof. reflexivity. Qed.

(** *** The crime-series detector *)

Lemma series_confidence_of_three g :
  List.length g = 3%nat -> Qle_bool (5 # 10) (calculateSeriesConfidence g) = false.
Proof. unfold calculateSeriesConfidence. intros ->. reflexivity. Qed.

Lemma series_confidence_of_four g :
  (4 <= List.length g)%nat ->
  ((64 # 100) <= calculateSeriesConfidence g <= (9 # 10))%Q.
Proof.
  intro H. unfold calculateSeriesConfidence. apply Qn_le in H.
  change (Qn 4) with (4 # 1)%Q in H. rewrite Qdiv_numeral. split.
  - apply Q.min_glb; lra.
  - apply Q.le_min_l.
Qed.

Lemma seriesOf_emits tz k g :
  g <> [] ->
  ((4 <= List.length g)%nat ->
   exists p, seriesOf tz (k, g) = Ok [p] /\ subtype p = Some (key_string k))
  /\ ((List.length g < 4)%nat -> seriesOf tz (k, g) = Ok []).
Proof.
  intro Hne. unfold seriesOf, findCrimeClusters, seriesOfCluster.
  cbn [fst snd for_push]. split; intro Hlen.
  - assert ((3 <=? List.length g)%nat = true) as -> by (apply Nat.leb_le; lia).
    destruct (series_confidence_of_four g Hlen) as [Hc _].
    assert (Qle_bool (5 # 10) (calculateSeriesConfidence g) = true) as ->
      by (apply Qle_bool_iff; lra).
    unfold analyzeSeriesTimePattern.
    destruct (analyzeLocationTimePattern_returns tz g Hne) as [when ->].
    cbn. eexists. split; reflexivity.
  - destruct (3 <=? List.length g)%nat eqn:E3; [|reflexivity].
    apply Nat.leb_le in E3.
    rewrite series_confidence_of_three by lia. reflexivity.
Qed.

(** X5.  [detectCrimeSeries] never throws and reports a crime type exactly
    when at least four incidents have it, once; the pattern relates all
    incidents of the type and its confidence is at least 0.64. *)
Theorem series_need_four_incidents tz incidents :
  exists out,
    detectCrimeSeries tz incidents = Ok out
    /\ NoDup (map subtype out)
    /\ (forall name,
          (exists p, In p out /\ subtype p = Some name)
          <-> (4 <= List.length (filter (of_type name) incidents))%nat)
    /\ forall p, In p out ->
         exists name,
           ptype p = crime_series
           /\ subtype p = Some name
           /\ relatedIncidents p = ids (filter (of_type name) incidents)
           /\ ((64 # 100) <= confidence p <= (9 # 10))%Q.
Proof.
  unfold detectCrimeSeries.
  destruct (groupByCrimeType_returns incidents) as [groups Hrun].
  rewrite Hrun. cbn [rbind].
  assert (forall e, In e (Object_entries groups) ->
            snd e <> [] /\ canonical (fst e)
            /\ snd e = filter (of_type (key_string (fst e))) incidents) as Hent.
  { intros [k g] He. rewrite Object_entries_in in He.
    apply (type_group _ _ _ _ Hrun He). }
  destruct (for_push_returns (seriesOf tz) (Object_entries groups)) as [out Hout].
  { intros [k g] He. destruct (Hent _ He) as (Hne & _ & _).
    destruct (seriesOf_emits tz k g Hne) as [H4 H3].
    destruct (Nat.le_gt_cases 4 (List.length g)) as [H|H].
    - destruct (H4 H) as (p & -> & _). eauto.
    - rewrite (H3 H). eauto. }
  assert (forall p, In p out ->
            exists k g, In (k, g) (Object_entries groups)
              /\ (4 <= List.length g)%nat
              /\ subtype p = Some (key_string k)
              /\ ptype p = crime_series
              /\ relatedIncidents p = ids g
              /\ confidence p = calculateSeriesConfidence g) as Hinv.
  { intros p Hp.
    destruct (for_push_in _ _ _ _ Hout Hp) as ([k g] & here & He & Hbody & Hin).
    destruct (seriesOf_inv _ _ _ _ _ Hbody Hin)
      as (H3 & Hc & Hc5 & Hty & Hsub & Hrel & _).
    exists k, g. repeat split; auto.
    destruct (Nat.le_gt_cases 4 (List.length g)) as [H|H]; [exact H|].
    exfalso. apply Qle_bool_iff in Hc5. rewrite Hc in Hc5.
    rewrite series_confidence_of_three in Hc5 by lia. discriminate. }
  exists out. split; [exact Hout|]. split; [|split].
  - apply (for_push_NoDup (seriesOf tz) subtype
             (fun e => Some (key_string (fst e))) _ _ Hout).
    + intros [k g] here He Hbody. destruct (Hent _ He) as (Hne & _ & _).
      destruct (seriesOf_emits tz k g Hne) as [H4 H3].
      destruct (Nat.le_gt_cases 4 (List.length g)) as [H|H].
      * destruct (H4 H) as (p & Hp & Hsub). right. exists p.
        split; [congruence|exact Hsub].
      * left. rewrite (H3 H) in Hbody. congruence.
    + apply (NoDup_key_strings Some).
      * intros a b; congruence.
      * apply Object_entries_NoDup. apply (groupByCrimeType_grouped _ _ Hrun).
      * intros e He. apply (Hent _ He).
  - intro name. split.
    + intros (p & Hp & Hsub).
      destruct (Hinv p Hp) as (k & g & He & H4 & Hsub' & _).
      destruct (Hent _ He) as (_ & _ & Hg). cbn [fst snd] in Hg.
      assert (key_string k = name) as <- by congruence. now rewrite <- Hg.
    + intro H4.
      destruct (filter (of_type name) incidents) as [|i rest] eqn:Ef;
        [simpl in H4; lia|].
      assert (In i (filter (of_type name) incidents)) as Hi
        by (rewrite Ef; now left).
      apply filter_In in Hi. destruct Hi as [Hi Hty].
      unfold of_type in Hty. apply String.eqb_eq in Hty.
      pose proof (groupByCrimeType_grouped _ _ Hrun) as [ND Hval].
      pose proof (Hval (typeKey i)) as Hk.
      assert (In i (members (key_of (fun i => Ok (typeKey i))) (typeKey i)
                      incidents)) as Hm.
      { apply filter_In. split; [exact Hi|apply key_eqb_refl]. }
      destruct (members (key_of (fun i => Ok (typeKey i))) (typeKey i) incidents)
        as [|j g'] eqn:Em; [destruct Hm|].
      cbn [some_nonempty] in Hk. apply own_get_in in Hk.
      rewrite <- Object_entries_in in Hk.
      destruct (Hent _ Hk) as (Hne & _ & Hg). cbn [fst snd] in Hg.
      assert (key_string (typeKey i) = name) as Hname by exact Hty.
      rewrite Hname, Ef in Hg.
      destruct (seriesOf_emits tz (typeKey i) (j :: g') Hne) as [Hemit _].
      destruct Hemit as (p & Hp & Hsub); [rewrite Hg; exact H4|].
      exists p. split; [|congruence].
      apply (for_push_complete _ _ _ _ _ Hout Hk Hp). now left.
  - intros p Hp. destruct (Hinv p Hp) as (k & g & He & H4 & Hsub & Hty & Hrel & Hc).
    destruct (Hent _ He) as (_ & _ & Hg). cbn [fst snd] in Hg.
    exists (key_string k). split; [exact Hty|]. split; [exact Hsub|].
    split; [now rewrite Hrel, Hg|].
    rewrite Hc. now apply series_confidence_of_four.
Qed.

(** *** Groups by location inside the detectors *)

Lemma location_entry incidents groups e :
  groupByLocation incidents = Ok groups ->
  In e (Object_entries groups) ->
  snd e <> [] /\ canonical (fst e)
  /\ snd e = filter (located_at (key_string (fst e))) incidents.
Proof.
  intros Hrun He. destruct e as [k g]. cbn [fst snd].
  pose proof (groupByLocation_safe _ _ Hrun) as Hsafe.
  pose proof (groupByLocation_grouped _ _ Hrun) as HG.
  destruct (grouped_entry _ _ _ _ _ HG He) as [Hg Hne].
  rewrite Object_entries_in in He.
  destruct (group_located _ _ _ _ Hrun He) as [_ Hloc].
  split; [exact Hne|]. split; [|exact Hloc].
  destruct g as [|i g']; [congruence|].
  apply (location_key_is_string incidents i); [exact Hsafe|].
  rewrite <- Hg. now left.
Qed.

(** *** The predictive detector *)




(** *** The area risk assessor *)

(** X7.  A risk assessment relates all incidents of its location, whatever
    their number; its confidence lies between 0.6 and 0.9 and its risk
    level is never low. *)
Theorem risk_assessments_are_never_low now tz incidents out p :
  assessAreaRisk now tz incidents = Ok out -> In p out ->
  ptype p = risk_assessment
  /\ relatedIncidents p = ids (filter (located_at (plocation p)) incidents)
  /\ ((6 # 10) <= confidence p <= (9 # 10))%Q
  /\ riskLevel p <> RiskLow.
Proof.
  intros Hrun HIn. unfold assessAreaRisk in Hrun.
  destruct (groupByLocation incidents) as [groups|e] eqn:EG; simpl in Hrun;
    [|discriminate].
  destruct (for_push_in _ _ _ _ Hrun HIn) as ([k g] & here & He & Hbody & Hp).
  destruct (location_entry _ _ _ EG He) as (_ & _ & Hg). cbn [fst snd] in Hg.
  destruct (riskOf_inv _ _ _ _ _ _ Hbody Hp)
    as (Hs & Hc & Hty & Hloc & _ & Hrel & Hrisk).
  split; [exact Hty|]. split; [now rewrite Hrel, Hloc, <- Hg|]. split.
  - rewrite Hc. split; [apply Q.min_glb; lra|apply Q.le_min_l].
  - rewrite Hrisk. intro Hlow.
    apply (proj2 (proj2 (categorizeRiskLevel_spec _))) in Hlow. lra.
Qed.

Lemma risk_assessments_are_never_low_witness :
  let p := hd no_pattern
             (patterns_of (assessAreaRisk sample_now 0%Z sample_incidents)) in
  ptype p = risk_assessment
  /\ relatedIncidents p
     = ids (filter (located_at (plocation p)) sample_incidents)
  /\ ((6 # 10) <= confidence p <= (9 # 10))%Q
  /\ riskLevel p <> RiskLow.
Proof.
  apply (risk_assessments_are_never_low sample_now 0%Z sample_incidents
           (patterns_of (assessAreaRisk sample_now 0%Z sample_incidents))).
  - vm_compute. reflexivity.
  - vm_compute. left. reflexivity.
Defined.

(** *** One pattern per location *)

Lemma hotspotOf_one tz k g here :
  hotspotOf tz (k, g) = Ok here ->
  here = [] \/ exists p, here = [p] /\ plocation p = key_string k.
Proof.
  unfold hotspotOf. cbn [fst snd].
  destruct (3 <=? List.length g)%nat; [|intros [= <-]; now left].
  destruct (Qle_bool (4 # 10) _); [|intros [= <-]; now left].
  destruct (classifyHotspotType g) as [d|]; cbn [rbind]; [|discriminate].
  destruct (analyzeLocationTimePattern tz g) as [w|]; cbn [rbind];
    [|discriminate].
  intros [= <-]. right. eexists. split; reflexivity.
Qed.

Lemma riskOf_one now tz k g here :
  riskOf now tz (k, g) = Ok here ->
  here = [] \/ exists p, here = [p] /\ plocation p = key_string k.
Proof.
  unfold riskOf. cbn [fst snd].
  destruct (Qle_bool (5 # 10) _); [|intros [= <-]; now left].
  destruct (analyzeLocationTimePattern tz g) as [w|]; cbn [rbind];
    [|discriminate].
  intros [= <-]. right. eexists. split; reflexivity.
Qed.

(** X8.  No location is reported twice by the hotspot detector, nor by the
    risk assessor. *)
Theorem one_pattern_per_location now tz incidents :
  (forall out, detectCrimeHotspots tz incidents = Ok out ->
     NoDup (map plocation out))
  /\ (forall out, assessAreaRisk now tz incidents = Ok out ->
        NoDup (map plocation out)).
Proof.
  assert (forall groups, groupByLocation incidents = Ok groups ->
            NoDup (map (fun e : PropKey * list Incident => key_string (fst e))
                     (Object_entries groups))) as Hkeys.
  { intros groups EG. apply (NoDup_key_strings (fun s => s)).
    - auto.
    - apply Object_entries_NoDup. apply (groupByLocation_grouped _ _ EG).
    - intros e He. apply (location_entry _ _ _ EG He). }
  split; intros out Hrun.
  - unfold detectCrimeHotspots in Hrun.
    destruct (groupByLocation incidents) as [groups|e] eqn:EG; simpl in Hrun;
      [|discriminate].
    apply (for_push_NoDup (hotspotOf tz) plocation
             (fun e => key_string (fst e)) _ _ Hrun); [|now apply Hkeys].
    intros [k g] here _. apply hotspotOf_one.
  - unfold assessAreaRisk in Hrun.
    destruct (groupByLocation incidents) as [groups|e] eqn:EG; simpl in Hrun;
      [|discriminate].
    apply (for_push_NoDup (riskOf now tz) plocation
             (fun e => key_string (fst e)) _ _ Hrun); [|now apply Hkeys].
    intros [k g] here _. apply riskOf_one.
Qed.

(** *** Groups that are always hotspots *)

Lemma severityWeight_pos s : (1 <= severityWeight s)%nat.
Proof. destruct s; cbv; lia. Qed.

Lemma severity_total_ge l : forall a,
  (a + List.length l
   <= fold_left (fun sum inc => sum + severityWeight (severity inc)) l a)%nat.
Proof.
  induction l as [|i l IH]; intro a; simpl; [lia|].
  specialize (IH (a + severityWeight (severity i))%nat).
  pose proof (severityWeight_pos (severity i)). lia.
Qed.

Lemma calculateAverageSeverity_ge_1 g :
  g <> [] -> (1 <= calculateAverageSeverity g)%Q.
Proof.
  intro Hne. unfold calculateAverageSeverity.
  pose proof (severity_total_ge g 0) as H. simpl in H.
  apply Qle_shift_div_l.
  - apply Qn_pos. destruct g; [congruence|simpl; lia].
  - rewrite Qmult_1_l. now apply Qn_le.
Qed.

Lemma density_of_a_day g :
  (calculateTimeSpan g <= msPerDay)%Z ->
  calculateCrimeDensity g == Qn (List.length g).
Proof.
  intro H. unfold calculateCrimeDensity. cbv zeta.
  assert (Qmax 1 (inject_Z (calculateTimeSpan g) / inject_Z (1000 * 60 * 60 * 24))
          == 1)%Q as ->.
  { apply Q.max_l. apply Qle_shift_div_r; [reflexivity|].
    rewrite Qmult_1_l. rewrite <- Zle_Qle. exact H. }
  unfold Qdiv. change (/ 1)%Q with 1%Q. apply Qmult_1_r.
Qed.

Lemma dense_confidence g :
  (3 <= List.length g)%nat ->
  (calculateTimeSpan g <= msPerDay)%Z ->
  ((47 # 100)
   <= calculateHotspotConfidence
        (mkFactors (List.length g) (calculateCrimeDensity g)
           (calculateAverageSeverity g) (calculateTimeSpread g)))%Q.
Proof.
  intros H3 Hspan. unfold calculateHotspotConfidence.
  cbn [factorCount factorDensity factorSeverity factorTimeSpread].
  assert (g <> []) as Hne by (destruct g; [simpl in H3; lia|congruence]).
  pose proof (calculateAverageSeverity_ge_1 g Hne) as Hsev.
  pose proof (density_of_a_day g Hspan) as Hd.
  pose proof (Qn_le _ _ H3) as Hn. change (Qn 3) with (3 # 1)%Q in Hn.
  assert ((3 # 10) <= Qmin 1 (Qn (List.length g) / 10))%Q as Hcs.
  { rewrite Qdiv_numeral. apply Q.min_glb; lra. }
  assert (Qmin 1 (calculateCrimeDensity g / 2) == 1)%Q as Hds.
  { apply Q.min_l. rewrite Hd, Qdiv_numeral. lra. }
  set (ts := if (0 <? calculateTimeSpread g)%Z then _ else _).
  assert (0 <= ts)%Q as Hts.
  { subst ts. destruct (0 <? calculateTimeSpread g)%Z eqn:E; [|discriminate].
    apply Z.ltb_lt in E. apply Q.min_glb; [discriminate|].
    apply Qdiv_nonneg; [|discriminate].
    change 0%Q with (inject_Z 0). rewrite <- Zle_Qle. lia. }
  rewrite Hds. rewrite (Qdiv_numeral (calculateAverageSeverity g)).
  set (cs := Qmin 1 (Qn (List.length g) / 10)) in *.
  set (sev := calculateAverageSeverity g) in *. lra.
Qed.

(** X9.  A location with at least three incidents whose time span, as the
    service computes it, is at most one day is always reported as a
    hotspot, with a confidence of at least 0.47. *)
Theorem dense_group_is_a_hotspot tz incidents groups k g :
  groupByLocation incidents = Ok groups ->
  In (k, g) groups ->
  (3 <= List.length g)%nat ->
  (calculateTimeSpan g <= msPerDay)%Z ->
  exists out p,
    detectCrimeHotspots tz incidents = Ok out
    /\ In p out
    /\ plocation p = key_string k
    /\ relatedIncidents p = ids g
    /\ ((47 # 100) <= confidence p)%Q.
Proof.
  intros EG HIn H3 Hspan. unfold detectCrimeHotspots. rewrite EG. cbn [rbind].
  destruct (for_push_returns (hotspotOf tz) (Object_entries groups))
    as [out Hout].
  { intros [k' g'] He.
    destruct (location_entry _ _ _ EG He) as (Hne & _ & _). cbn [snd] in Hne.
    destruct (hotspot_emitted_iff tz k' g' Hne) as [Hyes Hno].
    destruct (3 <=? List.length g')%nat eqn:E3.
    - destruct (Qle_bool (4 # 10)
                  (calculateHotspotConfidence
                     (mkFactors (List.length g') (calculateCrimeDensity g')
                        (calculateAverageSeverity g') (calculateTimeSpread g'))))
        eqn:Ec.
      + destruct Hyes as (p & -> & _); [|eauto].
        split; [now apply Nat.leb_le|now apply Qle_bool_iff].
      + rewrite Hno; [eauto|]. intros [_ Hc]. apply Qle_bool_iff in Hc.
        congruence.
    - rewrite Hno; [eauto|]. intros [Hc _]. apply Nat.leb_le in Hc.
      congruence. }
  assert (g <> []) as Hne by (destruct g; [simpl in H3; lia|congruence]).
  pose proof (dense_confidence g H3 Hspan) as Hc.
  destruct (hotspot_emitted_iff tz k g Hne) as [Hyes _].
  destruct Hyes as (p & Hp & _ & Hconf); [split; [exact H3|lra]|].
  rewrite <- Object_entries_in in HIn.
  exists out, p. split; [exact Hout|]. split.
  - apply (for_push_complete _ _ _ _ _ Hout HIn Hp). now left.
  - destruct (hotspotOf_inv _ _ _ _ _ Hp (or_introl eq_refl))
      as (_ & _ & _ & _ & Hloc & _ & _ & Hrel & _).
    split; [exact Hloc|]. split; [exact Hrel|]. now rewrite Hconf.
Qed.

Lemma dense_group_is_a_hotspot_witness :
  exists out p,
    detectCrimeHotspots 0%Z sample_incidents = Ok out
    /\ In p out
    /\ plocation p = key_string (Name "main st")
    /\ relatedIncidents p = ids (filter (located_at "main st") sample_incidents)
    /\ ((47 # 100) <= confidence p)%Q.
Proof.
  apply (dense_group_is_a_hotspot 0%Z sample_incidents sample_groups
           (Name "main st") (filter (located_at "main st") sample_incidents)).
  - vm_compute. reflexivity.
  - vm_compute. right. right. right. left. reflexivity.
  - vm_compute. lia.
  - vm_compute. discriminate.
Defined.

(** *** Buckets of hours, days and months *)

Section IndexOrder.

Context {V : Type}.

Lemma insert_idx_sorted (e : PropKey * V) l :
  StronglySorted (fun a b => (idx_of (fst a) <= idx_of (fst b))%N) l ->
  StronglySorted (fun a b => (idx_of (fst a) <= idx_of (fst b))%N)
    (insert_idx e l).
Proof.
  induction 1 as [|y l Hl IH Hy]; simpl.
  - repeat constructor.
  - destruct (idx_of (fst e) <=? idx_of (fst y))%N eqn:E.
    + apply N.leb_le in E. constructor; [now constructor|].
      constructor; [exact E|].
      eapply Forall_impl; [|exact Hy]. intros a Ha. cbv beta in *. lia.
    + apply N.leb_gt in E. constructor; [exact IH|].
      apply Forall_forall. intros a Ha.
      apply (Permutation_in _ (insert_idx_perm e l)) in Ha.
      destruct Ha as [<-|Ha]; [lia|].
      rewrite Forall_forall in Hy. now apply Hy.
Qed.

(** [Object.entries] of a dictionary whose keys are all array indices
    lists them in ascending order. *)
Lemma index_entries_sorted (o : Obj V) :
  (forall e, In e o -> is_idx e = true) ->
  StronglySorted (fun a b => (idx_of (fst a) <= idx_of (fst b))%N)
    (Object_entries o).
Proof.
  intro Hidx. unfold Object_entries.
  assert (filter (fun e => negb (is_idx e)) o = []) as ->.
  { induction o as [|e o IH]; [reflexivity|]. simpl.
    rewrite (Hidx e (or_introl eq_refl)). simpl. apply IH.
    intros e' He'. apply Hidx. now right. }
  rewrite app_nil_r. induction (filter is_idx o) as [|e l IH]; simpl.
  - constructor.
  - now apply insert_idx_sorted.
Qed.

End IndexOrder.

Section BucketFacts.

Variable accessor : Z -> Z.
Hypothesis accessor_nonneg : forall t, (0 <= accessor t)%Z.

Lemma bucket_members m l :
  (0 <= m)%Z ->
  members (fun i => Idx (Z.to_N (accessor (dateTime i)))) (Idx (Z.to_N m)) l
  = filter (in_bucket accessor m) l.
Proof.
  intro Hm. rewrite <- (membersOf_members accessor); [|exact accessor_nonneg].
  unfold membersOf. simpl. now rewrite Z2N.id.
Qed.

Lemma bucket_entry l k c :
  In (k, c) (Object_entries
               (count_by (fun i => Idx (Z.to_N (accessor (dateTime i)))) l)) ->
  exists m,
    (0 <= m)%Z /\ k = Idx (Z.to_N m) /\ c = bucket accessor m l /\ (0 < c)%nat
    /\ exists i, In i l /\ accessor (dateTime i) = m.
Proof.
  intro HIn. destruct (count_by_entry _ _ _ _ HIn) as [Hc Hpos].
  destruct (members _ k l) as [|i g] eqn:Em; [simpl in Hc; lia|].
  assert (In i (members (fun i => Idx (Z.to_N (accessor (dateTime i)))) k l))
    as Hi by (rewrite Em; now left).
  apply filter_In in Hi. destruct Hi as [Hi Hk]. apply key_eqb_eq in Hk.
  exists (accessor (dateTime i)). split; [apply accessor_nonneg|].
  split; [now symmetry|]. split; [|split; [exact Hpos|eauto]].
  unfold bucket. rewrite <- bucket_members by apply accessor_nonneg.
  rewrite Hk, Em. exact Hc.
Qed.

Lemma bucket_has l m :
  (0 < bucket accessor m l)%nat ->
  (0 <= m)%Z
  /\ In (Idx (Z.to_N m), bucket accessor m l)
       (Object_entries
          (count_by (fun i => Idx (Z.to_N (accessor (dateTime i)))) l)).
Proof.
  intro Hpos. unfold bucket in *.
  destruct (filter (in_bucket accessor m) l) as [|i g] eqn:Ef;
    [simpl in Hpos; lia|].
  assert (In i (filter (in_bucket accessor m) l)) as Hi
    by (rewrite Ef; now left).
  apply filter_In in Hi. destruct Hi as [Hi Hm]. apply Z.eqb_eq in Hm.
  assert (0 <= m)%Z as H0 by (rewrite <- Hm; apply accessor_nonneg).
  split; [exact H0|].
  pose proof (count_by_has (fun i => Idx (Z.to_N (accessor (dateTime i))))
                l i Hi) as Hhas.
  cbv beta in Hhas. rewrite Hm in Hhas. rewrite bucket_members in Hhas by exact H0.
  now rewrite Ef in Hhas.
Qed.

Lemma bucket_entries_sorted l :
  StronglySorted (fun a b => (idx_of (fst a) <= idx_of (fst b))%N)
    (Object_entries
       (count_by (fun i => Idx (Z.to_N (accessor (dateTime i)))) l)).
Proof.
  apply index_entries_sorted. intros [k c] He.
  rewrite <- Object_entries_in in He.
  destruct (bucket_entry _ _ _ He) as (m & _ & -> & _). reflexivity.
Qed.

(** The entry that [reduce] keeps is the fullest bucket, the one of the
    greatest index among the fullest. *)
Lemma peak_bucket l :
  l <> [] ->
  exists m,
    reduce1 (pick_larger
               (count_by (fun i => Idx (Z.to_N (accessor (dateTime i)))) l))
      (Object_entries
         (count_by (fun i => Idx (Z.to_N (accessor (dateTime i)))) l))
    = Ok (Idx (Z.to_N m), bucket accessor m l)
    /\ (0 <= m)%Z
    /\ (exists i, In i l /\ accessor (dateTime i) = m)
    /\ (0 < bucket accessor m l)%nat
    /\ (forall m', (bucket accessor m' l <= bucket accessor m l)%nat)
    /\ (forall m', (m < m')%Z -> (bucket accessor m' l < bucket accessor m l)%nat).
Proof.
  intro Hne.
  set (key := fun i => Idx (Z.to_N (accessor (dateTime i)))).
  set (dist := count_by key l). set (entries := Object_entries dist).
  assert (entries <> []) as Hent by (apply count_by_nonempty; exact Hne).
  destruct (reduce1_pick_larger dist entries Hent)
    as ([k c] & pre & post & Hr & Hsplit & Hpre & Hpost).
  assert (forall e, In e entries -> count_of (fst e) dist = snd e) as Hlook
    by (intros e He; now apply count_by_lookup).
  assert (In (k, c) entries) as Hkc
    by (rewrite Hsplit; apply in_or_app; right; now left).
  destruct (bucket_entry l k c Hkc) as (m & Hm & -> & -> & Hpos & Hi).
  exists m. split; [exact Hr|]. split; [exact Hm|]. split; [exact Hi|].
  split; [exact Hpos|].
  rewrite (Hlook _ Hkc) in Hpre, Hpost. cbn [snd fst] in Hpre, Hpost.
  assert (forall e, In e pre -> (snd e <= bucket accessor m l)%nat) as Hpre'.
  { intros e He. rewrite <- (Hlook e); [now apply Hpre|].
    rewrite Hsplit. apply in_or_app. now left. }
  assert (forall e, In e post -> (snd e < bucket accessor m l)%nat) as Hpost'.
  { intros e He. rewrite <- (Hlook e); [now apply Hpost|].
    rewrite Hsplit. apply in_or_app. right. now right. }
  split.
  - intro m'. destruct (Nat.eq_0_gt_0_cases (bucket accessor m' l)) as [->|H0];
      [lia|].
    destruct (bucket_has l m' H0) as [_ He]. fold key dist entries in He.
    rewrite Hsplit in He. apply in_app_or in He.
    destruct He as [He|[He|He]].
    + apply (Hpre' _ He).
    + injection He as _ <-. lia.
    + apply Nat.lt_le_incl. apply (Hpost' _ He).
  - intros m' Hlt.
    destruct (Nat.eq_0_gt_0_cases (bucket accessor m' l)) as [->|H0];
      [exact Hpos|].
    destruct (bucket_has l m' H0) as [Hm' He]. fold key dist entries in He.
    pose proof (bucket_entries_sorted l) as Hsorted.
    fold key dist entries in Hsorted. rewrite Hsplit in Hsorted, He.
    apply in_app_or in He. destruct He as [He|[He|He]].
    + pose proof (StronglySorted_app_inv _ _ _ Hsorted _ _ He
                    (or_introl eq_refl)) as Hle.
      cbn [fst idx_of] in Hle. lia.
    + injection He as He _. lia.
    + apply (Hpost' _ He).
Qed.

End BucketFacts.

(** *** The hour profile of a group *)

(** X10.  The time pattern of a group of incidents names the hour of day
    with the most incidents, the latest such hour when several hours tie,
    and carries the count of every hour; on an empty group the reduction
    throws. *)
Theorem time_pattern_names_the_peak_hour tz g :
  (exists what, analyzeLocationTimePattern tz [] = Throw (TypeError what))
  /\ (g <> [] ->
      exists h,
        analyzeLocationTimePattern tz g
        = Ok (HourDistribution (Some h) (count_by (hourKey tz) g))
        /\ (0 <= h < 24)%Z
        /\ (0 < bucket (getHours tz) h g)%nat
        /\ (forall h', (bucket (getHours tz) h' g <= bucket (getHours tz) h g)%nat)
        /\ (forall h', (h < h')%Z ->
              (bucket (getHours tz) h' g < bucket (getHours tz) h g)%nat)
        /\ (forall h', (0 <= h')%Z ->
              count_of (Idx (Z.to_N h')) (count_by (hourKey tz) g)
              = bucket (getHours tz) h' g)
        /\ list_sum (map snd (count_by (hourKey tz) g)) = List.length g).
Proof.
  split; [eexists; reflexivity|]. intro Hne.
  assert (forall t, (0 <= getHours tz t)%Z) as Hpos
    by (intro t; apply getHours_range).
  destruct (peak_bucket (getHours tz) Hpos g Hne)
    as (h & Hr & Hh & (i & Hi & Hhi) & H0 & Hmax & Hlast).
  exists h. unfold analyzeLocationTimePattern.
  change (fun i => Idx (Z.to_N (getHours tz (dateTime i)))) with (hourKey tz) in Hr.
  rewrite Hr. cbn [rbind fst parseInt_key]. rewrite Z2N.id by exact Hh.
  split; [reflexivity|]. split; [rewrite <- Hhi; apply getHours_range|].
  split; [exact H0|]. split; [exact Hmax|]. split; [exact Hlast|].
  pose proof (count_by_counts (hourKey tz) g) as Hcounts. split.
  - intros h' Hh'. rewrite (counts_value _ _ _ Hcounts).
    unfold bucket. f_equal. now apply (bucket_members (getHours tz)).
  - apply (counts_sum _ _ _ Hcounts).
Qed.

(** *** The seasonal analysis *)

Lemma month_name m :
  (0 <= m <= 11)%Z -> In (nameAt monthNames (Idx (Z.to_N m))) monthNames.
Proof.
  intro H. unfold nameAt. apply nth_In. simpl. lia.
Qed.

(** X11.  The seasonal analysis throws on an empty incident list.
    Otherwise it looks at the month with the most incidents, the latest
    such month of the calendar when several tie, and reports it exactly
    when it has at least four incidents. *)
Theorem seasonal_pattern_is_the_fullest_month tz incidents :
  (exists what, detectSeasonalPatterns tz [] = Throw (TypeError what))
  /\ (incidents <> [] ->
      exists m,
        (0 <= m <= 11)%Z
        /\ (forall m', (bucket (getMonth tz) m' incidents
                        <= bucket (getMonth tz) m incidents)%nat)
        /\ (forall m', (m < m')%Z ->
              (bucket (getMonth tz) m' incidents
               < bucket (getMonth tz) m incidents)%nat)
        /\ ((bucket (getMonth tz) m incidents < 4)%nat ->
            detectSeasonalPatterns tz incidents = Ok [])
        /\ ((4 <= bucket (getMonth tz) m incidents)%nat ->
            exists p,
              detectSeasonalPatterns tz incidents = Ok [p]
              /\ subtype p = Some "seasonal"%string
              /\ timePattern p
                 = PeakMonthFrequency (nth (Z.to_nat m) monthNames "undefined"%string)
                     (bucket (getMonth tz) m incidents)
              /\ In (nth (Z.to_nat m) monthNames "undefined"%string) monthNames
              /\ relatedIncidents p
                 = ids (filter (in_bucket (getMonth tz) m) incidents)
              /\ confidence p
                 = Qmin (8 # 10)
                     (Qn (bucket (getMonth tz) m incidents)
                      / Qn (List.length incidents) * 2))).
Proof.
  split; [eexists; reflexivity|]. intro Hne.
  assert (forall t, (0 <= getMonth tz t)%Z) as Hpos
    by (intro t; apply getMonth_range).
  destruct (peak_bucket (getMonth tz) Hpos incidents Hne)
    as (m & Hr & Hm & (i & Hi & Hmi) & H0 & Hmax & Hlast).
  assert (0 <= m <= 11)%Z as Hrange by (rewrite <- Hmi; apply getMonth_range).
  exists m. split; [exact Hrange|]. split; [exact Hmax|]. split; [exact Hlast|].
  unfold detectSeasonalPatterns.
  change (fun i => Idx (Z.to_N (getMonth tz (dateTime i)))) with (monthKey tz) in Hr.
  rewrite Hr. cbn [rbind fst snd]. split; intro Hc.
  - apply Nat.leb_gt in Hc. now rewrite Hc.
  - apply Nat.leb_le in Hc. rewrite Hc. eexists. split; [reflexivity|].
    cbn [subtype timePattern relatedIncidents confidence].
    assert (nameAt monthNames (Idx (Z.to_N m))
            = nth (Z.to_nat m) monthNames "undefined"%string) as Hname.
    { unfold nameAt. now rewrite Z_N_nat. }
    split; [reflexivity|]. split; [now rewrite Hname|].
    split; [rewrite <- Hname; now apply month_name|]. split; [|reflexivity].
    f_equal. rewrite (membersOf_members (getMonth tz)) by exact Hpos.
    now apply bucket_members.
Qed.

(** *** Hourly and daily peaks *)

Lemma hourlyOf_length tz incidents (l : list (PropKey * nat)) :
  (3 * List.length (flat_map (hourlyOf tz incidents) l)
   <= list_sum (map snd l))%nat.
Proof.
  induction l as [|[k c] l IH]; [simpl; lia|].
  assert (3 * List.length (hourlyOf tz incidents (k, c)) <= c)%nat as Hc.
  { unfold hourlyOf. cbn [fst snd].
    destruct (3 <=? c)%nat eqn:E; cbn [List.length];
      [apply Nat.leb_le in E|]; lia. }
  cbn [flat_map map snd]. rewrite length_app.
  change (list_sum (c :: map snd l)) with (c + list_sum (map snd l))%nat.
  lia.
Qed.

Lemma dailyOf_length tz incidents (l : list (PropKey * nat)) :
  (3 * List.length (flat_map (dailyOf tz incidents) l)
   <= list_sum (map snd l))%nat.
Proof.
  induction l as [|[k c] l IH]; [simpl; lia|].
  assert (3 * List.length (dailyOf tz incidents (k, c)) <= c)%nat as Hc.
  { unfold dailyOf. cbn [fst snd].
    destruct (3 <=? c)%nat eqn:E; cbn [List.length];
      [apply Nat.leb_le in E|]; lia. }
  cbn [flat_map map snd]. rewrite length_app.
  change (list_sum (c :: map snd l)) with (c + list_sum (map snd l))%nat.
  lia.
Qed.

Lemma flat_map_length_le {A B} (f : A -> list B) (l : list A) :
  (forall x, (List.length (f x) <= 1)%nat) ->
  (List.length (flat_map f l) <= List.length l)%nat.
Proof.
  intro H. induction l as [|x l IH]; simpl; [lia|].
  rewrite length_app. specialize (H x). lia.
Qed.

Lemma list_sum_firstn n (l : list (PropKey * nat)) :
  (list_sum (map snd (firstn n l)) <= list_sum (map snd l))%nat.
Proof.
  revert n. induction l as [|x l IH]; intros [|n]; simpl; try lia.
  specialize (IH n). lia.
Qed.

Lemma list_sum_perm (l l' : list (PropKey * nat)) :
  Permutation l l' -> list_sum (map snd l) = list_sum (map snd l').
Proof.
  induction 1; simpl; lia.
Qed.

Lemma ranked_sum (key : Incident -> PropKey) incidents n :
  (list_sum
     (map snd (firstn n (sort_by byCountDesc
                           (Object_entries (count_by key incidents)))))
   <= List.length incidents)%nat.
Proof.
  etransitivity; [apply list_sum_firstn|].
  rewrite (list_sum_perm _ _ (sort_by_perm _ _)).
  rewrite (list_sum_perm _ _ (Object_entries_perm _)).
  now rewrite (counts_sum _ _ _ (count_by_counts key incidents)).
Qed.

(** X12.  The temporal analysis reports at most three hours, two days of
    the week and one month, and every reported hour and day stands for
    three incidents of its own: at most six patterns in all, and fewer
    on small incident sets. *)
Theorem temporal_patterns_are_few tz incidents :
  (List.length (detectHourlyPatterns tz incidents) <= 3)%nat
  /\ (3 * List.length (detectHourlyPatterns tz incidents)
      <= List.length incidents)%nat
  /\ (List.length (detectDailyPatterns tz incidents) <= 2)%nat
  /\ (3 * List.length (detectDailyPatterns tz incidents)
      <= List.length incidents)%nat
  /\ (forall out, detectSeasonalPatterns tz incidents = Ok out ->
        (List.length out <= 1)%nat)
  /\ (forall out, analyzeTemporalPatterns tz incidents = Ok out ->
        (List.length out <= 6)%nat).
Proof.
  assert (List.length (detectHourlyPatterns tz incidents) <= 3)%nat as Hh.
  { unfold detectHourlyPatterns.
    etransitivity; [apply flat_map_length_le|apply firstn_le_length].
    intros [k c]. unfold hourlyOf. cbn [fst snd].
    destruct (3 <=? c)%nat; simpl; lia. }
  assert (List.length (detectDailyPatterns tz incidents) <= 2)%nat as Hd.
  { unfold detectDailyPatterns.
    etransitivity; [apply flat_map_length_le|apply firstn_le_length].
    intros [k c]. unfold dailyOf. cbn [fst snd].
    destruct (3 <=? c)%nat; simpl; lia. }
  assert (forall out, detectSeasonalPatterns tz incidents = Ok out ->
            (List.length out <= 1)%nat) as Hs.
  { intros out. unfold detectSeasonalPatterns.
    destruct (reduce1 _ _) as [maxMonth|]; cbn [rbind]; [|discriminate].
    destruct (4 <=? snd maxMonth)%nat; intros [= <-]; simpl; lia. }
  split; [exact Hh|]. split.
  { unfold detectHourlyPatterns.
    etransitivity; [apply hourlyOf_length|apply ranked_sum]. }
  split; [exact Hd|]. split.
  { unfold detectDailyPatterns.
    etransitivity; [apply dailyOf_length|apply ranked_sum]. }
  split; [exact Hs|].
  intros out. unfold analyzeTemporalPatterns.
  destruct (detectSeasonalPatterns tz incidents) as [seasonal|] eqn:Es;
    cbn [rbind]; [|discriminate].
  intros [= <-]. rewrite !length_app. specialize (Hs seasonal eq_refl). lia.
Qed.

Lemma filter_length_perm {A} (f : A -> bool) (l l' : list A) :
  Permutation l l' -> List.length (filter f l) = List.length (filter f l').
Proof.
  induction 1 as [|x l l' _ IH|x y l|l l' l'' _ IH1 _ IH2]; simpl.
  - reflexivity.
  - destruct (f x); simpl; now rewrite IH.
  - destruct (f x), (f y); reflexivity.
  - now rewrite IH1.
Qed.

Section Ranked.

Variable entries : list (PropKey * nat).

(** Fewer than [n] entries are larger than one of the first [n] of the
    descending order. *)
Lemma few_larger_entries n e :
  In e (firstn n (sort_by byCountDesc entries)) ->
  (List.length (filter (fun e' => (snd e <? snd e')%nat) entries) < n)%nat.
Proof.
  intro He.
  set (larger := fun e' : PropKey * nat => (snd e <? snd e')%nat).
  set (ranked := sort_by byCountDesc entries) in *.
  assert (List.length (filter larger entries)
          = List.length (filter larger ranked)) as ->.
  { apply filter_length_perm. symmetry. apply sort_by_perm. }
  rewrite <- (firstn_skipn n ranked) at 1. rewrite filter_app, length_app.
  assert (filter larger (skipn n ranked) = []) as ->.
  { pose proof (byCountDesc_sorted entries) as Hs. fold ranked in Hs.
    rewrite <- (firstn_skipn n ranked) in Hs.
    destruct (filter larger (skipn n ranked)) as [|x rest] eqn:Ef;
      [reflexivity|exfalso].
    assert (In x (filter larger (skipn n ranked))) as Hx
      by (rewrite Ef; now left).
    apply filter_In in Hx. destruct Hx as [Hx Hl].
    pose proof (StronglySorted_app_inv _ _ _ Hs _ _ He Hx) as Hle.
    cbv beta in Hle. unfold larger in Hl. apply Nat.ltb_lt in Hl. lia. }
  simpl. rewrite Nat.add_0_r.
  pose proof (filter_length larger (firstn n ranked)) as Hsplit.
  pose proof (firstn_le_length n ranked) as Hle.
  assert (In e (filter (fun x => negb (larger x)) (firstn n ranked))) as Hin.
  { apply filter_In. split; [exact He|]. unfold larger.
    now rewrite Nat.ltb_irrefl. }
  destruct (filter (fun x => negb (larger x)) (firstn n ranked));
    [destruct Hin|]. simpl in Hsplit. lia.
Qed.

End Ranked.

Lemma day_name d :
  (0 <= d < 7)%Z -> In (nameAt dayNames (Idx (Z.to_N d))) dayNames.
Proof.
  intro H. unfold nameAt. apply nth_In. simpl. lia.
Qed.

(** X13.  A daily pattern names a day of the week that has at least three
    incidents and relates exactly the incidents of that day; fewer than
    two days of the week have more incidents than a reported day. *)
Theorem daily_patterns_are_peak_days tz incidents p :
  In p (detectDailyPatterns tz incidents) ->
  exists d,
    (0 <= d < 7)%Z
    /\ subtype p = Some "daily"%string
    /\ timePattern p
       = PeakDayFrequency (nth (Z.to_nat d) dayNames "undefined"%string)
           (bucket (getDay tz) d incidents)
    /\ In (nth (Z.to_nat d) dayNames "undefined"%string) dayNames
    /\ (3 <= bucket (getDay tz) d incidents)%nat
    /\ relatedIncidents p = ids (filter (in_bucket (getDay tz) d) incidents)
    /\ confidence p
       = Qmin (85 # 100)
           (Qn (bucket (getDay tz) d incidents) / Qn (List.length incidents) * 3)
    /\ (List.length
          (filter (fun e => (bucket (getDay tz) d incidents <? snd e)%nat)
             (Object_entries (count_by (dayKey tz) incidents))) < 2)%nat.
Proof.
  intro Hp. unfold detectDailyPatterns in Hp. apply in_flat_map in Hp.
  destruct Hp as ([k c] & He & Hp).
  assert (forall t, (0 <= getDay tz t)%Z) as Hpos
    by (intro t; apply getDay_range).
  pose proof (few_larger_entries _ _ _ He) as Hfew. cbn [snd] in Hfew.
  pose proof He as He'. apply in_firstn in He'. apply sort_by_in in He'.
  destruct (bucket_entry (getDay tz) Hpos incidents k c He')
    as (d & Hd & -> & -> & _ & (i & _ & Hdi)).
  assert (0 <= d < 7)%Z as Hrange by (rewrite <- Hdi; apply getDay_range).
  exists d. split; [exact Hrange|].
  unfold dailyOf in Hp. cbn [fst snd] in Hp.
  destruct (3 <=? bucket (getDay tz) d incidents)%nat eqn:E3; [|destruct Hp].
  destruct Hp as [<-|[]]. cbn [subtype timePattern relatedIncidents confidence].
  assert (nameAt dayNames (Idx (Z.to_N d))
          = nth (Z.to_nat d) dayNames "undefined"%string) as Hname.
  { unfold nameAt. now rewrite Z_N_nat. }
  split; [reflexivity|]. split; [now rewrite Hname|].
  split; [rewrite <- Hname; now apply day_name|].
  split; [now apply Nat.leb_le|]. split; [|split; [reflexivity|exact Hfew]].
  f_equal. rewrite (membersOf_members (getDay tz)) by exact Hpos.
  now apply bucket_members.
Qed.

Lemma daily_patterns_are_peak_days_witness :
  exists d,
    (0 <= d < 7)%Z
    /\ subtype (hd no_pattern (detectDailyPatterns 0%Z sample_incidents))
       = Some "daily"%string
    /\ timePattern (hd no_pattern (detectDailyPatterns 0%Z sample_incidents))
       = PeakDayFrequency (nth (Z.to_nat d) dayNames "undefined"%string)
           (bucket (getDay 0%Z) d sample_incidents)
    /\ In (nth (Z.to_nat d) dayNames "undefined"%string) dayNames
    /\ (3 <= bucket (getDay 0%Z) d sample_incidents)%nat
    /\ relatedIncidents (hd no_pattern (detectDailyPatterns 0%Z sample_incidents))
       = ids (filter (in_bucket (getDay 0%Z) d) sample_incidents)
    /\ confidence (hd no_pattern (detectDailyPatterns 0%Z sample_incidents))
       = Qmin (85 # 100)
           (Qn (bucket (getDay 0%Z) d sample_incidents)
            / Qn (List.length sample_incidents) * 3)
    /\ (List.length
          (filter (fun e => (bucket (getDay 0%Z) d sample_incidents <? snd e)%nat)
             (Object_entries (count_by (dayKey 0%Z) sample_incidents))) < 2)%nat.
Proof.
  apply (daily_patterns_are_peak_days 0%Z sample_incidents).
  vm_compute. left. reflexivity.
Defined.

(** *** Coordinates *)




(** *** The severity average *)

Lemma Qn_nonzero n : (0 < n)%nat -> ~ (Qn n == 0)%Q.
Proof.
  intros H H0. apply Qn_pos in H. rewrite H0 in H.
  now apply Qlt_irrefl in H.
Qed.

Lemma severity_total_of_weight w l : forall a,
  Forall (fun i => severityWeight (severity i) = w) l ->
  (fold_left (fun sum inc => sum + severityWeight (severity inc)) l a
   = a + w * List.length l)%nat.
Proof.
  induction l as [|i l IH]; intros a H; simpl; [lia|].
  inversion H as [|? ? Hi Hl]; subst. rewrite IH by assumption. lia.
Qed.

(** X15.  The average severity of a non-empty group lies between 1 and 4.
    Labels missing from the service's table weigh like [low]: a group
    labelled only [low], [minor], [moderate] or [serious] averages exactly
    1, and only a group that is all [critical] averages 4. *)
Theorem average_severity_weighs_unknown_labels_as_low g :
  g <> [] ->
  (1 <= calculateAverageSeverity g <= 4)%Q
  /\ (Forall (fun i => In (severity i) [low; minor; moderate; serious]) g ->
      calculateAverageSeverity g == 1)
  /\ (calculateAverageSeverity g == 4 ->
      Forall (fun i => severity i = critical) g).
Proof.
  intro Hne.
  assert (0 < List.length g)%nat as Hpos
    by (destruct g; [congruence|simpl; lia]).
  pose proof (Qn_nonzero _ Hpos) as Hlen.
  split; [split; [now apply calculateAverageSeverity_ge_1
                 |apply calculateAverageSeverity_bounds]|].
  unfold calculateAverageSeverity. split.
  - intro H. rewrite (severity_total_of_weight 1).
    + replace (0 + 1 * List.length g)%nat with (List.length g) by lia.
      unfold Qdiv. now apply Qmult_inv_r.
    + eapply Forall_impl; [|exact H]. intros i Hi. simpl in Hi.
      destruct Hi as [<-|[<-|[<-|[<-|[]]]]]; reflexivity.
  - intro H4.
    assert (fold_left (fun sum inc => sum + severityWeight (severity inc)) g 0
            = 4 * List.length g)%nat as Htotal.
    { apply Nat2Z.inj. rewrite Nat2Z.inj_mul.
      apply inject_Z_injective. rewrite inject_Z_mult.
      change (inject_Z (Z.of_nat (List.length g))) with (Qn (List.length g)).
      change (inject_Z (Z.of_nat 4)) with 4%Q.
      set (total := inject_Z _) in *. change total with (Qn
        (fold_left (fun sum inc => sum + severityWeight (severity inc))%nat g 0%nat))
        in H4 |- *.
      clear total.
      set (t := Qn (fold_left _ g 0%nat)) in *.
      set (n := Qn (List.length g)) in *.
      setoid_replace t with (t / n * n)%Q by (field; exact Hlen).
      rewrite H4. reflexivity. }
    clear H4 Hlen Hne Hpos. revert Htotal.
    assert (forall l a,
              (fold_left (fun sum inc => sum + severityWeight (severity inc)) l a
               = a + 4 * List.length l)%nat ->
              Forall (fun i => severity i = critical) l) as Hall.
    { induction l as [|i l IH]; intros a H; [constructor|]. simpl in H.
      pose proof (severity_total_le l (a + severityWeight (severity i))%nat) as [_ Hle].
      assert (severityWeight (severity i) <= 4)%nat as Hw
        by (destruct (severity i); cbv; lia).
      assert (severityWeight (severity i) = 4%nat) as Hi by lia.
      constructor.
      - destruct (severity i); try discriminate Hi; reflexivity.
      - apply (IH (a + severityWeight (severity i))%nat). lia. }
    intro Htotal. apply (Hall g 0%nat). simpl. exact Htotal.
Qed.

Lemma average_severity_weighs_unknown_labels_as_low_witness :
  (1 <= calculateAverageSeverity sample_incidents <= 4)%Q
  /\ (Forall (fun i => In (severity i) [low; minor; moderate; serious])
        sample_incidents ->
      calculateAverageSeverity sample_incidents == 1)
  /\ (calculateAverageSeverity sample_incidents == 4 ->
      Forall (fun i => severity i = critical) sample_incidents).
Proof.
  apply (average_severity_weighs_unknown_labels_as_low sample_incidents).
  discriminate.
Defined.

(** *** Statistics *)

Lemma last_of_descending (l : list Incident) :
  StronglySorted (fun a b => (dateTime b <= dateTime a)%Z) l ->
  forall d i, In i l -> (dateTime (last l d) <= dateTime i)%Z.
Proof.
  induction 1 as [|y l Hl IH Hy]; intros d i Hi; [destruct Hi|].
  destruct l as [|z l'].
  - destruct Hi as [<-|[]]. simpl. lia.
  - change (last (y :: z :: l') d) with (last (z :: l') d).
    destruct Hi as [<-|Hi]; [|now apply IH].
    rewrite Forall_forall in Hy. apply Hy.
    destruct (exists_last (l := z :: l')) as (l0 & x & Hx); [discriminate|].
    rewrite Hx, last_last. apply in_or_app. right. now left.
Qed.

(** X16.  The basic statistics add up: both distributions have distinct
    keys, positive counts that sum to the number of incidents, and the
    count of each crime type; the time range is absent exactly on an empty
    set, and when the incidents come latest first, as the store returns
    them, it spans all of them. *)
Theorem basic_statistics_add_up incidents :
  let stats := generateBasicStats incidents in
  totalIncidents stats = List.length incidents
  /\ counts typeKey (statsCrimeTypes stats) incidents
  /\ counts severityKey (statsSeverity stats) incidents
  /\ (forall t,
        count_of (Name (crimeTypeName t)) (statsCrimeTypes stats)
        = List.length (filter (of_type (crimeTypeName t)) incidents))
  /\ (statsTimeRange stats = None <-> incidents = [])
  /\ (StronglySorted (fun a b => (dateTime b <= dateTime a)%Z) incidents ->
      forall range, statsTimeRange stats = Some range ->
        forall i, In i incidents ->
          (fst range <= dateTime i <= snd range)%Z).
Proof.
  cbv zeta. unfold generateBasicStats.
  cbn [totalIncidents statsCrimeTypes statsSeverity statsTimeRange].
  split; [reflexivity|]. split; [apply count_by_counts|].
  split; [apply count_by_counts|]. split; [|split].
  - intro t. unfold getCrimeTypeDistribution.
    rewrite (counts_value _ _ _ (count_by_counts typeKey incidents)).
    reflexivity.
  - destruct incidents; split; congruence.
  - intros Hsorted range Hrange i Hi.
    destruct incidents as [|first rest]; [destruct Hi|].
    injection Hrange as <-. cbn [fst snd]. split.
    + exact (last_of_descending _ Hsorted first i Hi).
    + destruct Hi as [<-|Hi]; [lia|].
      inversion Hsorted as [|? ? _ Hfirst]; subst.
      rewrite Forall_forall in Hfirst. now apply Hfirst.
Qed.

Lemma confidence_tiers_total l : forall d,
  tierTotal
    (fold_left
       (fun d p =>
          if Qle_bool (7 # 10) (confidence p)
          then mkTiers (tierHigh d + 1) (tierMedium d) (tierLow d)
          else if Qle_bool (5 # 10) (confidence p)
          then mkTiers (tierHigh d) (tierMedium d + 1) (tierLow d)
          else mkTiers (tierHigh d) (tierMedium d) (tierLow d + 1))
       l d)
  = (tierTotal d + List.length l)%nat.
Proof.
  induction l as [|p l IH]; intro d; simpl; [unfold tierTotal; lia|].
  rewrite IH.
  destruct (Qle_bool (7 # 10) (confidence p));
    [|destruct (Qle_bool (5 # 10) (confidence p))];
    unfold tierTotal; simpl; lia.
Qed.

Lemma risk_tiers_total l : forall d,
  tierTotal
    (fold_left
       (fun d p =>
          match riskLevel p with
          | RiskHigh => mkTiers (tierHigh d + 1) (tierMedium d) (tierLow d)
          | RiskMedium => mkTiers (tierHigh d) (tierMedium d + 1) (tierLow d)
          | RiskLow => mkTiers (tierHigh d) (tierMedium d) (tierLow d + 1)
          end)
       l d)
  = (tierTotal d + List.length l)%nat.
Proof.
  induction l as [|p l IH]; intro d; simpl; [unfold tierTotal; lia|].
  rewrite IH. destruct (riskLevel p); unfold tierTotal; simpl; lia.
Qed.

(** *** The orchestrator *)

Section RunShape.

Variables (now tz : Z) (find : MongoFilter -> Res (list Incident)).

(** What a run returns once the six detectors have returned. *)
Lemma run_of_detectors options incidents hs tp cs gc ph ra :
  filteredSet now find options = Ok incidents ->
  (3 <= List.length incidents)%nat ->
  detectCrimeHotspots tz incidents = Ok hs ->
  analyzeTemporalPatterns tz incidents = Ok tp ->
  detectCrimeSeries tz incidents = Ok cs ->
  performGeographicClustering incidents = Ok gc ->
  predictFutureHotspots now tz incidents = Ok ph ->
  assessAreaRisk now tz incidents = Ok ra ->
  runComprehensiveAnalysis now tz find options
  = ([ ConsoleLog startLine;
       Invoked DetectCrimeHotspots; Invoked AnalyzeTemporalPatterns;
       Invoked DetectCrimeSeries; Invoked PerformGeographicClustering;
       Invoked PredictFutureHotspots; Invoked AssessAreaRisk;
       ConsoleLog
         ("Analysis complete. Found "
            ++ string_of_nat
                 (List.length
                    (rankedPatterns (requestedMinConfidence options)
                       (hs ++ tp ++ cs ++ gc ++ ph ++ ra)))
            ++ " patterns.") ],
     Ok (mkAnalysisResult true None
           (rankedPatterns (requestedMinConfidence options)
              (hs ++ tp ++ cs ++ gc ++ ph ++ ra))
           (generateAdvancedStats incidents
              (mkAnalysisResults hs tp cs gc ph ra))
           (Some (mkMetadata now (List.length incidents)
                    (requestedTimeRange options)
                    [ "hotspots"; "temporalPatterns"; "crimeSeries";
                      "geographicClusters"; "predictiveHotspots";
                      "riskAssessment" ]%string)))).
Proof.
  intros Hset H3 H1 H2 H4 H5 H6 H7.
  unfold filteredSet, requestedTimeRange in Hset.
  unfold runComprehensiveAnalysis, rankedPatterns, requestedMinConfidence,
    requestedTimeRange, keeps, startLine.
  unfold mbind at 1. unfold console_log. unfold mbind at 1. unfold lift.
  rewrite Hset. apply Nat.ltb_ge in H3. rewrite H3.
  unfold mbind, invoke. rewrite H1, H2, H4, H5, H6, H7.
  unfold console_log, mret. reflexivity.
Qed.

(** A successful run has run the six detectors. *)
Lemma run_success_inv options trace result :
  runComprehensiveAnalysis now tz find options = (trace, Ok result) ->
  success result = true ->
  exists incidents hs tp cs gc ph ra,
    filteredSet now find options = Ok incidents
    /\ (3 <= List.length incidents)%nat
    /\ detectCrimeHotspots tz incidents = Ok hs
    /\ analyzeTemporalPatterns tz incidents = Ok tp
    /\ detectCrimeSeries tz incidents = Ok cs
    /\ performGeographicClustering incidents = Ok gc
    /\ predictFutureHotspots now tz incidents = Ok ph
    /\ assessAreaRisk now tz incidents = Ok ra.
Proof.
  intros Hrun Hsucc.
  destruct (run_returns_inv _ _ _ _ _ _ Hrun) as (incidents & Hset & Hcase).
  destruct Hcase as [(_ & _ & ->)|(H3 & _ & emitted & Hem & _)];
    [discriminate|].
  destruct Hem as (hs & tp & cs & gc & ph & ra & H1 & H2 & H4 & H5 & H6 & H7 & _).
  exists incidents, hs, tp, cs, gc, ph, ra. repeat split; assumption.
Qed.

End RunShape.

(** X17.  The statistics of a successful run count every detected pattern,
    whatever the requested minimum confidence: the confidence tiers and
    the risk tiers each sum to the total of the six per-detector counts,
    and the run returns at most that many patterns. *)
Theorem statistics_count_every_detected_pattern
    now tz find options trace result :
  runComprehensiveAnalysis now tz find options = (trace, Ok result) ->
  success result = true ->
  exists a,
    advanced (runStatistics result) = Some a
    /\ map fst (patternsDetected a)
       = [ "hotspots"; "temporalPatterns"; "crimeSeries"; "geographicClusters";
           "predictiveHotspots"; "riskAssessments" ]%string
    /\ tierTotal (confidenceDistribution a)
       = list_sum (map snd (patternsDetected a))
    /\ tierTotal (riskLevelDistribution a)
       = list_sum (map snd (patternsDetected a))
    /\ (List.length (patterns result)
        <= list_sum (map snd (patternsDetected a)))%nat.
Proof.
  intros Hrun Hsucc.
  destruct (run_success_inv _ _ _ _ _ _ Hrun Hsucc)
    as (incidents & hs & tp & cs & gc & ph & ra
        & Hset & H3 & H1 & H2 & H4 & H5 & H6 & H7).
  rewrite (run_of_detectors now tz find options incidents hs tp cs gc ph ra)
    in Hrun by assumption.
  injection Hrun as _ <-.
  cbn [runStatistics generateAdvancedStats advanced patterns].
  eexists. split; [reflexivity|].
  cbn [patternsDetected confidenceDistribution riskLevelDistribution map fst snd].
  assert (list_sum
            [List.length hs; List.length tp; List.length cs; List.length gc;
             List.length ph; List.length ra]
          = List.length (hs ++ tp ++ cs ++ gc ++ ph ++ ra)) as Hsum
    by (rewrite !length_app; simpl; lia).
  cbn [hotspots temporalPatterns crimeSeries geographicClusters
         predictiveHotspots riskAssessment].
  rewrite Hsum. split; [reflexivity|]. split; [|split].
  - unfold calculateConfidenceDistribution. rewrite confidence_tiers_total.
    reflexivity.
  - unfold calculateRiskDistribution. rewrite risk_tiers_total. reflexivity.
  - unfold rankedPatterns.
    rewrite (Permutation_length (sort_by_perm _ _)). apply filter_length_le.
Qed.

Lemma statistics_count_every_detected_pattern_witness :
  exists a,
    advanced (runStatistics (result_of sample_incidents)) = Some a
    /\ map fst (patternsDetected a)
       = [ "hotspots"; "temporalPatterns"; "crimeSeries"; "geographicClusters";
           "predictiveHotspots"; "riskAssessments" ]%string
    /\ tierTotal (confidenceDistribution a)
       = list_sum (map snd (patternsDetected a))
    /\ tierTotal (riskLevelDistribution a)
       = list_sum (map snd (patternsDetected a))
    /\ (List.length (patterns (result_of sample_incidents))
        <= list_sum (map snd (patternsDetected a)))%nat.
Proof.
  apply (statistics_count_every_detected_pattern sample_now 0%Z
           (sample_store sample_incidents) default_options
           (fst (run_of sample_incidents)) (result_of sample_incidents)).
  - vm_compute. reflexivity.
  - vm_compute. reflexivity.
Defined.

(** X18.  When the query of the incident store throws, the run throws the
    same exception after its first log line, and invokes no detector. *)
Theorem query_failure_aborts_the_run now tz find options e :
  filteredSet now find options = Throw e ->
  runComprehensiveAnalysis now tz find options
  = ([ConsoleLog startLine], Throw e).
Proof.
  intro Hset. unfold filteredSet, requestedTimeRange in Hset.
  unfold runComprehensiveAnalysis.
  unfold mbind at 1. unfold console_log. unfold mbind at 1. unfold lift.
  rewrite Hset. reflexivity.
Qed.

Lemma query_failure_aborts_the_run_witness :
  runComprehensiveAnalysis sample_now 0%Z failing_store default_options
  = ([ConsoleLog startLine], Throw QueryError).
Proof.
  apply (query_failure_aborts_the_run sample_now 0%Z failing_store
           default_options QueryError).
  reflexivity.
Defined.

(** *** Detectors that return *)

Lemma well_located_safe i : well_located i <-> safe locationKey i.
Proof.
  unfold well_located, safe, key_of, locationKey. split.
  - intros (s & -> & Hp). split; eauto.
  - intros [[k Hk] Hp]. destruct (location i) as [s|]; [eauto|discriminate].
Qed.

Lemma located_groups_return l :
  Forall well_located l -> exists groups, groupByLocation l = Ok groups.
Proof.
  intro H. apply group_into_returns.
  eapply Forall_impl; [|exact H]. intro i. apply well_located_safe.
Qed.

Lemma hotspotOf_returns tz k g :
  g <> [] -> exists here, hotspotOf tz (k, g) = Ok here.
Proof.
  intro Hne. unfold hotspotOf. cbn [fst snd].
  destruct (3 <=? List.length g)%nat; [|eauto].
  destruct (Qle_bool (4 # 10) _); [|eauto].
  destruct (classifyHotspotType_returns g Hne) as [d ->].
  destruct (analyzeLocationTimePattern_returns tz g Hne) as [w ->].
  cbn [rbind]. eauto.
Qed.

Lemma riskOf_returns now tz k g :
  g <> [] -> exists here, riskOf now tz (k, g) = Ok here.
Proof.
  intro Hne. unfold riskOf. cbn [fst snd].
  destruct (Qle_bool (5 # 10) _); [|eauto].
  destruct (analyzeLocationTimePattern_returns tz g Hne) as [w ->].
  cbn [rbind]. eauto.
Qed.

Lemma detectors_return now tz incidents :
  incidents <> [] ->
  Forall well_located incidents ->
  exists hs tp cs gc ph ra,
    detectCrimeHotspots tz incidents = Ok hs
    /\ analyzeTemporalPatterns tz incidents = Ok tp
    /\ detectCrimeSeries tz incidents = Ok cs
    /\ performGeographicClustering incidents = Ok gc
    /\ predictFutureHotspots now tz incidents = Ok ph
    /\ assessAreaRisk now tz incidents = Ok ra.
Proof.
  intros Hne Hloc.
  destruct (located_groups_return _ Hloc) as [groups EG].
  assert (forall e, In e (Object_entries groups) -> snd e <> []) as Hgroups.
  { intros e He. apply (location_entry _ _ _ EG He). }
  assert (exists hs, detectCrimeHotspots tz incidents = Ok hs) as [hs H1].
  { unfold detectCrimeHotspots. rewrite EG. cbn [rbind].
    apply for_push_returns. intros [k g] He.
    apply hotspotOf_returns. apply (Hgroups _ He). }
  assert (exists tp, analyzeTemporalPatterns tz incidents = Ok tp) as [tp H2].
  { unfold analyzeTemporalPatterns, detectSeasonalPatterns.
    destruct (reduce1_pick_larger (count_by (monthKey tz) incidents)
                (Object_entries (count_by (monthKey tz) incidents)))
      as (r & _ & _ & -> & _); [now apply count_by_nonempty|].
    cbn [rbind]. destruct (4 <=? snd r)%nat; cbn [rbind]; eauto. }
  assert (exists cs, detectCrimeSeries tz incidents = Ok cs) as [cs H3].
  { unfold detectCrimeSeries.
    destruct (groupByCrimeType_returns incidents) as [tgroups Hrun].
    rewrite Hrun. cbn [rbind]. apply for_push_returns. intros [k g] He.
    rewrite Object_entries_in in He.
    destruct (type_group _ _ _ _ Hrun He) as (Hg & _ & _).
    destruct (seriesOf_emits tz k g Hg) as [H4 Hlt].
    destruct (Nat.le_gt_cases 4 (List.length g)) as [H|H].
    - destruct (H4 H) as (p & -> & _). eauto.
    - rewrite (Hlt H). eauto. }
  assert (exists gc, performGeographicClustering incidents = Ok gc) as [gc H4].
  { unfold performGeographicClustering.
    destruct (map_res_locationData_returns incidents) as [data ->];
      [|cbn [rbind]; eauto].
    eapply Forall_impl; [|exact Hloc]. intros i (s & -> & _). discriminate. }
  assert (exists ph, predictFutureHotspots now tz incidents = Ok ph) as [ph H5].
  { unfold predictFutureHotspots.
    destruct (located_groups_return (filter (isRecent now 14) incidents))
      as [rgroups ER].
    { apply Forall_forall. intros i Hi. apply filter_In in Hi.
      rewrite Forall_forall in Hloc. now apply Hloc. }
    destruct (analyzeTrends_spec tz _ _ ER) as (trends & -> & _).
    cbn [rbind]. eauto. }
  assert (exists ra, assessAreaRisk now tz incidents = Ok ra) as [ra H6].
  { unfold assessAreaRisk. rewrite EG. cbn [rbind].
    apply for_push_returns. intros [k g] He.
    apply riskOf_returns. apply (Hgroups _ He). }
  exists hs, tp, cs, gc, ph, ra. repeat split; assumption.
Qed.

(** X19.  On a filtered set of at least three incidents the run returns
    exactly when every incident has a location whose normalised form is
    not an inherited property name; it then succeeds, having invoked the
    six detectors once each, in their order, between its two log lines. *)
Theorem run_succeeds_exactly_on_located_incidents
    now tz find options incidents :
  filteredSet now find options = Ok incidents ->
  (3 <= List.length incidents)%nat ->
  ((exists trace result,
      runComprehensiveAnalysis now tz find options = (trace, Ok result))
   <-> Forall well_located incidents)
  /\ forall trace result,
       runComprehensiveAnalysis now tz find options = (trace, Ok result) ->
       success result = true
       /\ (exists line,
             trace
             = [ ConsoleLog startLine;
                 Invoked DetectCrimeHotspots; Invoked AnalyzeTemporalPatterns;
                 Invoked DetectCrimeSeries; Invoked PerformGeographicClustering;
                 Invoked PredictFutureHotspots; Invoked AssessAreaRisk;
                 ConsoleLog line ])
       /\ option_map metaTotalIncidents (metadata result)
          = Some (List.length incidents)
       /\ option_map algorithmsUsed (metadata result)
          = Some [ "hotspots"; "temporalPatterns"; "crimeSeries";
                   "geographicClusters"; "predictiveHotspots";
                   "riskAssessment" ]%string.
Proof.
  intros Hset H3.
  assert (forall trace result,
            runComprehensiveAnalysis now tz find options = (trace, Ok result) ->
            exists hs tp cs gc ph ra,
              detectCrimeHotspots tz incidents = Ok hs
              /\ analyzeTemporalPatterns tz incidents = Ok tp
              /\ detectCrimeSeries tz incidents = Ok cs
              /\ performGeographicClustering incidents = Ok gc
              /\ predictFutureHotspots now tz incidents = Ok ph
              /\ assessAreaRisk now tz incidents = Ok ra) as Hinv.
  { intros trace result Hrun.
    destruct (run_returns_inv _ _ _ _ _ _ Hrun) as (incidents' & Hset' & Hcase).
    assert (incidents' = incidents) as -> by congruence.
    destruct Hcase as [(Hlt & _)|(_ & _ & emitted & Hem & _)]; [lia|].
    destruct Hem as (hs & tp & cs & gc & ph & ra & Hd).
    exists hs, tp, cs, gc, ph, ra. tauto. }
  split; [split|].
  - intros (trace & result & Hrun).
    destruct (Hinv _ _ Hrun) as (hs & _ & _ & _ & _ & _ & H1 & _).
    unfold detectCrimeHotspots in H1.
    destruct (groupByLocation incidents) as [groups|] eqn:EG; [|discriminate].
    apply groupByLocation_safe in EG.
    eapply Forall_impl; [|exact EG]. intro i. apply well_located_safe.
  - intro Hloc.
    destruct (detectors_return now tz incidents) as
      (hs & tp & cs & gc & ph & ra & H1 & H2 & H4 & H5 & H6 & H7);
      [destruct incidents; [simpl in H3; lia|discriminate]|exact Hloc|].
    rewrite (run_of_detectors now tz find options incidents hs tp cs gc ph ra)
      by assumption.
    eauto.
  - intros trace result Hrun.
    destruct (Hinv _ _ Hrun)
      as (hs & tp & cs & gc & ph & ra & H1 & H2 & H4 & H5 & H6 & H7).
    rewrite (run_of_detectors now tz find options incidents hs tp cs gc ph ra)
      in Hrun by assumption.
    injection Hrun as <- <-. cbn [success metadata option_map].
    split; [reflexivity|]. split; [eauto|]. split; reflexivity.
Qed.

Lemma run_succeeds_exactly_on_located_incidents_witness :
  ((exists trace result,
      runComprehensiveAnalysis sample_now 0%Z (sample_store sample_incidents)
        default_options = (trace, Ok result))
   <-> Forall well_located sample_incidents)
  /\ forall trace result,
       runComprehensiveAnalysis sample_now 0%Z (sample_store sample_incidents)
         default_options = (trace, Ok result) ->
       success result = true
       /\ (exists line,
             trace
             = [ ConsoleLog startLine;
                 Invoked DetectCrimeHotspots; Invoked AnalyzeTemporalPatterns;
                 Invoked DetectCrimeSeries; Invoked PerformGeographicClustering;
                 Invoked PredictFutureHotspots; Invoked AssessAreaRisk;
                 ConsoleLog line ])
       /\ option_map metaTotalIncidents (metadata result)
          = Some (List.length sample_incidents)
       /\ option_map algorithmsUsed (metadata result)
          = Some [ "hotspots"; "temporalPatterns"; "crimeSeries";
                   "geographicClusters"; "predictiveHotspots";
                   "riskAssessment" ]%string.
Proof.
  apply (run_succeeds_exactly_on_located_incidents sample_now 0%Z
           (sample_store sample_incidents) default_options sample_incidents).
  - reflexivity.
  - simpl. lia.
Defined.

(** *** The minimum confidence *)

Section FilterSort.

Context {A : Type} (cmp : A -> A -> Q) (f : A -> bool).

Hypothesis cmp_total : forall a b, ~ before cmp a b -> before cmp b a.
Hypothesis cmp_trans :
  forall a b c, before cmp a b -> before cmp b c -> before cmp a c.

Lemma insert_by_head x l :
  Forall (before cmp x) l -> insert_by cmp x l = x :: l.
Proof.
  destruct l as [|y l]; [reflexivity|]. intro H. simpl.
  inversion H as [|? ? Hy _]; subst. apply Qle_bool_iff in Hy.
  now rewrite Hy.
Qed.

Lemma insert_by_filter x l :
  StronglySorted (before cmp) l ->
  filter f (insert_by cmp x l)
  = if f x then insert_by cmp x (filter f l) else filter f l.
Proof.
  induction 1 as [|y l Hl IH Hy].
  - simpl. destruct (f x); reflexivity.
  - cbn [insert_by]. destruct (Qle_bool (cmp x y) 0) eqn:E.
    + cbn [filter]. destruct (f x) eqn:Ex; [|reflexivity].
      symmetry. apply insert_by_head. apply Forall_forall. intros z Hz.
      apply Qle_bool_iff in E.
      assert (In z (y :: l)) as Hz'.
      { change (In z (filter f (y :: l))) in Hz. apply filter_In in Hz. tauto. }
      destruct Hz' as [<-|Hz']; [exact E|].
      rewrite Forall_forall in Hy. apply (cmp_trans x y z E). now apply Hy.
    + cbn [filter]. rewrite IH.
      destruct (f y), (f x); cbn [insert_by]; try rewrite E; reflexivity.
Qed.

(** Filtering commutes with the stable sort. *)
Lemma sort_by_filter l :
  filter f (sort_by cmp l) = sort_by cmp (filter f l).
Proof.
  induction l as [|x l IH]; [reflexivity|].
  cbn [sort_by fold_right]. fold (sort_by cmp l).
  rewrite insert_by_filter by (now apply sort_by_sorted).
  cbn [filter]. rewrite IH. destruct (f x); reflexivity.
Qed.

End FilterSort.

Lemma filter_keeps_twice c1 c2 (l : list Pattern) :
  (c1 <= c2)%Q ->
  filter (keeps c2) (filter (keeps c1) l) = filter (keeps c2) l.
Proof.
  intro Hle. induction l as [|p l IH]; [reflexivity|]. cbn [filter].
  destruct (keeps c1 p) eqn:E1; cbn [filter]; rewrite IH; [reflexivity|].
  destruct (keeps c2 p) eqn:E2; [|reflexivity].
  unfold keeps in *. apply Qle_bool_iff in E2.
  assert (Qle_bool c1 (confidence p) = true) as H
    by (apply Qle_bool_iff; lra).
  congruence.
Qed.

Lemma ranked_filter c1 c2 emitted :
  (c1 <= c2)%Q ->
  filter (keeps c2) (rankedPatterns c1 emitted) = rankedPatterns c2 emitted.
Proof.
  intro Hle. unfold rankedPatterns. rewrite sort_by_filter.
  - now rewrite filter_keeps_twice.
  - intros a b H. apply before_ranks, ranks_total. intro H'.
    apply H. now apply before_ranks.
  - intros a b c H1 H2. apply before_ranks.
    apply (ranks_trans a b c); now apply before_ranks.
Qed.

(** X20.  Two runs over the same store that differ only in the minimum
    confidence: the run with the higher minimum returns the patterns of
    the other run that reach it, in the same order, and the same
    statistics. *)
Theorem raising_the_minimum_only_drops_patterns
    now tz find o1 o2 trace1 trace2 result1 result2 :
  optTimeRange o1 = optTimeRange o2 ->
  optLocation o1 = optLocation o2 ->
  optCrimeTypes o1 = optCrimeTypes o2 ->
  (requestedMinConfidence o1 <= requestedMinConfidence o2)%Q ->
  runComprehensiveAnalysis now tz find o1 = (trace1, Ok result1) ->
  runComprehensiveAnalysis now tz find o2 = (trace2, Ok result2) ->
  patterns result2
  = filter (keeps (requestedMinConfidence o2)) (patterns result1)
  /\ success result2 = success result1
  /\ runStatistics result2 = runStatistics result1.
Proof.
  intros Ht Hl Hc Hle Hrun1 Hrun2.
  assert (filteredSet now find o1 = filteredSet now find o2) as Hsame.
  { unfold filteredSet, requestedTimeRange. now rewrite Ht, Hl, Hc. }
  destruct (run_returns_inv _ _ _ _ _ _ Hrun1) as (incidents & Hset1 & Hcase1).
  assert (filteredSet now find o2 = Ok incidents) as Hset2 by congruence.
  destruct Hcase1 as [(Hlt & _ & ->)|(H3 & Hsucc & _)].
  - destruct (run_returns_inv _ _ _ _ _ _ Hrun2) as (incidents' & Hset' & Hcase2).
    assert (incidents' = incidents) as -> by congruence.
    destruct Hcase2 as [(_ & _ & ->)|(H3 & _)]; [|lia]. now split.
  - destruct (run_success_inv _ _ _ _ _ _ Hrun1 Hsucc)
      as (incidents' & hs & tp & cs & gc & ph & ra
          & Hset' & _ & H1 & H2 & H4 & H5 & H6 & H7).
    assert (incidents' = incidents) as -> by congruence.
    rewrite (run_of_detectors now tz find o1 incidents hs tp cs gc ph ra)
      in Hrun1 by assumption.
    rewrite (run_of_detectors now tz find o2 incidents hs tp cs gc ph ra)
      in Hrun2 by assumption.
    injection Hrun1 as _ <-. injection Hrun2 as _ <-.
    cbn [patterns success runStatistics].
    split; [|split; reflexivity]. symmetry. now apply ranked_filter.
Qed.

Lemma raising_the_minimum_only_drops_patterns_witness :
  patterns
    (match snd (runComprehensiveAnalysis sample_now 0%Z
                  (sample_store sample_incidents) strict_options) with
     | Ok r => r
     | Throw _ => result_of []
     end)
  = filter (keeps (requestedMinConfidence strict_options))
      (patterns (result_of sample_incidents))
  /\ success
       (match snd (runComprehensiveAnalysis sample_now 0%Z
                     (sample_store sample_incidents) strict_options) with
        | Ok r => r
        | Throw _ => result_of []
        end)
     = success (result_of sample_incidents)
  /\ runStatistics
       (match snd (runComprehensiveAnalysis sample_now 0%Z
                     (sample_store sample_incidents) strict_options) with
        | Ok r => r
        | Throw _ => result_of []
        end)
     = runStatistics (result_of sample_incidents).
Proof.
  apply (raising_the_minimum_only_drops_patterns sample_now 0%Z
           (sample_store sample_incidents) default_options strict_options
           (fst (run_of sample_incidents))
           (fst (runComprehensiveAnalysis sample_now 0%Z
                   (sample_store sample_incidents) strict_options))).
  - reflexivity.
  - reflexivity.
  - reflexivity.
  - vm_compute. discriminate.
  - vm_compute. reflexivity.
  - vm_compute. reflexivity.
Defined.

(** *** Time spans of contemporary dates *)

Lemma digits_value_bounds ds : forall a,
  (a * 10 ^ N.of_nat (List.length ds) <= digits_value ds a
   /\ (Forall (fun d => (d < 10)%N) ds ->
       digits_value ds a < (a + 1) * 10 ^ N.of_nat (List.length ds)))%N.
Proof.
  induction ds as [|d ds IH]; intro a.
  - simpl. split; [lia|]. intros _. lia.
  - cbn [digits_value List.length].
    replace (N.of_nat (S (List.length ds)))
      with (N.succ (N.of_nat (List.length ds))) by lia.
    rewrite N.pow_succ_r'.
    destruct (IH (10 * a + d)%N) as [Hlo Hhi].
    assert (0 < 10 ^ N.of_nat (List.length ds))%N as Hpos
      by (apply N.neq_0_lt_0, N.pow_nonzero; discriminate).
    set (P := (10 ^ N.of_nat (List.length ds))%N) in *. split.
    + nia.
    + intro H. inversion H as [|? ? Hd Hds]; subst. specialize (Hhi Hds). nia.
Qed.

Lemma to_uint_head_nonzero n :
  n <> 0%N ->
  exists d ds, udigits (N.to_uint n) = d :: ds /\ (0 < d)%N.
Proof.
  intro Hn.
  pose proof (DecimalN.Unsigned.to_of (N.to_uint n)) as Hnorm.
  rewrite DecimalN.Unsigned.of_to in Hnorm.
  set (u := N.to_uint n) in *.
  assert (N.of_uint u = n) as Hval by apply DecimalN.Unsigned.of_to.
  unfold Decimal.unorm in Hnorm.
  pose proof (DecimalFacts.nzhead_nonzero u) as Hnz.
  destruct (Decimal.nzhead u) eqn:E.
  - exfalso. apply Hn. rewrite <- Hval, Hnorm. reflexivity.
  - exfalso. now apply (Hnz u0).
  - rewrite Hnorm. simpl. eexists _, _. split; [reflexivity|lia].
  - rewrite Hnorm. simpl. eexists _, _. split; [reflexivity|lia].
  - rewrite Hnorm. simpl. eexists _, _. split; [reflexivity|lia].
  - rewrite Hnorm. simpl. eexists _, _. split; [reflexivity|lia].
  - rewrite Hnorm. simpl. eexists _, _. split; [reflexivity|lia].
  - rewrite Hnorm. simpl. eexists _, _. split; [reflexivity|lia].
  - rewrite Hnorm. simpl. eexists _, _. split; [reflexivity|lia].
  - rewrite Hnorm. simpl. eexists _, _. split; [reflexivity|lia].
  - rewrite Hnorm. simpl. eexists _, _. split; [reflexivity|lia].
Qed.

Lemma contemporary_width t : contemporary t -> has_width 13 t.
Proof.
  unfold contemporary. intros [Hlo Hhi].
  assert (0 <= t)%Z as H0 by lia. split; [exact H0|].
  destruct (string_of_Z_digits t H0) as [-> Hval].
  rewrite string_length_digits.
  set (n := Z.to_N t) in *.
  assert (10 ^ 12 <= n < 10 ^ 13)%N as [Hnlo Hnhi] by (unfold n; lia).
  destruct (to_uint_head_nonzero n) as (d & ds & Hds & Hd); [lia|].
  rewrite of_uint_value, Hds in Hval. cbn [digits_value] in Hval.
  pose proof (udigits_small (N.to_uint n)) as Hsmall.
  rewrite Hds in Hsmall. inversion Hsmall as [|? ? Hd10 Hrest]; subst.
  destruct (digits_value_bounds ds (10 * 0 + d)%N) as [Hlow Hup].
  specialize (Hup Hrest). rewrite Hval in Hlow, Hup.
  rewrite Hds. cbn [List.length]. f_equal.
  assert (0 < 10 ^ N.of_nat (List.length ds))%N as Hpos
    by (apply N.neq_0_lt_0, N.pow_nonzero; discriminate).
  assert (10 ^ N.of_nat (List.length ds) < 10 ^ 13)%N as H1 by nia.
  assert (10 ^ 12 < 10 ^ N.succ (N.of_nat (List.length ds)))%N as H2
    by (rewrite N.pow_succ_r'; nia).
  apply N.pow_lt_mono_r_iff in H1; [|lia].
  apply N.pow_lt_mono_r_iff in H2; [|lia]. lia.
Qed.

(** X21.  On incidents dated from 9 September 2001 to 20 November 2286,
    whose time values all have thirteen digits, the time span is the
    distance between the earliest and the latest incident: it bounds the
    distance of any two incidents of the group and is attained by two of
    them. *)
Theorem time_span_of_contemporary_dates g :
  Forall (fun i => contemporary (dateTime i)) g ->
  calculateTimeSpread g = calculateTimeSpan g
  /\ (forall i j, In i g -> In j g ->
        (dateTime i - dateTime j <= calculateTimeSpan g)%Z)
  /\ (g <> [] ->
      exists i j, In i g /\ In j g
        /\ calculateTimeSpan g = (dateTime i - dateTime j)%Z).
Proof.
  intro Hc. split; [reflexivity|].
  assert (calculateTimeSpan g = spec_time_spread g) as ->.
  { apply (calculateTimeSpread_as_specified 13).
    eapply Forall_impl; [|exact Hc]. intro i. apply contemporary_width. }
  unfold spec_time_spread, earliest, latest.
  destruct g as [|i0 g]; [split; [intros i j []|congruence]|].
  set (ts := map dateTime (i0 :: g)).
  assert (In (hd 0%Z ts) ts) as Hd by (now left).
  destruct (fold_min_spec ts (hd 0%Z ts) Hd) as [Hmin1 Hmin2].
  destruct (fold_max_spec ts (hd 0%Z ts) Hd) as [Hmax1 Hmax2].
  split.
  - intros i j Hi Hj.
    pose proof (Hmax2 _ (in_map dateTime _ _ Hi)).
    pose proof (Hmin2 _ (in_map dateTime _ _ Hj)). lia.
  - intros _. apply in_map_iff in Hmin1, Hmax1.
    destruct Hmin1 as (j & Hj & HjIn). destruct Hmax1 as (i & Hi & HiIn).
    exists i, j. split; [exact HiIn|]. split; [exact HjIn|]. now rewrite Hi, Hj.
Qed.

Lemma time_span_of_contemporary_dates_witness :
  calculateTimeSpread sample_incidents = calculateTimeSpan sample_incidents
  /\ (forall i j, In i sample_incidents -> In j sample_incidents ->
        (dateTime i - dateTime j <= calculateTimeSpan sample_incidents)%Z)
  /\ (sample_incidents <> [] ->
      exists i j, In i sample_incidents /\ In j sample_incidents
        /\ calculateTimeSpan sample_incidents = (dateTime i - dateTime j)%Z).
Proof.
  apply (time_span_of_contemporary_dates sample_incidents).
  repeat constructor; vm_compute; discriminate.
Defined.

(** *** The time range of a query *)

(** X22.  A time-range tag the service does not know selects the thirty-day
    window, exactly as when the option is left out. *)
Theorem unrecognised_time_range_means_thirty_days now find options tag :
  optTimeRange options = Some tag ->
  tag <> ""%string -> tag <> "7days"%string -> tag <> "90days"%string ->
  tag <> "1year"%string ->
  filteredSet now find options
  = filteredSet now find
      (mkOptions None (optLocation options) (optCrimeTypes options)
         (optMinConfidence options))
  /\ exists regex types,
       filteredSet now find options
       = find (mkMongoFilter (Some (now - 30 * msPerDay)%Z) regex types).
Proof.
  intros Htag H0 H7 H90 H1.
  unfold filteredSet, requestedTimeRange, getFilteredIncidents.
  rewrite Htag. cbn [optTimeRange optLocation optCrimeTypes].
  destruct tag as [|c r]; [congruence|].
  apply String.eqb_neq in H7, H90, H1. rewrite H7, H90, H1.
  change ("30days" =? "7days")%string with false.
  change ("30days" =? "30days")%string with true.
  cbv iota.
  assert ((if (String c r =? "30days")%string
           then Some (now - 30 * 24 * 60 * 60 * 1000)%Z
           else Some (now - 30 * 24 * 60 * 60 * 1000)%Z)
          = Some (now - 30 * msPerDay)%Z) as ->
    by (destruct (String c r =? "30days")%string; reflexivity).
  split; [reflexivity|]. eauto.
Qed.

Lemma unrecognised_time_range_means_thirty_days_witness :
  filteredSet sample_now (sample_store sample_incidents) (ranged_options "2weeks")
  = filteredSet sample_now (sample_store sample_incidents)
      (mkOptions None (optLocation (ranged_options "2weeks"))
         (optCrimeTypes (ranged_options "2weeks"))
         (optMinConfidence (ranged_options "2weeks")))
  /\ exists regex types,
       filteredSet sample_now (sample_store sample_incidents)
         (ranged_options "2weeks")
       = sample_store sample_incidents
           (mkMongoFilter (Some (sample_now - 30 * msPerDay)%Z) regex types).
Proof.
  apply (unrecognised_time_range_means_thirty_days sample_now
           (sample_store sample_incidents) (ranged_options "2weeks") "2weeks");
    [reflexivity|discriminate..].
Defined.

(** *** The modes of the configuration *)

(** X23.  The configuration is in development mode exactly when [NODE_ENV]
    is unset, empty or ['development'], in production or test mode
    exactly when it is ['production'] or ['test']; no two modes hold
    together. *)
Theorem configuration_modes (env_NODE_ENV : option string) :
  (isDevelopment (config env_NODE_ENV) = true
   <-> env_NODE_ENV = None \/ env_NODE_ENV = Some ""%string
       \/ env_NODE_ENV = Some "development"%string)
  /\ (isProduction (config env_NODE_ENV) = true
      <-> env_NODE_ENV = Some "production"%string)
  /\ (isTesting (config env_NODE_ENV) = true
      <-> env_NODE_ENV = Some "test"%string)
  /\ isDevelopment (config env_NODE_ENV) && isProduction (config env_NODE_ENV)
     = false
  /\ isDevelopment (config env_NODE_ENV) && isTesting (config env_NODE_ENV)
     = false
  /\ isProduction (config env_NODE_ENV) && isTesting (config env_NODE_ENV)
     = false.
Proof.
  unfold isDevelopment, isProduction, isTesting, config. cbn [NODE_ENV].
  assert (forall s a b, a <> b ->
            ((s =? a) && (s =? b))%string = false) as Hexcl.
  { intros s a b Hab. destruct (s =? a)%string eqn:Ea; [|reflexivity].
    apply String.eqb_eq in Ea. subst s. now apply String.eqb_neq. }
  split; [|split; [|split; [|split; [|split]]]];
    try (apply Hexcl; discriminate).
  - destruct env_NODE_ENV as [[|c r]|]; cbn [env_or].
    + split; auto.
    + rewrite String.eqb_eq. split.
      * intros ->. auto.
      * intros [H|[H|H]]; congruence.
    + split; auto.
  - destruct env_NODE_ENV as [[|c r]|]; cbn [env_or];
      try (split; [discriminate|congruence]).
    rewrite String.eqb_eq. split; congruence.
  - destruct env_NODE_ENV as [[|c r]|]; cbn [env_or];
      try (split; [discriminate|congruence]).
    rewrite String.eqb_eq. split; congruence.
Qed.

(** *** Locations that are always at high risk *)





(** *** Risk levels and scores *)

Lemma categorizeRiskLevel_monotone s s' :
  (s <= s')%Q ->
  (riskRank (categorizeRiskLevel s) <= riskRank (categorizeRiskLevel s'))%nat.
Proof.
  intro H. unfold categorizeRiskLevel.
  destruct (Qle_bool (7 # 10) s) eqn:E7.
  - apply Qle_bool_iff in E7.
    assert (Qle_bool (7 # 10) s' = true) as -> by (apply Qle_bool_iff; lra).
    simpl. lia.
  - destruct (Qle_bool (5 # 10) s) eqn:E5.
    + apply Qle_bool_iff in E5.
      destruct (Qle_bool (7 # 10) s'); [simpl; lia|].
      assert (Qle_bool (5 # 10) s' = true) as -> by (apply Qle_bool_iff; lra).
      simpl. lia.
    + simpl. lia.
Qed.

(** X25.  Risk levels are monotone: a higher score never gives a lower
    level, and a hotspot with more confidence, a higher average severity
    or more incidents is never at a lower risk level. *)
Theorem risk_levels_are_monotone :
  (forall s s', (s <= s')%Q ->
     (riskRank (categorizeRiskLevel s)
      <= riskRank (categorizeRiskLevel s'))%nat)
  /\ (forall c c' s s' n n',
        (c <= c')%Q -> (s <= s')%Q -> (n <= n')%nat ->
        (riskRank (assessRiskLevel c s n)
         <= riskRank (assessRiskLevel c' s' n'))%nat).
Proof.
  split; [exact categorizeRiskLevel_monotone|].
  intros c c' s s' n n' Hc Hs Hn. unfold assessRiskLevel.
  apply categorizeRiskLevel_monotone.
  assert (Qmin 1 (Qn n / 10) <= Qmin 1 (Qn n' / 10))%Q as Hm.
  { apply Q.min_le_compat_l. apply Qn_le in Hn. rewrite !Qdiv_numeral. lra. }
  rewrite !(Qdiv_numeral s), !(Qdiv_numeral s').
  set (m := Qmin 1 (Qn n / 10)) in *. set (m' := Qmin 1 (Qn n' / 10)) in *.
  lra.
Qed.

(** X26.  The crime density of a non-empty group is positive and never
    exceeds the number of its incidents, which it equals when the time
    span the service computes is at most one day. *)
Theorem density_is_at_most_the_count g :
  g <> [] ->
  (0 < calculateCrimeDensity g)%Q
  /\ (calculateCrimeDensity g <= Qn (List.length g))%Q
  /\ ((calculateTimeSpan g <= msPerDay)%Z ->
      calculateCrimeDensity g == Qn (List.length g)).
Proof.
  intro Hne.
  assert (0 < Qn (List.length g))%Q as Hn
    by (apply Qn_pos; destruct g; [congruence|simpl; lia]).
  split; [|split; [|apply density_of_a_day]].
  - unfold calculateCrimeDensity. cbv zeta.
    set (d := Qmax 1 _).
    assert (1 <= d)%Q as Hd by apply Q.le_max_l.
    apply Qlt_shift_div_l; [lra|]. lra.
  - unfold calculateCrimeDensity. cbv zeta.
    set (d := Qmax 1 _).
    assert (1 <= d)%Q as Hd by apply Q.le_max_l.
    apply Qle_shift_div_r; [lra|].
    rewrite <- (Qmult_1_r (Qn (List.length g))) at 1.
    apply Qmult_le_l; assumption.
Qed.

Lemma density_is_at_most_the_count_witness :
  (0 < calculateCrimeDensity sample_incidents)%Q
  /\ (calculateCrimeDensity sample_incidents
      <= Qn (List.length sample_incidents))%Q
  /\ ((calculateTimeSpan sample_incidents <= msPerDay)%Z ->
      calculateCrimeDensity sample_incidents
      == Qn (List.length sample_incidents)).
Proof.
  apply (density_is_at_most_the_count sample_incidents). discriminate.
Defined.

(** *** The geographic cluster *)

(** X27.  The pattern of the geographic clustering, when there is one,
    has a confidence between 0.5 and 0.8, so the confidence gate of 0.4
    never stops it; its risk level is medium with four or five incidents
    and high with six or more. *)
Theorem clusters_are_never_low_risk incidents out p :
  performGeographicClustering incidents = Ok out -> In p out ->
  ((5 # 10) <= confidence p <= (8 # 10))%Q
  /\ ((List.length incidents < 6)%nat -> riskLevel p = RiskMedium)
  /\ ((6 <= List.length incidents)%nat -> riskLevel p = RiskHigh).
Proof.
  intros Hrun HIn.
  destruct (performGeographicClustering_inv _ _ _ Hrun HIn)
    as (H4 & Hc & _ & _ & Hrisk).
  rewrite Hrisk, Hc.
  destruct (categorizeRiskLevel_spec
              (Qmin (8 # 10) (Qn (List.length incidents) / 8)))
    as (Hhigh & Hmed & _).
  pose proof (Qn_le _ _ H4) as H4q. change (Qn 4) with (4 # 1)%Q in H4q.
  assert ((5 # 10) <= Qmin (8 # 10) (Qn (List.length incidents) / 8))%Q as Hlo
    by (apply Q.min_glb; [lra|rewrite Qdiv_numeral; lra]).
  split; [split; [exact Hlo|apply Q.le_min_l]|]. split; intro Hn.
  - apply Hmed. split; [exact Hlo|].
    apply Qle_lt_trans with (Qn (List.length incidents) / 8)%Q;
      [apply Q.le_min_r|].
    assert (List.length incidents <= 5)%nat as H5 by lia.
    apply Qn_le in H5. change (Qn 5) with (5 # 1)%Q in H5.
    rewrite Qdiv_numeral. lra.
  - apply Hhigh. apply Qn_le in Hn. change (Qn 6) with (6 # 1)%Q in Hn.
    apply Q.min_glb; [lra|rewrite Qdiv_numeral; lra].
Qed.

Lemma clusters_are_never_low_risk_witness :
  let p := hd no_pattern
             (patterns_of (performGeographicClustering sample_incidents)) in
  ((5 # 10) <= confidence p <= (8 # 10))%Q
  /\ ((List.length sample_incidents < 6)%nat -> riskLevel p = RiskMedium)
  /\ ((6 <= List.length sample_incidents)%nat -> riskLevel p = RiskHigh).
Proof.
  apply (clusters_are_never_low_risk sample_incidents
           (patterns_of (performGeographicClustering sample_incidents))).
  - vm_compute. reflexivity.
  - vm_compute. left. reflexivity.
Defined.

(** *** The query of a run *)

(** X28.  A run queries the store once, with a document read off its
    options: a date bound unless the time range is the empty string, 7,
    30, 90 or 365 days before the clock; the location as a pattern unless
    it is absent or empty; the crime types unless they are absent or
    empty. *)
Theorem query_document_of_a_run now find options :
  exists filter,
    filteredSet now find options = find filter
    /\ (dateTimeGte filter = None <-> optTimeRange options = Some ""%string)
    /\ (forall start, dateTimeGte filter = Some start ->
          In (now - start)%Z
            [7 * msPerDay; 30 * msPerDay; 90 * msPerDay; 365 * msPerDay]%Z)
    /\ (locationRegex filter = None
        <-> optLocation options = None \/ optLocation options = Some ""%string)
    /\ (forall s, locationRegex filter = Some s -> optLocation options = Some s)
    /\ (typeIn filter = None
        <-> optCrimeTypes options = None \/ optCrimeTypes options = Some [])
    /\ (forall l, typeIn filter = Some l -> optCrimeTypes options = Some l).
Proof.
  unfold filteredSet, getFilteredIncidents, requestedTimeRange.
  eexists. split; [reflexivity|].
  cbn [dateTimeGte locationRegex typeIn].
  split; [|split; [|split; [|split; [|split]]]].
  - destruct (optTimeRange options) as [[|c r]|].
    + split; auto.
    + split; [|discriminate].
      destruct (String c r =? "7days")%string; [discriminate|].
      destruct (String c r =? "30days")%string; [discriminate|].
      destruct (String c r =? "90days")%string; [discriminate|].
      destruct (String c r =? "1year")%string; discriminate.
    + split; discriminate.
  - intros start.
    assert (forall t : string,
              t <> ""%string ->
              match t with
              | ""%string => None
              | String _ _ =>
                  if (t =? "7days")%string
                  then Some (now - 7 * 24 * 60 * 60 * 1000)%Z
                  else if (t =? "30days")%string
                  then Some (now - 30 * 24 * 60 * 60 * 1000)%Z
                  else if (t =? "90days")%string
                  then Some (now - 90 * 24 * 60 * 60 * 1000)%Z
                  else if (t =? "1year")%string
                  then Some (now - 365 * 24 * 60 * 60 * 1000)%Z
                  else Some (now - 30 * 24 * 60 * 60 * 1000)%Z
              end = Some start ->
              In (now - start)%Z
                [7 * msPerDay; 30 * msPerDay; 90 * msPerDay; 365 * msPerDay]%Z)
      as Hcase.
    { intros t Ht. destruct t as [|c r]; [congruence|].
      unfold msPerDay.
      destruct (String c r =? "7days")%string;
        [intros [= <-]; left; lia|].
      destruct (String c r =? "30days")%string;
        [intros [= <-]; right; left; lia|].
      destruct (String c r =? "90days")%string;
        [intros [= <-]; right; right; left; lia|].
      destruct (String c r =? "1year")%string;
        intros [= <-]; [right; right; right; left; lia|right; left; lia]. }
    destruct (optTimeRange options) as [[|c r]|].
    + discriminate.
    + apply (Hcase (String c r)). discriminate.
    + apply (Hcase "30days"%string). discriminate.
  - destruct (optLocation options) as [[|c r]|].
    + split; auto.
    + split; [discriminate|intros [H|H]; discriminate].
    + split; auto.
  - destruct (optLocation options) as [[|c r]|]; intros s H;
      try discriminate. exact H.
  - destruct (optCrimeTypes options) as [[|t l]|].
    + split; auto.
    + split; [discriminate|intros [H|H]; discriminate].
    + split; auto.
  - destruct (optCrimeTypes options) as [[|t l]|]; intros l' H;
      try discriminate. exact H.
Qed.
